(** * Pdf-Fill: template fields, mappings and document generation

    A shallow embedding of
      - [src/services/pdfService.ts]  ([analyzePDF], [generateFilledPDF]),
      - the [types] module            ([Profile], [TemplateField], [Mapping],
                                       [Template]),
      - [src/components/TemplateEditor.tsx] and its desktop variant
        ([addManualField], [updateField], [deleteField], [saveMapping],
         the [onResize] pointer handler).

    Conventions of the embedding.
      - A JavaScript [number] holding a length in PDF points is a rational
        ([Q]): finite doubles without rounding, no NaN and no infinities.
        No statement rests on an identity between rounded results. Page
        indices and clock readings are integers ([Z]).
      - An optional property ([x?: number]) is an [option]; [undefined] is
        [None].
      - A string is a Rocq string holding the UTF-8 encoding of the
        JavaScript string.
      - The own properties of a [Record<string,string>] are a
        [gmap string string]; reading a key also sees what the object
        inherits from [Object.prototype].
      - What the program takes from its environment is a parameter ([Host]):
        the case mappings of the JavaScript engine, and of pdf-lib the
        parser, the serialiser and the Helvetica font. [HostLaws] states the
        little that is assumed of them.
      - The pdf-lib objects ([PDFDocument], its form and its pages) are
        modelled by the state they expose to this program: the named form
        fields with their text, and per page its size and the text
        operations drawn on it. [load], [getField], [setText], [drawText]
        and [save] can throw. *)

From Stdlib Require Import Ascii String QArith Qminmax.
From stdpp Require Import base option list gmap strings pretty.

Local Open Scope string_scope.
Local Open Scope list_scope.

(** ** JavaScript primitives *)

Module JS.

(** [a || d] on an optional number: [undefined], [0] (and NaN, which the
    rational model does not contain) are falsy. *)
Definition num_or (a : option Q) (d : Q) : Q :=
  match a with
  | Some v => if Qeq_bool v 0 then d else v
  | None => d
  end.

(** [Math.max(a, b)] *)
Definition Math_max (a b : Q) : Q := Qmax a b.

(** What reading a property can give this program: a string, or a member
    inherited from [Object.prototype] (a function, or for [__proto__] the
    prototype itself). The latter is truthy and has no string methods. *)
Inductive Value :=
| VString (s : string)
| VObject.

(** The property names of [Object.prototype] (ECMA-262, 20.1.3 and
    B.2.2.1). *)
Definition Object_prototype : list string :=
  ["constructor"; "hasOwnProperty"; "isPrototypeOf"; "propertyIsEnumerable";
   "toLocaleString"; "toString"; "valueOf"; "__proto__";
   "__defineGetter__"; "__defineSetter__"; "__lookupGetter__";
   "__lookupSetter__"].

(** [obj[key]] on a plain object whose own properties are [obj]: the own
    property, else the inherited member, else [undefined]. *)
Definition get (obj : gmap string string) (key : string) : option Value :=
  match obj !! key with
  | Some v => Some (VString v)
  | None => if decide (key ∈ Object_prototype) then Some VObject else None
  end.

(** [a || ''] *)
Definition or_empty (a : option Value) : Value :=
  match a with
  | Some (VString v) => VString v
  | Some VObject => VObject
  | None => VString ""
  end.

(** [s.length], the number of UTF-16 code units: in the UTF-8 encoding a
    continuation byte adds none, the lead byte of a four-byte sequence
    two, every other byte one. *)
Definition units (c : ascii) : nat :=
  let n := nat_of_ascii c in
  if (n <? 128)%nat then 1%nat
  else if (n <? 192)%nat then 0%nat
  else if (n <? 240)%nat then 1%nat
  else 2%nat.

Fixpoint utf16_length (s : string) : nat :=
  match s with
  | EmptyString => 0%nat
  | String c r => (units c + utf16_length r)%nat
  end.

(** The ASCII strings, and the case foldings of their letters. *)
Definition is_lower (c : ascii) : bool :=
  (97 <=? nat_of_ascii c)%nat && (nat_of_ascii c <=? 122)%nat.
Definition is_upper (c : ascii) : bool :=
  (65 <=? nat_of_ascii c)%nat && (nat_of_ascii c <=? 90)%nat.

Definition upper_char (c : ascii) : ascii :=
  if is_lower c then ascii_of_nat (nat_of_ascii c - 32) else c.
Definition lower_char (c : ascii) : ascii :=
  if is_upper c then ascii_of_nat (nat_of_ascii c + 32) else c.

Fixpoint map_string (f : ascii -> ascii) (s : string) : string :=
  match s with
  | EmptyString => EmptyString
  | String c r => String (f c) (map_string f r)
  end.

Fixpoint all_chars (P : ascii → bool) (s : string) : bool :=
  match s with
  | EmptyString => true
  | String c r => P c && all_chars P r
  end.

Definition is_ascii (s : string) : bool :=
  all_chars (λ c, (nat_of_ascii c <? 128)%nat) s.

(** Every letter a-z replaced by its capital, everything else kept; and the
    converse. *)
Definition ascii_upper (s : string) : string := map_string upper_char s.
Definition ascii_lower (s : string) : string := map_string lower_char s.

(** The outcome of an [async] function. *)
Inductive Promise (A : Type) : Type :=
| Resolved (a : A)
| Rejected.
Arguments Resolved {A} a.
Arguments Rejected {A}.

End JS.
Import JS.

(** ** Data model ([types]) *)

Record Profile := mkProfile {
  profile_id : option Z;
  profile_name : string;
  profile_fields : gmap string string
}.

Inductive FieldType := TEXT | CHECKBOX.

Record TemplateField := mkField {
  id : string;
  name : string;
  type : FieldType;
  isManual : bool;
  pageIndex : Z;
  x : option Q;
  y : option Q;
  width : option Q;
  height : option Q;
  fontSize : option Q
}.

(** [transformation?: 'none' | 'uppercase' | 'lowercase'] is kept as the
    optional string the generator compares against. *)
Record Mapping := mkMapping {
  templateFieldId : string;
  profileKey : string;
  transformation : option string
}.

Definition ArrayBuffer := list Z.
Definition Uint8Array := list Z.

Record Template := mkTemplate {
  template_id : option Z;
  template_name : string;
  pdfData : ArrayBuffer;
  fields : list TemplateField;
  mappings : list Mapping;
  createdAt : Z
}.

(** ** The pdf-lib collaborators *)

Module PdfLib.

(** A form field: a text field with its current text, its maximum length
    and whether it was written since the document was loaded, or a field of
    another class (check box, drop-down, ...), which has no [setText]. *)
Inductive PDFField :=
| PDFTextField (text : option string) (maxLength : option nat) (dirty : bool)
| PDFOtherField.

(** The options object passed to [page.drawText]. The colour is the
    constant black and is left out; the font is passed beside it. *)
Record DrawTextOptions := mkDrawText {
  dt_x : Q;
  dt_y : Q;
  dt_size : Q;
  dt_maxWidth : option Q
}.

Record PDFPage := mkPage {
  page_width : Q;
  page_height : Q;
  page_texts : list (string * DrawTextOptions)
}.

Record PDFDocument := mkDoc {
  doc_form : list (string * PDFField);
  doc_pages : list PDFPage
}.

(** An embedded font, by the texts it can lay out and encode. *)
Definition PDFFont := string → bool.

(** [form.getField(name)]: the field of that name, [None] when pdf-lib
    throws because there is none. *)
Definition getField (form : list (string * PDFField)) (n : string)
  : option (nat * PDFField) :=
  prod_map Datatypes.id snd <$> list_find (λ e, e.1 = n) form.

(** [field.setText(value)]: [None] when the call throws: the object has no
    such method, the value is not a string, or it is longer than the
    field's maximum length. The empty string removes the field's value. *)
Definition setText (f : PDFField) (value : Value) : option PDFField :=
  match f, value with
  | PDFTextField _ maxLength _, VString text =>
      if match maxLength with
         | Some n => (n <? utf16_length text)%nat
         | None => false
         end
      then None
      else Some (PDFTextField (if decide (text = "") then None else Some text)
                              maxLength true)
  | _, _ => None
  end.

(** [pages[i]] for a JavaScript number [i]. *)
Definition page_at (pages : list PDFPage) (i : Z) : option PDFPage :=
  if decide (0 ≤ i)%Z then pages !! Z.to_nat i else None.

(** [page.drawText(text, { ..., font })] on page [i] of the document:
    [None] when the call throws, for a value that is not a string or that
    the font cannot encode. *)
Definition drawText (pages : list PDFPage) (i : Z) (text : Value)
    (font : PDFFont) (o : DrawTextOptions) : option (list PDFPage) :=
  match text with
  | VString s =>
      if font s
      then Some (alter (λ p, mkPage (page_width p) (page_height p)
                                    (page_texts p ++ [(s, o)]))
                       (Z.to_nat i) pages)
      else None
  | VObject => None
  end.

End PdfLib.
Import PdfLib.

(** ** The environment *)

(** What the service calls and this repository does not define:
    [String.prototype.toUpperCase] and [toLowerCase] of the engine, and of
    pdf-lib [PDFDocument.load] ([None]: it throws), [pdfDoc.save] ([None]:
    it throws) and the font [embedFont(StandardFonts.Helvetica)] gives. *)
Record Host := mkHost {
  toUpperCase : string → string;
  toLowerCase : string → string;
  load : ArrayBuffer → option PDFDocument;
  save : PDFDocument → option Uint8Array;
  Helvetica : PDFFont
}.

(** The characters from the space to the tilde. *)
Definition printable (s : string) : bool :=
  all_chars (λ c, (32 <=? nat_of_ascii c)%nat && (nat_of_ascii c <=? 126)%nat) s.

(** What is assumed of a host: on ASCII strings the case mappings fold the
    letters and keep the rest, and Helvetica (WinAnsi) encodes every text
    of printable ASCII characters. *)
Record HostLaws (h : Host) : Prop := mkLaws {
  toUpperCase_ascii : ∀ s, is_ascii s = true → toUpperCase h s = ascii_upper s;
  toLowerCase_ascii : ∀ s, is_ascii s = true → toLowerCase h s = ascii_lower s;
  Helvetica_printable : ∀ s, printable s = true → Helvetica h s = true
}.

(** ** [src/services/pdfService.ts] *)

(** What the generator did to its collaborators, in order: the
    [field.setText(value)] and [page.drawText] calls that returned. *)
Inductive Call :=
| FormSetText (fieldName : string) (value : Value)
| PageDrawText (page : Z) (text : Value) (opts : DrawTextOptions).

(** The state threaded through the [for ... of template.mappings] loop: the
    loaded document, the calls made so far and the [console.warn] lines (the
    id of the field that could not be filled). *)
Record GenState := mkGen {
  gs_doc : PDFDocument;
  gs_calls : list Call;
  gs_console : list string
}.

(** How a statement or the loop ends: normally, or by an exception that
    nothing catches. Both carry the state reached. *)
Inductive Completion :=
| Normal (st : GenState)
| Thrown (st : GenState).

(** The resolved value of [generateFilledPDF]: the saved bytes, together with
    the final loop state they were serialised from. *)
Record Generated := mkGenerated {
  out_bytes : Uint8Array;
  out_state : GenState
}.

Section Service.

Variable h : Host.

(** [analyzePDF(arrayBuffer, fileName)]; [now] is the reading of
    [Date.now()]. *)
Definition analyzePDF (now : Z) (arrayBuffer : ArrayBuffer) (fileName : string)
  : Promise Template :=
  match load h arrayBuffer with
  | None => Rejected
  | Some pdfDoc =>
      let templateFields :=
        (λ f : string * PDFField,
           mkField f.1 f.1 TEXT false 0 None None None None None)
          <$> doc_form pdfDoc in
      Resolved (mkTemplate None fileName arrayBuffer templateFields [] now)
  end.

(** [value.toUpperCase()] and [value.toLowerCase()]: a [TypeError] ([None])
    when the value is not a string. *)
Definition call_toUpperCase (value : Value) : option Value :=
  match value with
  | VString s => Some (VString (toUpperCase h s))
  | VObject => None
  end.

Definition call_toLowerCase (value : Value) : option Value :=
  match value with
  | VString s => Some (VString (toLowerCase h s))
  | VObject => None
  end.

(** The value computed for one mapping (lines 48-52); [None] when a
    transformation throws. *)
Definition mappingValue (profile : Profile) (mapping : Mapping)
  : option Value :=
  let value := or_empty (get (profile_fields profile) (profileKey mapping)) in
  value ← (if decide (transformation mapping = Some "uppercase")
           then call_toUpperCase value else Some value);
  if decide (transformation mapping = Some "lowercase")
  then call_toLowerCase value else Some value.

(** The [try] block of lines 56-60: [None] when it throws. *)
Definition fillAcroField (form : list (string * PDFField))
    (fieldName : string) (value : Value) : option (list (string * PDFField)) :=
  '(i, field) ← getField form fieldName;
  field' ← setText field value;
  Some (<[i := (fieldName, field')]> form).

(** One iteration of the loop over [template.mappings] (lines 45-88). *)
Definition fillMapping (template : Template) (profile : Profile)
    (st : GenState) (mapping : Mapping) : Completion :=
  match list_find (λ f, id f = templateFieldId mapping) (fields template) with
  | None => Normal st
  | Some (_, fieldDef) =>
      match mappingValue profile mapping with
      | None => Thrown st
      | Some value =>
          let pdfDoc := gs_doc st in
          if negb (isManual fieldDef) then
            match fillAcroField (doc_form pdfDoc) (id fieldDef) value with
            | Some form' =>
                Normal (mkGen (mkDoc form' (doc_pages pdfDoc))
                              (gs_calls st ++ [FormSetText (id fieldDef) value])
                              (gs_console st))
            | None =>
                Normal (mkGen pdfDoc (gs_calls st)
                              (gs_console st ++ [id fieldDef]))
            end
          else
            match page_at (doc_pages pdfDoc) (pageIndex fieldDef),
                  x fieldDef, y fieldDef with
            | Some page, Some field_x, Some _ =>
                let page_h := page_height page in
                let size := num_or (fontSize fieldDef) 12 in
                let pdfY :=
                  (page_h - num_or (y fieldDef) 0
                          - num_or (height fieldDef) 20 + 4)%Q in
                let opts := mkDrawText field_x pdfY size (width fieldDef) in
                match drawText (doc_pages pdfDoc) (pageIndex fieldDef)
                               value (Helvetica h) opts with
                | Some pages' =>
                    Normal (mkGen (mkDoc (doc_form pdfDoc) pages')
                                  (gs_calls st ++
                                     [PageDrawText (pageIndex fieldDef) value opts])
                                  (gs_console st))
                | None => Thrown st
                end
            | _, _, _ => Normal st
            end
      end
  end.

(** The loop: an exception leaves it. *)
Fixpoint fillMappings (template : Template) (profile : Profile)
    (ms : list Mapping) (st : GenState) : Completion :=
  match ms with
  | [] => Normal st
  | mapping :: rest =>
      match fillMapping template profile st mapping with
      | Normal st' => fillMappings template profile rest st'
      | Thrown st' => Thrown st'
      end
  end.

(** [generateFilledPDF(template, profile)] *)
Definition generateFilledPDF (template : Template) (profile : Profile)
  : Promise Generated :=
  match load h (pdfData template) with
  | None => Rejected
  | Some pdfDoc =>
      match fillMappings template profile (mappings template)
                         (mkGen pdfDoc [] []) with
      | Thrown _ => Rejected
      | Normal st =>
          match save h (gs_doc st) with
          | None => Rejected
          | Some bytes => Resolved (mkGenerated bytes st)
          end
      end
  end.

End Service.

(** ** The template editor *)

(** A [Partial<TemplateField>]: the properties an update carries. *)
Record FieldUpdates := mkUpdates {
  u_id : option string;
  u_name : option string;
  u_type : option FieldType;
  u_isManual : option bool;
  u_pageIndex : option Z;
  u_x : option Q;
  u_y : option Q;
  u_width : option Q;
  u_height : option Q;
  u_fontSize : option Q
}.

Definition noUpdates : FieldUpdates :=
  mkUpdates None None None None None None None None None None.

(** [{ ...f, ...updates }] *)
Definition spread (f : TemplateField) (u : FieldUpdates) : TemplateField :=
  mkField (default (id f) (u_id u)) (default (name f) (u_name u))
          (default (type f) (u_type u)) (default (isManual f) (u_isManual u))
          (default (pageIndex f) (u_pageIndex u))
          (from_option Some (x f) (u_x u)) (from_option Some (y f) (u_y u))
          (from_option Some (width f) (u_width u))
          (from_option Some (height f) (u_height u))
          (from_option Some (fontSize f) (u_fontSize u)).

(** The second argument of [db.templates.update(key, changes)]. *)
Inductive TemplateChanges :=
| WholeTemplate (t : Template)
| FieldsOnly (fs : list TemplateField).

Record DbUpdate := mkDbUpdate {
  upd_key : option Z;
  upd_changes : TemplateChanges
}.

(** The component state ([useState] cells) and the updates sent to the
    [templates] table, oldest first. *)
Record EditorState := mkEditor {
  template : option Template;
  currentPage : Z;
  scale : Q;
  selectedFieldId : option string;
  showProperties : bool;
  db_updates : list DbUpdate
}.

Definition with_fields (t : Template) (fs : list TemplateField) : Template :=
  mkTemplate (template_id t) (template_name t) (pdfData t) fs (mappings t)
             (createdAt t).

Definition with_mappings (t : Template) (ms : list Mapping) : Template :=
  mkTemplate (template_id t) (template_name t) (pdfData t) (fields t) ms
             (createdAt t).

Definition with_profileKey (m : Mapping) (k : string) : Mapping :=
  mkMapping (templateFieldId m) k (transformation m).

(** [src/components/TemplateEditor.tsx] *)
Module TemplateEditor.

(** The field literal of [addManualField]; [now] is [Date.now()]. *)
Definition newField (now : Z) (currentPage : Z) : TemplateField :=
  mkField ("custom_" +:+ pretty now) "New Field" TEXT true (currentPage - 1)
          (Some 50%Q) (Some 50%Q) (Some 150%Q) (Some 30%Q) (Some 12%Q).

Definition addManualField (now : Z) (st : EditorState) : EditorState :=
  match template st with
  | None => st
  | Some template =>
      let newField := newField now (currentPage st) in
      let newTemplate := with_fields template (fields template ++ [newField]) in
      mkEditor (Some newTemplate) (currentPage st) (scale st)
               (Some (id newField)) true
               (db_updates st ++
                  [mkDbUpdate (template_id template) (WholeTemplate newTemplate)])
  end.

Definition updateField (fid : string) (updates : FieldUpdates)
    (st : EditorState) : EditorState :=
  match template st with
  | None => st
  | Some template =>
      let newFields :=
        (λ f, if decide (id f = fid) then spread f updates else f)
          <$> fields template in
      mkEditor (Some (with_fields template newFields)) (currentPage st)
               (scale st) (selectedFieldId st) (showProperties st)
               (db_updates st)
  end.

Definition persistField (st : EditorState) : EditorState :=
  match template st with
  | None => st
  | Some template =>
      mkEditor (Some template) (currentPage st) (scale st)
               (selectedFieldId st) (showProperties st)
               (db_updates st ++
                  [mkDbUpdate (template_id template)
                              (FieldsOnly (fields template))])
  end.

Definition deleteField (fid : string) (st : EditorState) : EditorState :=
  match template st with
  | None => st
  | Some template =>
      let newFields := filter (λ f, id f ≠ fid) (fields template) in
      let newMappings :=
        filter (λ m, templateFieldId m ≠ fid) (mappings template) in
      let updated :=
        mkTemplate (template_id template) (template_name template)
                   (pdfData template) newFields newMappings
                   (createdAt template) in
      mkEditor (Some updated) (currentPage st) (scale st) None false
               (db_updates st ++
                  [mkDbUpdate (template_id template) (WholeTemplate updated)])
  end.

(** The computation of [newMappings] in [saveMapping] (lines 128-136):
    [findIndex], the copy, then [splice], the assignment to
    [newMappings[existingIndex].profileKey], or [push]. The copy is
    shallow, so the assignment also changes the entry of the array in the
    previous state; that state is replaced by [updated] right after. *)
Definition newMappings (ms : list Mapping) (fieldId profileKey : string)
  : list Mapping :=
  let existingIndex := list_find (λ m, templateFieldId m = fieldId) ms in
  if decide (profileKey = "") then
    match existingIndex with
    | Some (i, _) => delete i ms
    | None => ms
    end
  else
    match existingIndex with
    | Some (i, _) => alter (λ m, with_profileKey m profileKey) i ms
    | None => ms ++ [mkMapping fieldId profileKey None]
    end.

Definition saveMapping (fieldId profileKey : string) (st : EditorState)
  : EditorState :=
  match template st with
  | None => st
  | Some template =>
      let updated :=
        with_mappings template
                      (newMappings (mappings template) fieldId profileKey) in
      mkEditor (Some updated) (currentPage st) (scale st)
               (selectedFieldId st) (showProperties st)
               (db_updates st ++
                  [mkDbUpdate (template_id template) (WholeTemplate updated)])
  end.

End TemplateEditor.

(** The desktop variant of the editor component ([src/unnamed/part_001],
    lines 1-457). It has no properties sheet, so [showProperties] is never
    written; [updateField], [persistField] and [saveMapping] are the same
    code as above. (The same file holds an older copy of the component,
    lines 458-837, without resize handle; its [deleteField] and
    [saveMapping] are again the same code, its [addManualField] seeds a box
    of height 20 without font size. It is not modelled.) *)
Module DesktopEditor.

Definition newField := TemplateEditor.newField.
Definition updateField := TemplateEditor.updateField.
Definition persistField := TemplateEditor.persistField.
Definition newMappings := TemplateEditor.newMappings.
Definition saveMapping := TemplateEditor.saveMapping.

Definition addManualField (now : Z) (st : EditorState) : EditorState :=
  match template st with
  | None => st
  | Some template =>
      let newField := newField now (currentPage st) in
      let newTemplate := with_fields template (fields template ++ [newField]) in
      mkEditor (Some newTemplate) (currentPage st) (scale st)
               (Some (id newField)) (showProperties st)
               (db_updates st ++
                  [mkDbUpdate (template_id template) (WholeTemplate newTemplate)])
  end.

Definition deleteField (fid : string) (st : EditorState) : EditorState :=
  match template st with
  | None => st
  | Some template =>
      let newFields := filter (λ f, id f ≠ fid) (fields template) in
      let newMappings :=
        filter (λ m, templateFieldId m ≠ fid) (mappings template) in
      let updated :=
        mkTemplate (template_id template) (template_name template)
                   (pdfData template) newFields newMappings
                   (createdAt template) in
      mkEditor (Some updated) (currentPage st) (scale st) None
               (showProperties st)
               (db_updates st ++
                  [mkDbUpdate (template_id template) (WholeTemplate updated)])
  end.

(** The [onResize] listener installed by the resize handle (lines 299-315).
    [field] is the field the handle was rendered for, [startX], [startY]
    the pointer position at mouse-down, [clientX], [clientY] the position
    carried by the move event, and [st] the component state the listener
    closed over ([scale] and, through [updateField], [template]). *)
Definition onResize (field : TemplateField) (startX startY : Q)
    (clientX clientY : Q) (st : EditorState) : EditorState :=
  let startWidth := num_or (width field) 100 in
  let startHeight := num_or (height field) 20 in
  let dx := ((clientX - startX) / scale st)%Q in
  let dy := ((clientY - startY) / scale st)%Q in
  updateField (id field)
    (mkUpdates None None None None None None None
               (Some (Math_max 20 (startWidth + dx)%Q))
               (Some (Math_max 10 (startHeight + dy)%Q)) None)
    st.

End DesktopEditor.

(** * Notions used by the statements *)

(** The value the specification asks for a mapping: the profile entry, the
    empty string when the key is missing, with every letter a-z replaced by
    its capital for 'uppercase' and conversely for 'lowercase'. Written
    from the specification's wording, to be compared with [mappingValue]. *)
Definition spec_resolved_value (profile : Profile) (mapping : Mapping) : string :=
  let v := default "" (profile_fields profile !! profileKey mapping) in
  if decide (transformation mapping = Some "uppercase") then ascii_upper v
  else if decide (transformation mapping = Some "lowercase") then ascii_lower v
  else v.

Definition call_value (c : Call) : Value :=
  match c with
  | FormSetText _ v => v
  | PageDrawText _ v _ => v
  end.

(** [c] is the call the generator makes for field [f]: the form writer for a
    native field, the painter on the field's page for a manual one. *)
Definition call_for_field (f : TemplateField) (c : Call) : Prop :=
  match c with
  | FormSetText n _ => isManual f = false ∧ n = id f
  | PageDrawText i _ _ => isManual f = true ∧ i = pageIndex f
  end.

(** [template.fields.find(f => f.id === mapping.templateFieldId)] *)
Definition fieldOf (t : Template) (m : Mapping) : option TemplateField :=
  snd <$> list_find (λ f, id f = templateFieldId m) (fields t).

(** The names of the form fields and, for each, whether it is a text field
    and with which maximum length: the part of the form that decides
    whether a write succeeds. No call of the generator changes it. *)
Definition field_kind (f : PDFField) : option (option nat) :=
  match f with
  | PDFTextField _ maxLength _ => Some maxLength
  | PDFOtherField => None
  end.

Definition form_kinds (form : list (string * PDFField))
  : list (string * option (option nat)) :=
  (λ e, (e.1, field_kind e.2)) <$> form.

(** Whether [getField(n).setText(v)] returns on a form of these kinds. *)
Definition acro_writable (kinds : list (string * option (option nat)))
    (n : string) (v : Value) : bool :=
  match list_find (λ e, e.1 = n) kinds, v with
  | Some (_, (_, Some (Some k))), VString s => negb (k <? utf16_length s)%nat
  | Some (_, (_, Some None)), VString _ => true
  | _, _ => false
  end.

(** The loop state a completion carries. *)
Definition state_of (c : Completion) : GenState :=
  match c with Normal st | Thrown st => st end.

(** What [generateFilledPDF] settles to once the loop has ended in [c]. *)
Definition settle (h : Host) (c : Completion) : Promise Generated :=
  match c with
  | Thrown _ => Rejected
  | Normal st =>
      match save h (gs_doc st) with
      | None => Rejected
      | Some bytes => Resolved (mkGenerated bytes st)
      end
  end.

(** Two loop states that differ at most in the console, two completions of
    the same kind with such states, and two results with the same bytes and
    such states. *)
Definition same_output (st st' : GenState) : Prop :=
  gs_doc st = gs_doc st' ∧ gs_calls st = gs_calls st'.

Definition same_completion (c c' : Completion) : Prop :=
  match c, c' with
  | Normal st, Normal st' | Thrown st, Thrown st' => same_output st st'
  | _, _ => False
  end.

Definition same_result (r r' : Promise Generated) : Prop :=
  match r, r' with
  | Resolved out, Resolved out' =>
      out_bytes out = out_bytes out'
      ∧ same_output (out_state out) (out_state out')
  | Rejected, Rejected => True
  | _, _ => False
  end.

(** The state [st] shows that mapping [m] of [t] was filled from [p] on the
    document [doc] as it was loaded: the mapping has a field and a value;
    for a manual field with x, y and a page of [doc], the painter was
    called on that page with the value at the computed place; for a native
    field, the form writer was called with the value when the form can take
    it, and the field id was logged when it cannot. *)
Definition filled (h : Host) (t : Template) (p : Profile) (doc : PDFDocument)
    (st : GenState) (m : Mapping) : Prop :=
  ∃ f v,
    fieldOf t m = Some f ∧ mappingValue h p m = Some v
    ∧ if isManual f then
        ∀ page fx fy,
          page_at (doc_pages doc) (pageIndex f) = Some page →
          x f = Some fx → y f = Some fy →
          PageDrawText (pageIndex f) v
            (mkDrawText fx
               (page_height page - num_or (Some fy) 0 - num_or (height f) 20 + 4)
               (num_or (fontSize f) 12) (width f))
          ∈ gs_calls st
      else
        if acro_writable (form_kinds (doc_form doc)) (id f) v
        then FormSetText (id f) v ∈ gs_calls st
        else id f ∈ gs_console st.

(** Nothing can throw in the iteration for [m]: when [m] has a field, its
    value is computed, and for a manual field it is a string that the font
    encodes. *)
Definition harmless (h : Host) (t : Template) (p : Profile) (m : Mapping)
  : Prop :=
  ∀ f, fieldOf t m = Some f →
    ∃ v, mappingValue h p m = Some v
         ∧ (isManual f = true → ∃ s, v = VString s ∧ Helvetica h s = true).

Definition fieldIds (t : Template) : list string := id <$> fields t.
Definition mappedIds (ms : list Mapping) : list string := templateFieldId <$> ms.

(** The invariant of the mapping set: one mapping per field id at most, and
    no mapping with an empty profile key. *)
Definition well_formed_mappings (ms : list Mapping) : Prop :=
  NoDup (mappedIds ms) ∧ Forall (λ m, profileKey m ≠ "") ms.

(** Every mapping refers to a field of the template. *)
Definition no_orphans (t : Template) : Prop :=
  ∀ m, m ∈ mappings t → templateFieldId m ∈ fieldIds t.

(** A run of [saveMapping] calls, each given as [(fieldId, profileKey)]. *)
Definition saveMappings (calls : list (string * string)) (st : EditorState)
  : EditorState :=
  foldl (λ s c, TemplateEditor.saveMapping c.1 c.2 s) st calls.

(** The user's actions on the editor. The mobile component
    ([TemplateEditor.tsx]) installs no resize listener. *)
Inductive EditorVariant := Mobile | Desktop.

Inductive EditorAction :=
| AddManualField (now : Z)
| UpdateField (fid : string) (updates : FieldUpdates)
| PersistField
| DeleteField (fid : string)
| SaveMapping (fieldId profileKey : string)
| Resize (field : TemplateField) (startX startY clientX clientY : Q).

Definition act (v : EditorVariant) (st : EditorState) (a : EditorAction)
  : EditorState :=
  match a, v with
  | AddManualField now, Mobile => TemplateEditor.addManualField now st
  | AddManualField now, Desktop => DesktopEditor.addManualField now st
  | UpdateField fid u, _ => TemplateEditor.updateField fid u st
  | PersistField, _ => TemplateEditor.persistField st
  | DeleteField fid, Mobile => TemplateEditor.deleteField fid st
  | DeleteField fid, Desktop => DesktopEditor.deleteField fid st
  | SaveMapping fid key, _ => TemplateEditor.saveMapping fid key st
  | Resize f sx sy cx cy, Desktop => DesktopEditor.onResize f sx sy cx cy st
  | Resize _ _ _ _ _, Mobile => st
  end.

(** The editor as it opens on a stored template. *)
Definition opened (t : Template) : EditorState :=
  mkEditor (Some t) 1 1 None false [].

Definition editor_mappings (st : EditorState) : list Mapping :=
  from_option mappings [] (template st).

(** Concrete data for the examples. *)
Module Sample.

Definition page : PDFPage := mkPage 612 792 [].

(** A form with a text field, a text field of at most five characters and
    a check box, on one page. *)
Definition doc : PDFDocument :=
  mkDoc [("signature_date", PDFTextField None None false);
         ("zip", PDFTextField None (Some 5%nat) false);
         ("agree", PDFOtherField)]
        [page].

(** A loader that reads every non-empty buffer as [doc]. *)
Definition load (b : ArrayBuffer) : option PDFDocument :=
  match b with [] => None | _ :: _ => Some doc end.

(** A serialiser that fails, as pdf-lib does when it rebuilds the
    appearance of a written field, on a written text that is not printable
    ASCII; the bytes are a header, the length of each field's text and the
    number of texts on each page. *)
Definition save (d : PDFDocument) : option Uint8Array :=
  if forallb (λ e : string * PDFField,
                match e.2 with
                | PDFTextField (Some s) _ true => printable s
                | _ => true
                end) (doc_form d)
  then Some ([37; 80; 68; 70]%Z
             ++ ((λ e : string * PDFField,
                    match e.2 with
                    | PDFTextField (Some s) _ _ => Z.of_nat (String.length s)
                    | _ => 0%Z
                    end) <$> doc_form d)
             ++ ((λ pg, Z.of_nat (length (page_texts pg))) <$> doc_pages d))
  else None.

(** A host that folds ASCII letters only and whose font encodes printable
    ASCII only. *)
Definition host : Host := mkHost ascii_upper ascii_lower load save printable.

Definition bytes : ArrayBuffer := [37; 80; 68; 70]%Z.

Definition custom_1 : TemplateField :=
  mkField "custom_1" "New Field" TEXT true 0
          (Some 50%Q) (Some 50%Q) (Some 150%Q) (Some 30%Q) (Some 12%Q).


Definition native (n : string) : TemplateField :=
  mkField n n TEXT false 0 None None None None None.

Definition profile : Profile :=
  mkProfile (Some 1%Z) "Me"
            {[ "Full Name" := "Jane Doe"; "Date" := "2024-01-01" ]}.

Definition template (fs : list TemplateField) (ms : list Mapping) : Template :=
  mkTemplate (Some 1%Z) "form" bytes fs ms 0.

Definition editor (fs : list TemplateField) (ms : list Mapping) : EditorState :=
  mkEditor (Some (template fs ms)) 1 1 None false [].

End Sample.

(** * The rest of the application *)

(** ** What the generator reads of a field *)

(** The generator looks a field up by its id, branches on [isManual], and
    for a manual field reads the page index, x, y, the width, and the
    height and font size through their defaults. *)
Definition gen_view (f : TemplateField)
  : string * option (Z * option Q * option Q * option Q * Q * Q) :=
  (id f,
   if isManual f
   then Some (pageIndex f, x f, y f, width f,
              num_or (height f) 20, num_or (fontSize f) 12)
   else None).

(** [d'] is [d] with texts added: the same form fields of the same kinds,
    the same pages of the same size, each page keeping the texts it had in
    front of the new ones. *)
Definition doc_extends (d d' : PDFDocument) : Prop :=
  form_kinds (doc_form d') = form_kinds (doc_form d)
  ∧ Forall2 (λ pg pg', page_width pg' = page_width pg
                       ∧ page_height pg' = page_height pg
                       ∧ page_texts pg `prefix_of` page_texts pg')
            (doc_pages d) (doc_pages d').

(** ** The [db] tables ([src/db.ts]) *)

(** A Dexie table declared with the schema [++id]: the rows by primary key
    and the key generator. [add] is used by the application only with
    objects that carry no [id]; the generated key is stored in the row. *)
Module Dexie.

Record Table (A : Type) := mkTable {
  rows : gmap Z A;
  nextKey : Z
}.
Arguments mkTable {A} rows nextKey.
Arguments rows {A} t.
Arguments nextKey {A} t.

Definition empty {A : Type} : Table A := mkTable ∅ 1.

(** [table.add(obj)]; [withKey k obj] is [obj] with its [id] set to [k]. *)
Definition add {A : Type} (withKey : Z → A → A) (obj : A) (tbl : Table A)
  : Table A :=
  mkTable (<[nextKey tbl := withKey (nextKey tbl) obj]> (rows tbl))
          (nextKey tbl + 1).

(** [table.get(key)] *)
Definition get {A : Type} (key : Z) (tbl : Table A) : option A :=
  rows tbl !! key.

(** [table.update(key, changes)]: no row of that key, no change. *)
Definition update {A : Type} (key : Z) (changes : A → A) (tbl : Table A)
  : Table A :=
  mkTable (alter changes key (rows tbl)) (nextKey tbl).

(** [table.delete(key)] *)
Definition delete {A : Type} (key : Z) (tbl : Table A) : Table A :=
  mkTable (base.delete key (rows tbl)) (nextKey tbl).

(** The keys in use are positive and below the generator. *)
Definition keys_in_range {A : Type} (tbl : Table A) : Prop :=
  (1 ≤ nextKey tbl)%Z
  ∧ ∀ k, is_Some (rows tbl !! k) → (1 ≤ k < nextKey tbl)%Z.

End Dexie.

Definition with_template_id (k : Z) (t : Template) : Template :=
  mkTemplate (Some k) (template_name t) (pdfData t) (fields t) (mappings t)
             (createdAt t).

(** What [db.templates.update(key, changes)] does to the row. *)
Definition applyChanges (c : TemplateChanges) (row : Template) : Template :=
  match c with
  | WholeTemplate t => t
  | FieldsOnly fs => with_fields row fs
  end.

(** The editor's updates replayed on the [templates] table. An update whose
    key is [undefined] changes nothing. *)
Definition replay (us : list DbUpdate) (tbl : Dexie.Table Template)
  : Dexie.Table Template :=
  foldl (λ tb u,
           match upd_key u with
           | Some k => Dexie.update k (applyChanges (upd_changes u)) tb
           | None => tb
           end) tbl us.

(** ** The editor: navigation, zoom, gestures, property sheet *)

Definition set_template (t : option Template) (st : EditorState) : EditorState :=
  mkEditor t (currentPage st) (scale st) (selectedFieldId st)
           (showProperties st) (db_updates st).

Definition set_currentPage (n : Z) (st : EditorState) : EditorState :=
  mkEditor (template st) n (scale st) (selectedFieldId st)
           (showProperties st) (db_updates st).

Definition set_scale (s : Q) (st : EditorState) : EditorState :=
  mkEditor (template st) (currentPage st) s (selectedFieldId st)
           (showProperties st) (db_updates st).

(** [Math.min(a, b)] *)
Definition Math_min (a b : Q) : Q := Qmin a b.

(** The cells [numPages] and [pdfDoc] of the component; the pdf.js document
    is represented by its pages. *)
Record ViewerCells := mkViewer {
  vc_numPages : Z;
  vc_pdfDoc : option (list PDFPage)
}.

(** What [renderPage] reads of the DOM: whether the canvas is mounted,
    [containerRef.current?.clientWidth] and [window.innerWidth]. *)
Record Surface := mkSurface {
  canvasMounted : bool;
  clientWidth : option Q;
  innerWidth : Q
}.

(** [template.fields.find(f => f.id === selectedFieldId)] *)
Definition selectedField (st : EditorState) : option TemplateField :=
  t ← template st;
  snd <$> list_find (λ f, Some (id f) = selectedFieldId st) (fields t).

(** [template.fields.filter(f => f.pageIndex === currentPage - 1 && f.isManual)] *)
Definition currentFields (st : EditorState) : list TemplateField :=
  match template st with
  | None => []
  | Some t =>
      filter (λ f, pageIndex f = (currentPage st - 1)%Z ∧ isManual f = true)
             (fields t)
  end.

(** A handler keeps the functions of the render it was created in. The
    two below are [updateField] and [persistField] of the render whose
    state was [cl], called when the state is [st]. *)
Definition update_from (cl : EditorState) (fid : string)
    (updates : FieldUpdates) (st : EditorState) : EditorState :=
  match template cl with
  | None => st
  | Some _ =>
      set_template (template (TemplateEditor.updateField fid updates cl)) st
  end.

Definition persist_from (cl st : EditorState) : EditorState :=
  match template cl with
  | None => st
  | Some t =>
      mkEditor (template st) (currentPage st) (scale st)
               (selectedFieldId st) (showProperties st)
               (db_updates st ++
                  [mkDbUpdate (template_id t) (FieldsOnly (fields t))])
  end.

(** The box of [field] moved to where the pointer ([clientX], [clientY])
    puts it. *)
Definition dragged (zoom : Q) (field : TemplateField)
    (startX startY clientX clientY : Q) (f : TemplateField) : TemplateField :=
  if decide (id f = id field) then
    mkField (id f) (name f) (type f) (isManual f) (pageIndex f)
            (Some (num_or (x field) 0 + (clientX - startX) / zoom)%Q)
            (Some (num_or (y field) 0 + (clientY - startY) / zoom)%Q)
            (width f) (height f) (fontSize f)
  else f.

(** [src/components/TemplateEditor.tsx], the part the claims leave out. *)
Module MobileEditor.

(** [renderPage(pageNum, pdf)] (lines 56-79): the state it changes is
    [scale]. A missing canvas returns at once; a failing [getPage] is
    caught. The new zoom is the exact quotient, where the code has the
    double it rounds to; the statements below use of it only that nothing
    else changes. *)
Definition renderPage (sf : Surface) (pdf : option (list PDFPage))
    (pageNum : Z) (st : EditorState) : EditorState :=
  if canvasMounted sf then
    match pdf ≫= (λ pages, page_at pages (pageNum - 1)) with
    | None => st
    | Some page =>
        let viewport_width := (page_width page * scale st)%Q in
        let containerWidth := num_or (clientWidth sf) (innerWidth sf) in
        let desiredScale := ((containerWidth - 32) / viewport_width)%Q in
        set_scale desiredScale st
    end
  else st.

(** [handlePageChange(newPage)] (lines 81-86) *)
Definition handlePageChange (sf : Surface) (vc : ViewerCells) (newPage : Z)
    (st : EditorState) : EditorState :=
  if decide (1 ≤ newPage ∧ newPage ≤ vc_numPages vc)%Z
  then renderPage sf (vc_pdfDoc vc) newPage (set_currentPage newPage st)
  else st.

(** The pointer handlers of a field box (lines 200-227). [onMove] and
    [onUp] are created at mouse-down, in the render of state [cl]. *)
Definition onMouseDown (field : TemplateField) (st : EditorState) : EditorState :=
  mkEditor (template st) (currentPage st) (scale st) (Some (id field)) true
           (db_updates st).

Definition onMove (cl : EditorState) (field : TemplateField)
    (startX startY clientX clientY : Q) (st : EditorState) : EditorState :=
  let startLeft := num_or (x field) 0 in
  let startTop := num_or (y field) 0 in
  let dx := ((clientX - startX) / scale cl)%Q in
  let dy := ((clientY - startY) / scale cl)%Q in
  update_from cl (id field)
    (mkUpdates None None None None None
               (Some (startLeft + dx)%Q) (Some (startTop + dy)%Q)
               None None None)
    st.

Definition onUp (cl st : EditorState) : EditorState := persist_from cl st.

(** A whole drag: mouse-down on the box of [field], off its resize handle,
    at ([startX], [startY]) in state [st], the pointer positions of the
    move events, mouse-up. *)
Definition dragGesture (field : TemplateField) (startX startY : Q)
    (moves : list (Q * Q)) (st : EditorState) : EditorState :=
  onUp st
    (foldl (λ s mv, onMove st field startX startY mv.1 mv.2 s)
           (onMouseDown field st) moves).

(** The property sheet (lines 267-299), shown when [showProperties] holds
    and a field is selected: the name input and the two font size buttons.
    Each calls [updateField] and then [persistField] of its render. *)
Definition sheetEdit (updates : TemplateField → FieldUpdates)
    (st : EditorState) : EditorState :=
  if showProperties st then
    match selectedField st with
    | None => st
    | Some f =>
        persist_from st (TemplateEditor.updateField (id f) (updates f) st)
    end
  else st.

Definition onNameChange (value : string) : EditorState → EditorState :=
  sheetEdit (λ _, mkUpdates None (Some value) None None None
                            None None None None None).

Definition onFontMinus : EditorState → EditorState :=
  sheetEdit (λ f, mkUpdates None None None None None None None None None
                            (Some (num_or (fontSize f) 12 - 1)%Q)).

Definition onFontPlus : EditorState → EditorState :=
  sheetEdit (λ f, mkUpdates None None None None None None None None None
                            (Some (num_or (fontSize f) 12 + 1)%Q)).

End MobileEditor.

(** The desktop variant ([src/unnamed/part_001], lines 1-457), the part the
    claims leave out. *)
Module DesktopRest.

(** [renderPage] (lines 61-88) *)
Definition renderPage (sf : Surface) (pdf : option (list PDFPage))
    (pageNum : Z) (st : EditorState) : EditorState :=
  if canvasMounted sf then
    match pdf ≫= (λ pages, page_at pages (pageNum - 1)) with
    | None => st
    | Some page =>
        let viewport_width := (page_width page * scale st)%Q in
        let containerWidth := num_or (clientWidth sf) 800 in
        let effectiveContainerWidth :=
          if Qlt_le_dec 0 containerWidth then containerWidth else 800%Q in
        let desiredScale :=
          ((effectiveContainerWidth - 48) / viewport_width)%Q in
        set_scale desiredScale st
    end
  else st.

(** The sidebar of lines 386-446, shown when a field is selected: the font
    size buttons clamp to 6 and 72. *)
Definition sidebarEdit (updates : TemplateField → FieldUpdates)
    (st : EditorState) : EditorState :=
  if decide (selectedFieldId st = Some "") then st
  else
    match selectedField st with
    | None => st
    | Some f =>
        persist_from st (TemplateEditor.updateField (id f) (updates f) st)
    end.

Definition onFontMinus : EditorState → EditorState :=
  sidebarEdit (λ f, mkUpdates None None None None None None None None None
                      (Some (Math_max 6 (num_or (fontSize f) 12 - 1)%Q))).

Definition onFontPlus : EditorState → EditorState :=
  sidebarEdit (λ f, mkUpdates None None None None None None None None None
                      (Some (Math_min 72 (num_or (fontSize f) 12 + 1)%Q))).

(** A run of presses on the two buttons ([true] is "+"). *)
Definition fontPresses (presses : list bool) (st : EditorState) : EditorState :=
  foldl (λ s plus, if plus : bool then onFontPlus s else onFontMinus s)
        st presses.

End DesktopRest.

(** The actions that send the whole template to the store. *)
Definition writes_whole (a : EditorAction) : Prop :=
  match a with
  | AddManualField _ | DeleteField _ | SaveMapping _ _ => True
  | _ => False
  end.

(** What the components let the user do: bind only fields that are listed
    (the mapping tab renders one selector per field of the template), and
    never rewrite an id ([updateField] is called with names, positions,
    sizes and font sizes). *)
Definition ui_action (st : EditorState) (a : EditorAction) : Prop :=
  match a with
  | SaveMapping fid _ => ∃ t, template st = Some t ∧ fid ∈ fieldIds t
  | UpdateField _ u => u_id u = None
  | _ => True
  end.

Fixpoint ui_run (v : EditorVariant) (st : EditorState)
    (actions : list EditorAction) : Prop :=
  match actions with
  | [] => True
  | a :: rest => ui_action st a ∧ ui_run v (act v st a) rest
  end.

(** [handleGenerate] (TemplateEditor.tsx, lines 143-160). [profiles] is the
    result of the live query, [selectedProfileId] the cell of that name. *)
Inductive GenerateOutcome :=
| Alerted (message : string)
| Ignored
| Downloaded (fileName : string) (bytes : Uint8Array).

Definition handleGenerate (h : Host)
    (profiles : option (list Profile)) (selectedProfileId : option Z)
    (st : EditorState) : GenerateOutcome :=
  match template st, selectedProfileId with
  | Some t, Some sid =>
      if decide (sid = 0%Z) then Alerted "Select a profile first"
      else
        match profiles ≫= (λ ps, snd <$> list_find (λ p, profile_id p = Some sid) ps) with
        | None => Ignored
        | Some profile =>
            match generateFilledPDF h t profile with
            | Resolved out =>
                Downloaded (template_name t +:+ "_" +:+ profile_name profile
                            +:+ ".pdf")
                           (out_bytes out)
            | Rejected => Alerted "Error generating PDF"
            end
        end
  | _, _ => Alerted "Select a profile first"
  end.

(** ** The template list ([src/unnamed/part_002]) *)

Module TemplateList.

Fixpoint is_prefix (p s : string) : bool :=
  match p, s with
  | EmptyString, _ => true
  | String a p', String b s' => if decide (a = b) then is_prefix p' s' else false
  | String _ _, EmptyString => false
  end.

Fixpoint drop_chars (n : nat) (s : string) : string :=
  match n, s with
  | O, _ => s
  | S n', String _ s' => drop_chars n' s'
  | S _, EmptyString => EmptyString
  end.

(** [s.replace(pattern, replacement)] for a string pattern: the first
    occurrence only. *)
Fixpoint replace (pattern replacement s : string) : string :=
  if is_prefix pattern s
  then replacement +:+ drop_chars (String.length pattern) s
  else match s with
       | EmptyString => EmptyString
       | String c s' => String c (replace pattern replacement s')
       end.

(** Whether a string contains a full stop. *)
Fixpoint has_dot (s : string) : bool :=
  match s with
  | EmptyString => false
  | String c s' => if decide (c = "."%char) then true else has_dot s'
  end.

Record File := mkFile {
  file_name : string;
  file_type : string;
  file_bytes : ArrayBuffer
}.

(** The [templates] table and the alerts shown so far. *)
Record State := mkState {
  templates : Dexie.Table Template;
  alerts : list string
}.

(** [handleFileUpload] (lines 14-33); [file] is [e.target.files?.[0]]. *)
Definition handleFileUpload (h : Host)
    (now : Z) (file : option File) (st : State) : State :=
  match file with
  | None => st
  | Some file =>
      if decide (file_type file ≠ "application/pdf") then
        mkState (templates st) (alerts st ++ ["Please upload a PDF file."])
      else
        match analyzePDF h now (file_bytes file)
                         (replace ".pdf" "" (file_name file)) with
        | Resolved templateData =>
            mkState (Dexie.add with_template_id templateData (templates st))
                    (alerts st)
        | Rejected =>
            mkState (templates st) (alerts st ++ ["Error processing PDF"])
        end
  end.

(** [deleteTemplate] (lines 35-40); [confirmed] is the answer to
    [confirm]. *)
Definition deleteTemplate (confirmed : bool) (key : Z) (st : State) : State :=
  if confirmed then mkState (Dexie.delete key (templates st)) (alerts st)
  else st.

(** The two badges of a template card (lines 81 and 84). *)
Definition acroCount (t : Template) : nat :=
  length (filter (λ f, isManual f = false) (fields t)).
Definition customCount (t : Template) : nat :=
  length (filter (λ f, isManual f = true) (fields t)).

End TemplateList.

(** The editor's first effect: [db.templates.get(templateId)], then
    [setTemplate] when a row came back. *)
Definition openEditor (tbl : Dexie.Table Template) (templateId : Z)
  : EditorState :=
  mkEditor (Dexie.get templateId tbl) 1 1 None false [].

(** ** The profile manager ([src/unnamed/part_000], lines 130-297) *)

Module ProfileManager.

(** The cell [editingId]: [null], [undefined] (a profile without id was
    passed to [startEdit]) or a number; [-1] stands for a new profile. *)
Inductive EditingId :=
| NotEditing
| EditingUndefined
| Editing (n : Z).

Record State := mkState {
  editingId : EditingId;
  formData : Profile;
  profiles : Dexie.Table Profile;
  alerts : list string
}.

Definition standardKeys : list string :=
  ["Full Name"; "Address"; "City"; "State"; "Zip"; "Phone"; "Email"; "DOB";
   "Father's Name"].

Definition with_profile_id (k : Z) (p : Profile) : Profile :=
  mkProfile (Some k) (profile_name p) (profile_fields p).

(** [startEdit(p?)]; the JSON round trip copies the profile. *)
Definition startEdit (p : option Profile) (st : State) : State :=
  match p with
  | Some p =>
      mkState (match profile_id p with
               | Some n => Editing n
               | None => EditingUndefined
               end)
              p (profiles st) (alerts st)
  | None =>
      mkState (Editing (-1)) (mkProfile None "" ∅) (profiles st) (alerts st)
  end.

(** [handleFieldChange(key, value)] *)
Definition handleFieldChange (key value : string) (st : State) : State :=
  mkState (editingId st)
          (mkProfile (profile_id (formData st)) (profile_name (formData st))
                     (<[key := value]> (profile_fields (formData st))))
          (profiles st) (alerts st).

(** The name input (line 192). *)
Definition onNameChange (value : string) (st : State) : State :=
  mkState (editingId st)
          (mkProfile (profile_id (formData st)) value
                     (profile_fields (formData st)))
          (profiles st) (alerts st).

(** The bin button of a custom key (lines 222-226). *)
Definition onRemoveKey (key : string) (st : State) : State :=
  mkState (editingId st)
          (mkProfile (profile_id (formData st)) (profile_name (formData st))
                     (base.delete key (profile_fields (formData st))))
          (profiles st) (alerts st).

(** The "Add Field" button (lines 233-239); [input] is the text typed. *)
Definition onAddField (input : string) (st : State) : State :=
  if decide (input = "") then st else handleFieldChange input "" st.

(** The keys listed under "Custom Keys" (line 214), in some order. *)
Definition customKeys (st : State) : list string :=
  filter (λ k, k ∉ standardKeys)
         (map_to_list (profile_fields (formData st))).*1.

(** [saveProfile] (lines 161-170) *)
Definition saveProfile (st : State) : State :=
  if decide (profile_name (formData st) = "") then
    mkState (editingId st) (formData st) (profiles st)
            (alerts st ++ ["Profile Name is required"])
  else
    let tbl :=
      match editingId st with
      | Editing n =>
          if decide (n = (-1)%Z) then
            Dexie.add with_profile_id
                      (mkProfile None (profile_name (formData st))
                                 (profile_fields (formData st)))
                      (profiles st)
          else if decide (n = 0%Z) then profiles st
          else
            Dexie.update n
              (λ row, mkProfile (profile_id row) (profile_name (formData st))
                                (profile_fields (formData st)))
              (profiles st)
      | _ => profiles st
      end in
    mkState NotEditing (formData st) tbl (alerts st).

(** [deleteProfile(id)]; [confirmed] is the answer to [confirm]. *)
Definition deleteProfile (confirmed : bool) (key : Z) (st : State) : State :=
  if confirmed
  then mkState (editingId st) (formData st) (Dexie.delete key (profiles st))
               (alerts st)
  else st.

(** The "Cancel" button (line 183). *)
Definition onCancel (st : State) : State :=
  mkState NotEditing (formData st) (profiles st) (alerts st).

End ProfileManager.

(** The profile keys the mapping tab offers for a field (TemplateEditor.tsx,
    lines 328-335); the empty value unbinds. *)
Definition mappingOptions : list string :=
  ["Full Name"; "Address"; "Phone"; "Email"; "Date"].

(** Further concrete data for the examples. *)
Module Sample2.

(** What [analyzePDF] makes of [Sample.bytes] at time 0. *)
Definition analyzed : Template :=
  mkTemplate None "form" Sample.bytes
             [Sample.native "signature_date"; Sample.native "zip";
              Sample.native "agree"] [] 0.

(** A stored template with one manual and one native field, both bound. *)
Definition stored : Template :=
  mkTemplate (Some 1%Z) "form" Sample.bytes
             [Sample.custom_1; Sample.native "signature_date"]
             [mkMapping "custom_1" "Full Name" None;
              mkMapping "signature_date" "Date" (Some "uppercase")]
             0.

Definition table : Dexie.Table Template :=
  Dexie.add with_template_id stored Dexie.empty.

(** The editor on [stored], with [custom_1] selected and the sheet shown. *)
Definition editor : EditorState :=
  mkEditor (Some stored) 1 2 (Some "custom_1") true [].

(** [custom_1] at font size 1, and the editor on it. *)
Definition tiny : TemplateField :=
  mkField "custom_1" "New Field" TEXT true 0
          (Some 50%Q) (Some 50%Q) (Some 150%Q) (Some 30%Q) (Some 1%Q).

Definition tiny_editor : EditorState :=
  mkEditor (Some (Sample.template [tiny] [])) 1 1 (Some "custom_1") true [].

Definition surface : Surface := mkSurface true (Some 644%Q) 1024.

Definition viewer : ViewerCells := mkViewer 1 (Some [Sample.page]).

Definition file : TemplateList.File :=
  TemplateList.mkFile "form.pdf" "application/pdf" Sample.bytes.

Definition jane : Profile :=
  mkProfile (Some 1%Z) "Me" {[ "Full Name" := "Jane Doe" ]}.

Definition profiles : Dexie.Table Profile :=
  Dexie.add ProfileManager.with_profile_id jane Dexie.empty.

Definition manager : ProfileManager.State :=
  ProfileManager.mkState ProfileManager.NotEditing jane profiles [].

End Sample2.

(** * Properties of the generator *)

(** The sample host meets the laws. *)
Lemma Sample_host_laws : HostLaws Sample.host.
Proof. by split. Qed.

Section ServiceFacts.

Variable h : Host.

(** One iteration, by the field found and the value computed. *)
Lemma fillMapping_unfold t p st m :
  fillMapping h t p st m
  = match fieldOf t m with
    | None => Normal st
    | Some f =>
        match mappingValue h p m with
        | None => Thrown st
        | Some v =>
            if isManual f then
              match page_at (doc_pages (gs_doc st)) (pageIndex f), x f, y f with
              | Some page, Some fx, Some _ =>
                  let opts :=
                    mkDrawText fx
                      (page_height page - num_or (y f) 0
                                        - num_or (height f) 20 + 4)
                      (num_or (fontSize f) 12) (width f) in
                  match drawText (doc_pages (gs_doc st)) (pageIndex f) v
                                 (Helvetica h) opts with
                  | Some pages' =>
                      Normal (mkGen (mkDoc (doc_form (gs_doc st)) pages')
                                    (gs_calls st ++ [PageDrawText (pageIndex f) v opts])
                                    (gs_console st))
                  | None => Thrown st
                  end
              | _, _, _ => Normal st
              end
            else
              match fillAcroField (doc_form (gs_doc st)) (id f) v with
              | Some form' =>
                  Normal (mkGen (mkDoc form' (doc_pages (gs_doc st)))
                                (gs_calls st ++ [FormSetText (id f) v])
                                (gs_console st))
              | None =>
                  Normal (mkGen (gs_doc st) (gs_calls st)
                                (gs_console st ++ [id f]))
              end
        end
    end.
Proof.
  unfold fillMapping, fieldOf.
  destruct (list_find _ (fields t)) as [[i f]|]; [|done]. simpl.
  destruct (mappingValue h p m); [|done]. by destruct (isManual f).
Qed.

Lemma fillMappings_cons t p m ms st :
  fillMappings h t p (m :: ms) st
  = match fillMapping h t p st m with
    | Normal st' => fillMappings h t p ms st'
    | Thrown st' => Thrown st'
    end.
Proof. done. Qed.

Lemma fillMappings_app t p ms1 ms2 st :
  fillMappings h t p (ms1 ++ ms2) st
  = match fillMappings h t p ms1 st with
    | Normal st' => fillMappings h t p ms2 st'
    | Thrown st' => Thrown st'
    end.
Proof.
  revert st. induction ms1 as [|m ms1 IH]; intros st; [done|]. simpl.
  destruct (fillMapping h t p st m); [apply IH|done].
Qed.

(** Of the template the loop reads the fields only. *)
Lemma fillMappings_fields t t' p ms st :
  fields t = fields t' →
  fillMappings h t p ms st = fillMappings h t' p ms st.
Proof.
  intros Hf. revert st. induction ms as [|m ms IH]; intros st; [done|].
  simpl. assert (fillMapping h t p st m = fillMapping h t' p st m) as ->.
  { unfold fillMapping. by rewrite Hf. }
  destruct (fillMapping h t' p st m); [apply IH|done].
Qed.


Lemma fieldOf_None t m :
  fieldOf t m = None ↔ templateFieldId m ∉ fieldIds t.
Proof.
  unfold fieldOf, fieldIds. rewrite fmap_None, list_find_None, Forall_forall.
  rewrite list_elem_of_fmap. split.
  - intros H (f & Heq & Hin). by eapply H.
  - intros H f Hin Heq. apply H. by exists f.
Qed.

Lemma fieldOf_id t m f : fieldOf t m = Some f → id f = templateFieldId m.
Proof.
  unfold fieldOf.
  destruct (list_find _ (fields t)) as [[i f']|] eqn:Hfind; [|done].
  intros [= <-]. by apply list_find_Some in Hfind as (_ & ? & _).
Qed.

(** A property of the state that every iteration carries along holds
    from the start of the loop to its end, however the loop ends. *)
Lemma fillMappings_steps (R : GenState → GenState → Prop) t p :
  (∀ st, R st st) → (∀ a b c, R a b → R b c → R a c) →
  (∀ st m, R st (state_of (fillMapping h t p st m))) →
  ∀ ms st, R st (state_of (fillMappings h t p ms st)).
Proof.
  intros Hrefl Htrans Hstep ms.
  induction ms as [|m ms IH]; intros st; [apply Hrefl|].
  simpl. pose proof (Hstep st m) as Hm.
  destruct (fillMapping h t p st m) as [st'|st']; simpl in *; [|done].
  eapply Htrans; [exact Hm|apply IH].
Qed.

(** What a call that returned says of its arguments. *)
Lemma drawText_Some pages i v font o pages' :
  drawText pages i v font o = Some pages' →
  ∃ s, v = VString s ∧ font s = true
       ∧ pages' = alter (λ pg, mkPage (page_width pg) (page_height pg)
                                      (page_texts pg ++ [(s, o)]))
                        (Z.to_nat i) pages.
Proof.
  unfold drawText. destruct v as [s|]; [|done].
  destruct (font s) eqn:Hf; [|done]. intros [= <-]. by exists s.
Qed.

Lemma setText_Some fld v fld' :
  setText fld v = Some fld' →
  ∃ s tx ml d, v = VString s ∧ fld = PDFTextField tx ml d
    ∧ fld' = PDFTextField (if decide (s = "") then None else Some s) ml true
    ∧ field_kind fld' = field_kind fld.
Proof.
  destruct fld as [tx ml d|], v as [s|]; simpl; try done.
  destruct (match ml with Some n => (n <? utf16_length s)%nat | None => false end);
    [done|].
  intros [= <-]. by exists s, tx, ml, d.
Qed.

Lemma fillAcroField_Some form n v form' :
  fillAcroField form n v = Some form' →
  ∃ i fld fld', form !! i = Some (n, fld) ∧ setText fld v = Some fld'
    ∧ getField form n = Some (i, fld)
    ∧ form' = <[i := (n, fld')]> form.
Proof.
  unfold fillAcroField. intros H.
  destruct (getField form n) as [[i fld]|] eqn:Hget; simpl in H; [|done].
  destruct (setText fld v) as [fld'|] eqn:Hset; simpl in H; [|done].
  injection H as <-. exists i, fld, fld'. split_and!; try done.
  unfold getField in Hget.
  destruct (list_find _ form) as [[j [n' fld0]]|] eqn:Hfind; simplify_eq/=.
  apply list_find_Some in Hfind as (Hi & Hn & _). simpl in Hn. by subst n'.
Qed.

Lemma fillAcroField_kinds form n v form' :
  fillAcroField form n v = Some form' → form_kinds form' = form_kinds form.
Proof.
  intros (i & fld & fld' & Hi & Hset & _ & ->)%fillAcroField_Some.
  apply setText_Some in Hset as (s & tx & ml & d & _ & _ & _ & Hk).
  unfold form_kinds. rewrite list_fmap_insert. simpl.
  apply list_insert_id. by rewrite list_lookup_fmap, Hi, Hk.
Qed.

Lemma fillAcroField_writable form n v :
  is_Some (fillAcroField form n v) ↔ acro_writable (form_kinds form) n v = true.
Proof.
  unfold fillAcroField, getField, acro_writable, form_kinds.
  rewrite list_find_fmap.
  change (list_find (_ ∘ _) form)
    with (list_find (λ e : string * PDFField, e.1 = n) form).
  destruct (list_find _ form) as [[i [n' fld]]|]; simpl.
  - destruct fld as [tx [k|] d|], v as [s|]; simpl;
      try destruct (k <? utf16_length s)%nat; simpl;
      (split; [try done; by intros [? [=]]|try done; by eexists]).
  - destruct v; (split; [by intros [? [=]]|done]).
Qed.

Lemma fillAcroField_None form n v :
  fillAcroField form n v = None ↔ acro_writable (form_kinds form) n v = false.
Proof.
  rewrite eq_None_not_Some, fillAcroField_writable.
  by destruct (acro_writable _ _ _).
Qed.

(** The document is only added to. *)
Lemma doc_extends_refl d : doc_extends d d.
Proof.
  split; [done|]. apply Forall2_same_length_lookup. split; [done|].
  intros i pg pg' H1 H2. simplify_eq. by split_and!.
Qed.

Lemma doc_extends_trans d1 d2 d3 :
  doc_extends d1 d2 → doc_extends d2 d3 → doc_extends d1 d3.
Proof.
  intros [Hk1 Hp1] [Hk2 Hp2]. split; [congruence|].
  apply Forall2_same_length_lookup in Hp1 as [Hl1 Hp1].
  apply Forall2_same_length_lookup in Hp2 as [Hl2 Hp2].
  apply Forall2_same_length_lookup. split; [congruence|].
  intros i pg1 pg3 H1 H3.
  destruct (lookup_lt_is_Some_2 (doc_pages d2) i) as [pg2 H2].
  { rewrite <-Hl1. by eapply lookup_lt_Some. }
  destruct (Hp1 i pg1 pg2 H1 H2) as (?&?&?).
  destruct (Hp2 i pg2 pg3 H2 H3) as (?&?&?).
  split_and!; [congruence..|]. by etrans.
Qed.

Lemma fillMapping_extends t p st m :
  doc_extends (gs_doc st) (gs_doc (state_of (fillMapping h t p st m))).
Proof.
  rewrite fillMapping_unfold.
  destruct (fieldOf t m) as [f|]; [|apply doc_extends_refl].
  destruct (mappingValue h p m) as [v|]; [|apply doc_extends_refl].
  destruct (isManual f).
  - destruct (page_at _ _) as [pg|], (x f), (y f); try apply doc_extends_refl.
    cbv zeta. destruct (drawText _ _ _ _ _) as [pages'|] eqn:Hd;
      [|apply doc_extends_refl].
    apply drawText_Some in Hd as (s & _ & _ & ->). split; [done|]. simpl.
    apply Forall2_alter_r.
    + by apply doc_extends_refl.
    + intros pg1 pg2 _ _ (?&?&?). simpl. split_and!; [done..|].
      by apply prefix_app_r.
  - destruct (fillAcroField _ _ _) eqn:Hw; simpl; [|apply doc_extends_refl].
    split; [by eapply fillAcroField_kinds|]. simpl.
    apply (doc_extends_refl (gs_doc st)).
Qed.

Lemma fillMappings_extends t p ms st :
  doc_extends (gs_doc st) (gs_doc (state_of (fillMappings h t p ms st))).
Proof.
  apply (fillMappings_steps (λ a b, doc_extends (gs_doc a) (gs_doc b))).
  - intros ?. apply doc_extends_refl.
  - intros ???. apply doc_extends_trans.
  - apply fillMapping_extends.
Qed.

Lemma fillMappings_kinds t p ms st :
  form_kinds (doc_form (gs_doc (state_of (fillMappings h t p ms st))))
  = form_kinds (doc_form (gs_doc st)).
Proof. apply fillMappings_extends. Qed.

Lemma page_at_extends d d' i page :
  doc_extends d d' → page_at (doc_pages d) i = Some page →
  ∃ page', page_at (doc_pages d') i = Some page'
           ∧ page_height page' = page_height page.
Proof.
  intros [_ Hp]. unfold page_at. case_decide; [|done]. intros Hi.
  destruct (Forall2_lookup_l _ _ _ _ _ Hp Hi) as (page' & Hi' & _ & Hh & _).
  by exists page'.
Qed.

(** The calls and the console are only appended to. *)
Lemma fillMapping_calls t p st m :
  gs_calls (state_of (fillMapping h t p st m)) = gs_calls st
  ∨ ∃ f c s, fieldOf t m = Some f ∧ call_for_field f c
             ∧ mappingValue h p m = Some (VString s)
             ∧ call_value c = VString s
             ∧ gs_calls (state_of (fillMapping h t p st m)) = gs_calls st ++ [c].
Proof.
  rewrite fillMapping_unfold.
  destruct (fieldOf t m) as [f|]; [|by left].
  destruct (mappingValue h p m) as [v|]; [|by left].
  destruct (isManual f) eqn:Hman.
  - destruct (page_at _ _) as [pg|]; [|by left].
    destruct (x f) as [fx|]; [|by left].
    destruct (y f) as [fy|]; [|by left]. cbv zeta.
    destruct (drawText _ _ _ _ _) as [pages'|] eqn:Hd; [|by left].
    apply drawText_Some in Hd as (s & -> & _ & _).
    right. eexists f, (PageDrawText _ _ _), s. simpl. by split_and!.
  - destruct (fillAcroField _ _ _) as [form'|] eqn:Hw; [|by left].
    apply fillAcroField_Some in Hw as (? & ? & ? & _ & Hset & _).
    apply setText_Some in Hset as (s & ? & ? & ? & -> & _).
    right. eexists f, (FormSetText _ _), s. simpl. by split_and!.
Qed.

Lemma fillMappings_calls t p ms st :
  ∃ cs, gs_calls (state_of (fillMappings h t p ms st)) = gs_calls st ++ cs
        ∧ Forall (λ c, ∃ m f s, m ∈ ms ∧ fieldOf t m = Some f
                               ∧ call_for_field f c
                               ∧ mappingValue h p m = Some (VString s)
                               ∧ call_value c = VString s) cs.
Proof.
  revert st. induction ms as [|m ms IH]; intros st.
  - exists []. by rewrite app_nil_r.
  - rewrite fillMappings_cons.
    pose proof (fillMapping_calls t p st m) as Hm.
    destruct (fillMapping h t p st m) as [st1|st1]; simpl in Hm.
    + destruct (IH st1) as (cs & Hcs & Hall).
      assert (Forall (λ c, ∃ m0 f s, m0 ∈ m :: ms ∧ fieldOf t m0 = Some f
                                    ∧ call_for_field f c
                                    ∧ mappingValue h p m0 = Some (VString s)
                                    ∧ call_value c = VString s) cs) as Hall'.
      { eapply Forall_impl; [exact Hall|].
        intros c (m0 & f & s & ? & ?). exists m0, f, s. split; [by right|done]. }
      destruct Hm as [Heq|(f & c & s & Hf & Hc & Hv & Hs & Heq)].
      * exists cs. by rewrite Hcs, Heq.
      * exists (c :: cs). split.
        -- by rewrite Hcs, Heq, <-app_assoc.
        -- constructor; [|done]. exists m, f, s. split; [by left|done].
    + simpl. destruct Hm as [Heq|(f & c & s & Hf & Hc & Hv & Hs & Heq)].
      * exists []. by rewrite app_nil_r.
      * exists [c]. split; [done|]. constructor; [|done].
        exists m, f, s. split; [by left|done].
Qed.

Lemma fillMappings_calls_prefix t p ms st :
  gs_calls st `prefix_of` gs_calls (state_of (fillMappings h t p ms st)).
Proof.
  destruct (fillMappings_calls t p ms st) as (cs & -> & _).
  by apply prefix_app_r.
Qed.

Lemma fillMapping_console t p st m :
  gs_console st `prefix_of` gs_console (state_of (fillMapping h t p st m)).
Proof.
  rewrite fillMapping_unfold.
  destruct (fieldOf t m) as [f|]; [|done].
  destruct (mappingValue h p m) as [v|]; [|done].
  destruct (isManual f).
  - destruct (page_at _ _), (x f), (y f); try done. cbv zeta.
    by destruct (drawText _ _ _ _ _).
  - destruct (fillAcroField _ _ _); simpl; [done|]. by apply prefix_app_r.
Qed.

Lemma fillMappings_console t p ms st :
  gs_console st `prefix_of` gs_console (state_of (fillMappings h t p ms st)).
Proof.
  apply (fillMappings_steps (λ a b, gs_console a `prefix_of` gs_console b)).
  - done.
  - intros ??? ? ?. by etrans.
  - apply fillMapping_console.
Qed.

(** The console is never read. *)
Lemma fillMapping_same_output t p st st' m :
  same_output st st' →
  same_completion (fillMapping h t p st m) (fillMapping h t p st' m).
Proof.
  intros [Hd Hc]. rewrite !fillMapping_unfold.
  destruct (fieldOf t m) as [f|]; [|done].
  destruct (mappingValue h p m) as [v|]; [|done].
  rewrite Hd, Hc. destruct (isManual f).
  - destruct (page_at _ _), (x f), (y f); try done. cbv zeta.
    by destruct (drawText _ _ _ _ _).
  - by destruct (fillAcroField _ _ _).
Qed.

Lemma fillMappings_same_output t p ms st st' :
  same_output st st' →
  same_completion (fillMappings h t p ms st) (fillMappings h t p ms st').
Proof.
  revert st st'. induction ms as [|m ms IH]; intros st st' H; [done|].
  rewrite !fillMappings_cons.
  pose proof (fillMapping_same_output t p st st' m H) as Hm.
  destruct (fillMapping h t p st m), (fillMapping h t p st' m); try done.
  by apply IH.
Qed.

Lemma settle_same c c' :
  same_completion c c' → same_result (settle h c) (settle h c').
Proof.
  destruct c as [st|st], c' as [st'|st']; try done. intros [Hd Hc]. simpl.
  rewrite Hd. by destruct (save h (gs_doc st')).
Qed.

(** Generation once the bytes have loaded. *)
Lemma generateFilledPDF_loaded t p pdfDoc :
  load h (pdfData t) = Some pdfDoc →
  generateFilledPDF h t p
  = settle h (fillMappings h t p (mappings t) (mkGen pdfDoc [] [])).
Proof. intros H. unfold generateFilledPDF. by rewrite H. Qed.

Lemma generateFilledPDF_Resolved t p out :
  generateFilledPDF h t p = Resolved out →
  ∃ pdfDoc,
    load h (pdfData t) = Some pdfDoc
    ∧ fillMappings h t p (mappings t) (mkGen pdfDoc [] []) = Normal (out_state out)
    ∧ save h (gs_doc (out_state out)) = Some (out_bytes out).
Proof.
  unfold generateFilledPDF.
  destruct (load h (pdfData t)) as [pdfDoc|]; [|done].
  destruct (fillMappings _ _ _ _ _) as [st|st] eqn:Hrun; [|done].
  destruct (save h (gs_doc st)) as [bytes|] eqn:Hs; [|done].
  intros [= <-]. exists pdfDoc. simpl. by split_and!.
Qed.

(** A native field whose write throws: the state is kept and the field id
    goes to the console. *)
Lemma fillMapping_write_fails t p st m f v :
  fieldOf t m = Some f → isManual f = false →
  mappingValue h p m = Some v →
  acro_writable (form_kinds (doc_form (gs_doc st))) (id f) v = false →
  fillMapping h t p st m
  = Normal (mkGen (gs_doc st) (gs_calls st) (gs_console st ++ [id f])).
Proof.
  intros Hf Hman Hv Hw. rewrite fillMapping_unfold, Hf, Hv, Hman.
  by rewrite (proj2 (fillAcroField_None _ _ _) Hw).
Qed.


(** After a successful write the form holds the written value. *)
Lemma fillAcroField_stores form n v form' i tx ml d :
  getField form n = Some (i, PDFTextField tx ml d) →
  fillAcroField form n v = Some form' →
  ∃ s, v = VString s
    ∧ getField form' n
      = Some (i, PDFTextField (if decide (s = "") then None else Some s) ml true).
Proof.
  intros Hfld Hfill.
  destruct (fillAcroField_Some _ _ _ _ Hfill)
    as (j & fld & fld' & Hi & Hset & Hget & ->).
  assert (j = i ∧ fld = PDFTextField tx ml d) as [-> ->]
    by (split; congruence).
  apply setText_Some in Hset as (s & tx' & ml' & d' & -> & [= <- <- <-] & -> & _).
  exists s. split; [done|]. unfold getField in *.
  destruct (list_find _ form) as [[j [n' fld0]]|] eqn:Hfind; simplify_eq/=.
  apply list_find_Some in Hfind as (_ & _ & Hleast).
  assert (list_find (λ e : string * PDFField, e.1 = n)
            (<[i:=(n, PDFTextField (if decide (s = "") then None else Some s)
                                   ml true)]> form)
          = Some (i, (n, PDFTextField (if decide (s = "") then None else Some s)
                                      ml true))) as ->; [|done].
  apply list_find_Some. split_and!; [|done|].
  - apply list_lookup_insert_eq. by eapply lookup_lt_Some.
  - intros j e He Hj. rewrite list_lookup_insert_ne in He by lia. eauto.
Qed.

(** A mapping that the loop gets past was filled. *)
Lemma filled_mono t p doc st st' m :
  gs_calls st `prefix_of` gs_calls st' →
  gs_console st `prefix_of` gs_console st' →
  filled h t p doc st m → filled h t p doc st' m.
Proof.
  intros [cs Hc] [ws Hw] (f & v & Hf & Hv & H). exists f, v.
  split; [done|]. split; [done|]. destruct (isManual f).
  - intros page fx fy Hp Hx Hy. rewrite Hc. apply elem_of_app. left. eauto.
  - destruct (acro_writable _ _ _).
    + rewrite Hc. apply elem_of_app. by left.
    + rewrite Hw. apply elem_of_app. by left.
Qed.

Lemma fillMapping_filled t p doc st m st' :
  doc_extends doc (gs_doc st) →
  fillMapping h t p st m = Normal st' →
  fieldOf t m ≠ None →
  filled h t p doc st' m.
Proof.
  intros Hext Hstep Hlive. rewrite fillMapping_unfold in Hstep.
  destruct (fieldOf t m) as [f|] eqn:Hf; [|done].
  destruct (mappingValue h p m) as [v|] eqn:Hv; [|done].
  exists f, v. split; [done|]. split; [done|].
  destruct (isManual f).
  - intros page fx fy Hp Hx Hy.
    destruct (page_at_extends _ _ _ _ Hext Hp) as (page' & Hp' & Hh).
    rewrite Hp', Hx, Hy in Hstep. cbv zeta in Hstep.
    destruct (drawText _ _ _ _ _); [|done]. injection Hstep as <-. simpl.
    rewrite Hh. apply elem_of_app. right. by apply list_elem_of_singleton.
  - destruct Hext as [Hk _]. rewrite <-Hk.
    destruct (fillAcroField _ _ _) as [form'|] eqn:Hw; injection Hstep as <-.
    + rewrite (proj1 (fillAcroField_writable _ _ _)) by (by eexists). simpl.
      apply elem_of_app. right. by apply list_elem_of_singleton.
    + rewrite (proj1 (fillAcroField_None _ _ _) Hw). simpl.
      apply elem_of_app. right. by apply list_elem_of_singleton.
Qed.

Lemma fillMappings_filled t p doc ms st st' :
  doc_extends doc (gs_doc st) →
  fillMappings h t p ms st = Normal st' →
  ∀ m, m ∈ ms → fieldOf t m ≠ None → filled h t p doc st' m.
Proof.
  revert st. induction ms as [|m0 ms IH]; intros st Hext Hrun m Hin Hlive.
  - by apply elem_of_nil in Hin.
  - rewrite fillMappings_cons in Hrun.
    destruct (fillMapping h t p st m0) as [st1|st1] eqn:Hstep; [|done].
    pose proof (fillMapping_extends t p st m0) as Hext1.
    rewrite Hstep in Hext1. simpl in Hext1.
    apply elem_of_cons in Hin as [->|Hin].
    + pose proof (fillMappings_calls_prefix t p ms st1) as Hc.
      pose proof (fillMappings_console t p ms st1) as Hw.
      rewrite Hrun in Hc, Hw. simpl in Hc, Hw.
      eapply filled_mono; [exact Hc|exact Hw|].
      by eapply fillMapping_filled.
    + eapply (IH st1); try done. by eapply doc_extends_trans.
Qed.

(** A placeable manual mapping that the loop gets past had a string value
    that the font encodes, and was painted. *)
Lemma fillMapping_paints t p st m f page fx fy st' :
  fieldOf t m = Some f → isManual f = true →
  page_at (doc_pages (gs_doc st)) (pageIndex f) = Some page →
  x f = Some fx → y f = Some fy →
  fillMapping h t p st m = Normal st' →
  ∃ s, mappingValue h p m = Some (VString s) ∧ Helvetica h s = true
       ∧ gs_calls st'
         = gs_calls st ++
           [PageDrawText (pageIndex f) (VString s)
              (mkDrawText fx
                 (page_height page - num_or (Some fy) 0 - num_or (height f) 20 + 4)
                 (num_or (fontSize f) 12) (width f))].
Proof.
  intros Hf Hman Hp Hx Hy. rewrite fillMapping_unfold, Hf.
  destruct (mappingValue h p m) as [v|]; [|done].
  rewrite Hman, Hp, Hx, Hy. cbv zeta.
  destruct (drawText _ _ _ _ _) as [pages'|] eqn:Hd; [|done].
  apply drawText_Some in Hd as (s & -> & Hs & _).
  intros [= <-]. by exists s.
Qed.

Lemma fillMappings_paints t p doc m f page fx fy ms st st' :
  fieldOf t m = Some f → isManual f = true →
  page_at (doc_pages doc) (pageIndex f) = Some page →
  x f = Some fx → y f = Some fy →
  m ∈ ms → doc_extends doc (gs_doc st) →
  fillMappings h t p ms st = Normal st' →
  ∃ s, mappingValue h p m = Some (VString s) ∧ Helvetica h s = true
       ∧ PageDrawText (pageIndex f) (VString s)
           (mkDrawText fx
              (page_height page - num_or (Some fy) 0 - num_or (height f) 20 + 4)
              (num_or (fontSize f) 12) (width f))
         ∈ gs_calls st'.
Proof.
  intros Hf Hman Hpage Hx Hy. revert st.
  induction ms as [|m0 ms IH]; intros st Hm Hext Hrun.
  - by apply elem_of_nil in Hm.
  - rewrite fillMappings_cons in Hrun.
    destruct (fillMapping h t p st m0) as [st1|st1] eqn:Hstep; [|done].
    pose proof (fillMapping_extends t p st m0) as Hext1.
    rewrite Hstep in Hext1. simpl in Hext1.
    apply elem_of_cons in Hm as [<-|Hm].
    + destruct (page_at_extends _ _ _ _ Hext Hpage) as (page' & Hp' & Hh).
      destruct (fillMapping_paints t p st m f page' fx fy st1 Hf Hman Hp' Hx Hy
                  Hstep) as (s & Hv & Hs & Hc).
      exists s. split; [done|]. split; [done|].
      pose proof (fillMappings_calls_prefix t p ms st1) as [cs Hpre].
      rewrite Hrun in Hpre. simpl in Hpre. rewrite Hpre, Hc, Hh.
      apply elem_of_app. left. apply elem_of_app. right.
      by apply list_elem_of_singleton.
    + apply (IH st1); try done. by eapply doc_extends_trans.
Qed.

(** A loop of harmless mappings runs to its end. *)
Lemma fillMapping_harmless t p st m :
  harmless h t p m → ∃ st', fillMapping h t p st m = Normal st'.
Proof.
  intros Hm. rewrite fillMapping_unfold.
  destruct (fieldOf t m) as [f|] eqn:Hf; [|by eexists].
  destruct (Hm f Hf) as (v & -> & Hv).
  destruct (isManual f).
  - destruct (Hv eq_refl) as (s & -> & Henc).
    destruct (page_at _ _), (x f), (y f); try by eexists.
    simpl. rewrite Henc. by eexists.
  - destruct (fillAcroField _ _ _); by eexists.
Qed.

Lemma fillMappings_harmless t p ms st :
  (∀ m, m ∈ ms → harmless h t p m) →
  ∃ st', fillMappings h t p ms st = Normal st'.
Proof.
  revert st. induction ms as [|m ms IH]; intros st Hall; [by eexists|].
  rewrite fillMappings_cons.
  destruct (fillMapping_harmless t p st m (Hall m (list_elem_of_here _ _)))
    as [st1 ->].
  apply IH. intros m' Hm'. apply Hall. by right.
Qed.

(** The value of a mapping whose key the profile owns, or which no object
    inherits. *)
Lemma get_plain obj key :
  is_Some (obj !! key) ∨ key ∉ Object_prototype →
  or_empty (get obj key) = VString (default "" (obj !! key)).
Proof.
  unfold get. destruct (obj !! key) as [v|]; [done|].
  intros [[? [=]]|Hk]. by rewrite decide_False.
Qed.

Lemma mappingValue_plain p m :
  is_Some (profile_fields p !! profileKey m) ∨ profileKey m ∉ Object_prototype →
  mappingValue h p m
  = Some (VString
      (let v := default "" (profile_fields p !! profileKey m) in
       if decide (transformation m = Some "uppercase") then toUpperCase h v
       else if decide (transformation m = Some "lowercase") then toLowerCase h v
       else v)).
Proof.
  intros Hk. unfold mappingValue. rewrite (get_plain _ _ Hk). cbv zeta.
  repeat case_decide; simpl; try done; congruence.
Qed.

(** The value of a mapping whose key is missing from the profile and
    inherited from [Object.prototype]. *)
Lemma mappingValue_inherited p m :
  profile_fields p !! profileKey m = None →
  profileKey m ∈ Object_prototype →
  mappingValue h p m
  = if decide (transformation m = Some "uppercase"
               ∨ transformation m = Some "lowercase")
    then None else Some VObject.
Proof.
  intros Hnone Hk. unfold mappingValue, get. rewrite Hnone.
  destruct (decide (profileKey m ∈ Object_prototype)) as [_|?]; [|done].
  simpl. repeat case_decide; simpl; try done; exfalso; intuition congruence.
Qed.

End ServiceFacts.

Section GeneratorClaims.

Variable h : Host.

(** C1. A template with one manual field on page 0 at x=50, y=50 of size
    150 by 30 and font size 12, bound to the profile key "Full Name" with no
    transformation, filled from a profile that maps "Full Name" to
    "Jane Doe": the loop of generateFilledPDF runs to its end and the
    painter is called exactly once, on page 0, with the text "Jane Doe",
    x = 50, size 12, maxWidth 150 and y = pageHeight - 50 - 30 + 4. No other
    call is made, the text lands on the first page only, and the promise
    settles with the serialisation of that document. *)
Theorem C1_manual_field_painted_once
    (t : Template) (p : Profile) (pdfDoc : PDFDocument)
    (page : PDFPage) (rest : list PDFPage) (f : TemplateField) (m : Mapping) :
  HostLaws h →
  load h (pdfData t) = Some pdfDoc →
  doc_pages pdfDoc = page :: rest →
  fields t = [f] →
  isManual f = true → pageIndex f = 0%Z →
  x f = Some 50%Q → y f = Some 50%Q →
  width f = Some 150%Q → height f = Some 30%Q → fontSize f = Some 12%Q →
  mappings t = [m] →
  templateFieldId m = id f → profileKey m = "Full Name" →
  (transformation m = None ∨ transformation m = Some "none") →
  profile_fields p !! "Full Name" = Some "Jane Doe" →
  let opts := mkDrawText 50 (page_height page - 50 - 30 + 4) 12 (Some 150%Q) in
  ∃ st,
    fillMappings h t p (mappings t) (mkGen pdfDoc [] []) = Normal st
    ∧ gs_calls st = [PageDrawText 0 (VString "Jane Doe") opts]
    ∧ doc_pages (gs_doc st)
      = mkPage (page_width page) (page_height page)
               (page_texts page ++ [("Jane Doe", opts)]) :: rest
    ∧ generateFilledPDF h t p = settle h (Normal st).
Proof.
  intros Hlaws Hload Hpages Hfs Hman Hpi Hx Hy Hw Hh Hsz Hms Hid Hkey Htr Hp opts.
  assert (mappingValue h p m = Some (VString "Jane Doe")) as Hval.
  { rewrite mappingValue_plain by (left; rewrite Hkey, Hp; by eexists).
    rewrite Hkey, Hp. simpl.
    destruct Htr as [-> | ->]; by repeat case_decide. }
  assert (fieldOf t m = Some f) as Hf.
  { unfold fieldOf. rewrite Hfs. simpl. by rewrite decide_True. }
  assert (fillMappings h t p (mappings t) (mkGen pdfDoc [] [])
          = Normal (mkGen (mkDoc (doc_form pdfDoc)
                             (mkPage (page_width page) (page_height page)
                                (page_texts page ++ [("Jane Doe", opts)]) :: rest))
                          [PageDrawText 0 (VString "Jane Doe") opts] []))
    as Hrun.
  { rewrite Hms. simpl. rewrite fillMapping_unfold, Hf, Hval, Hman. simpl.
    rewrite Hpi, Hpages, Hx, Hy, Hw, Hh, Hsz. simpl.
    by rewrite (Helvetica_printable h Hlaws "Jane Doe" eq_refl). }
  eexists. split; [exact Hrun|]. split; [done|]. split; [done|].
  by rewrite (generateFilledPDF_loaded h t p pdfDoc Hload), Hrun.
Qed.

(** C2, where the code leaves the claim. The specification's value for a
    mapping whose key is missing from the profile is the empty string. For
    a key that names a member of Object.prototype ("constructor",
    "toString", ...), [profile.fields[key]] is the inherited member and
    [|| ''] keeps it: the value is not the empty string, and with the
    mapping bound to a manual field that has x, y and a page, generation
    rejects. *)
Theorem C2_inherited_key_is_not_empty
    (t : Template) (p : Profile) (pdfDoc : PDFDocument) (m : Mapping)
    (f : TemplateField) (page : PDFPage) (fx fy : Q) :
  load h (pdfData t) = Some pdfDoc →
  m ∈ mappings t → fieldOf t m = Some f → isManual f = true →
  page_at (doc_pages pdfDoc) (pageIndex f) = Some page →
  x f = Some fx → y f = Some fy →
  profileKey m ∈ Object_prototype →
  profile_fields p !! profileKey m = None →
  spec_resolved_value p m = ""
  ∧ (mappingValue h p m = None ∨ mappingValue h p m = Some VObject)
  ∧ generateFilledPDF h t p = Rejected.
Proof.
  intros Hload Hin Hf Hman Hpage Hx Hy Hk Hnone.
  pose proof (mappingValue_inherited h p m Hnone Hk) as Hv.
  split_and!.
  - unfold spec_resolved_value. rewrite Hnone. simpl. by repeat case_decide.
  - rewrite Hv. case_decide; auto.
  - rewrite (generateFilledPDF_loaded h t p pdfDoc Hload).
    destruct (fillMappings h t p (mappings t) (mkGen pdfDoc [] []))
      as [st|st] eqn:Hrun; [|done].
    destruct (fillMappings_paints h t p pdfDoc m f page fx fy (mappings t)
                (mkGen pdfDoc [] []) st Hf Hman Hpage Hx Hy Hin
                (doc_extends_refl _) Hrun) as (s & Hs & _).
    rewrite Hs in Hv. by case_decide.
Qed.



(** C7, as the code has it. A failure to parse the stored bytes rejects,
    and so does a failure to serialise the document after the loop; when
    the loop has run to its end the promise settles with the serialisation
    of the document it left, and a resolved promise carries exactly that.
    When a native field's write throws (no form field of that name, one
    that is no text field, a value that is no string or too long), the
    failure is caught: the iteration only logs the field id; generation
    settles as it does for the template without the failing mapping, with
    the same bytes, document and calls; when nothing throws for the other
    mappings the loop runs to its end; and in a loop that ran to its end
    the field id is on the console and every other mapping that references
    a field was filled. *)
Theorem C7_field_failure_is_local (t : Template) (p : Profile) :
  (load h (pdfData t) = None → generateFilledPDF h t p = Rejected)
  ∧ (∀ pdfDoc st,
       load h (pdfData t) = Some pdfDoc →
       fillMappings h t p (mappings t) (mkGen pdfDoc [] []) = Normal st →
       generateFilledPDF h t p
       = match save h (gs_doc st) with
         | Some bytes => Resolved (mkGenerated bytes st)
         | None => Rejected
         end)
  ∧ (∀ out,
       generateFilledPDF h t p = Resolved out →
       ∃ pdfDoc,
         load h (pdfData t) = Some pdfDoc
         ∧ fillMappings h t p (mappings t) (mkGen pdfDoc [] [])
           = Normal (out_state out)
         ∧ save h (gs_doc (out_state out)) = Some (out_bytes out))
  ∧ (∀ pdfDoc ms1 m ms2 f v,
       load h (pdfData t) = Some pdfDoc →
       mappings t = ms1 ++ m :: ms2 →
       fieldOf t m = Some f → isManual f = false →
       mappingValue h p m = Some v →
       acro_writable (form_kinds (doc_form pdfDoc)) (id f) v = false →
       (∀ st, form_kinds (doc_form (gs_doc st)) = form_kinds (doc_form pdfDoc) →
              fillMapping h t p st m
              = Normal (mkGen (gs_doc st) (gs_calls st)
                              (gs_console st ++ [id f])))
       ∧ same_result (generateFilledPDF h t p)
                     (generateFilledPDF h (with_mappings t (ms1 ++ ms2)) p)
       ∧ ((∀ m', m' ∈ ms1 ++ ms2 → harmless h t p m') →
          ∃ st,
            fillMappings h t p (mappings t) (mkGen pdfDoc [] []) = Normal st
            ∧ generateFilledPDF h t p = settle h (Normal st))
       ∧ ∀ st,
           fillMappings h t p (mappings t) (mkGen pdfDoc [] []) = Normal st →
           id f ∈ gs_console st
           ∧ ∀ m', m' ∈ ms1 ++ ms2 → fieldOf t m' ≠ None →
                   filled h t p pdfDoc st m').
Proof.
  split_and!.
  - intros Hload. unfold generateFilledPDF. by rewrite Hload.
  - intros pdfDoc st Hload Hrun.
    by rewrite (generateFilledPDF_loaded h t p pdfDoc Hload), Hrun.
  - apply generateFilledPDF_Resolved.
  - intros pdfDoc ms1 m ms2 f v Hload Hms Hf Hman Hv Hfail.
    assert (∀ st, form_kinds (doc_form (gs_doc st)) = form_kinds (doc_form pdfDoc) →
                  fillMapping h t p st m
                  = Normal (mkGen (gs_doc st) (gs_calls st)
                                  (gs_console st ++ [id f]))) as Hstep.
    { intros st Hk. apply (fillMapping_write_fails h t p st m f v); try done.
      by rewrite Hk. }
    split; [exact Hstep|]. split_and!.
    + rewrite (generateFilledPDF_loaded h t p pdfDoc Hload).
      rewrite (generateFilledPDF_loaded h (with_mappings t (ms1 ++ ms2)) p
                 pdfDoc Hload).
      apply settle_same. simpl. rewrite Hms.
      rewrite (fillMappings_fields h (with_mappings t _) t) by done.
      rewrite !fillMappings_app.
      pose proof (fillMappings_kinds h t p ms1 (mkGen pdfDoc [] [])) as Hk.
      destruct (fillMappings h t p ms1 (mkGen pdfDoc [] [])) as [st1|st1];
        simpl in Hk; [|done].
      rewrite fillMappings_cons, (Hstep st1 Hk).
      by apply fillMappings_same_output.
    + intros Hothers.
      destruct (fillMappings_harmless h t p (mappings t) (mkGen pdfDoc [] []))
        as [st Hrun].
      { intros m' Hm'. rewrite Hms in Hm'.
        apply elem_of_app in Hm' as [Hm'|Hm'].
        - apply Hothers, elem_of_app. by left.
        - apply elem_of_cons in Hm' as [->|Hm'].
          + intros f' Hf'. exists v. split; [done|]. congruence.
          + apply Hothers, elem_of_app. by right. }
      exists st. split; [done|].
      by rewrite (generateFilledPDF_loaded h t p pdfDoc Hload), Hrun.
    + intros st Hrun. split.
      * rewrite Hms, fillMappings_app in Hrun.
        pose proof (fillMappings_kinds h t p ms1 (mkGen pdfDoc [] [])) as Hk.
        destruct (fillMappings h t p ms1 (mkGen pdfDoc [] [])) as [st1|st1];
          simpl in Hk; [|done].
        rewrite fillMappings_cons, (Hstep st1 Hk) in Hrun.
        pose proof (fillMappings_console h t p ms2
                      (mkGen (gs_doc st1) (gs_calls st1)
                             (gs_console st1 ++ [id f]))) as [ws Hws].
        rewrite Hrun in Hws. simpl in Hws. rewrite Hws.
        apply elem_of_app. left. apply elem_of_app. right.
        by apply list_elem_of_singleton.
      * intros m' Hm' Hlive.
        eapply (fillMappings_filled h t p pdfDoc); try done.
        -- apply doc_extends_refl.
        -- rewrite Hms. apply elem_of_app in Hm' as [?|?];
             apply elem_of_app; [by left|right; by right].
Qed.

End GeneratorClaims.

(** ** The claims on concrete documents *)

(** C1 on the sample document: a 612 by 792 page, the field [custom_1]. *)
Lemma C1_witness :
  let opts := mkDrawText 50 (page_height Sample.page - 50 - 30 + 4) 12
                         (Some 150%Q) in
  ∃ st,
    fillMappings Sample.host
      (Sample.template [Sample.custom_1]
                       [mkMapping "custom_1" "Full Name" None])
      Sample.profile [mkMapping "custom_1" "Full Name" None]
      (mkGen Sample.doc [] []) = Normal st
    ∧ gs_calls st = [PageDrawText 0 (VString "Jane Doe") opts]
    ∧ doc_pages (gs_doc st)
      = mkPage (page_width Sample.page) (page_height Sample.page)
               (page_texts Sample.page ++ [("Jane Doe", opts)]) :: []
    ∧ generateFilledPDF Sample.host
        (Sample.template [Sample.custom_1]
                         [mkMapping "custom_1" "Full Name" None])
        Sample.profile = settle Sample.host (Normal st).
Proof.
  apply (C1_manual_field_painted_once Sample.host
           (Sample.template [Sample.custom_1]
                            [mkMapping "custom_1" "Full Name" None])
           Sample.profile Sample.doc Sample.page [] Sample.custom_1
           (mkMapping "custom_1" "Full Name" None) Sample_host_laws);
    try reflexivity.
  left; reflexivity.
Defined.

(** The transformation examples of the specification, on every host that
    meets the laws. *)
Example transformation_examples (h : Host) :
  HostLaws h →
  mappingValue h (mkProfile None "p" {[ "k" := "john doe" ]})
               (mkMapping "f" "k" (Some "uppercase")) = Some (VString "JOHN DOE")
  ∧ mappingValue h (mkProfile None "p" {[ "k" := "JOHN" ]})
                 (mkMapping "f" "k" (Some "lowercase")) = Some (VString "john")
  ∧ mappingValue h (mkProfile None "p" {[ "k" := "MiXed" ]})
                 (mkMapping "f" "k" (Some "none")) = Some (VString "MiXed")
  ∧ mappingValue h (mkProfile None "p" {[ "k" := "MiXed" ]})
                 (mkMapping "f" "k" None) = Some (VString "MiXed")
  ∧ mappingValue h (mkProfile None "p" {[ "k" := "MiXed" ]})
                 (mkMapping "f" "absent" (Some "uppercase")) = Some (VString "").
Proof.
  intros Hlaws. split_and!.
  - rewrite mappingValue_plain by (left; by eexists). simpl.
    rewrite lookup_singleton_eq. simpl.
    by rewrite (toUpperCase_ascii h Hlaws "john doe" eq_refl).
  - rewrite mappingValue_plain by (left; by eexists). simpl.
    rewrite lookup_singleton_eq. simpl.
    by rewrite (toLowerCase_ascii h Hlaws "JOHN" eq_refl).
  - rewrite mappingValue_plain by (left; by eexists). simpl.
    by rewrite lookup_singleton_eq.
  - rewrite mappingValue_plain by (left; by eexists). simpl.
    by rewrite lookup_singleton_eq.
  - rewrite mappingValue_plain.
    + simpl. rewrite lookup_singleton_ne by done. simpl.
      by rewrite (toUpperCase_ascii h Hlaws "" eq_refl).
    + right. simpl. refine (bool_decide_unpack _ _). vm_compute. exact I.
Qed.

(** C2 on [custom_1] bound to the key "constructor": the profile has no
    such entry, the specification's value is the empty string, generation
    rejects. *)
Lemma C2_witness :
  spec_resolved_value Sample.profile (mkMapping "custom_1" "constructor" None)
  = ""
  ∧ (mappingValue Sample.host Sample.profile
       (mkMapping "custom_1" "constructor" None) = None
     ∨ mappingValue Sample.host Sample.profile
         (mkMapping "custom_1" "constructor" None) = Some VObject)
  ∧ generateFilledPDF Sample.host
      (Sample.template [Sample.custom_1]
                       [mkMapping "custom_1" "constructor" None])
      Sample.profile = Rejected.
Proof.
  apply (C2_inherited_key_is_not_empty Sample.host
           (Sample.template [Sample.custom_1]
                            [mkMapping "custom_1" "constructor" None])
           Sample.profile Sample.doc
           (mkMapping "custom_1" "constructor" None)
           Sample.custom_1 Sample.page 50 50);
    try reflexivity.
  - apply list_elem_of_here.
  - refine (bool_decide_unpack _ _). vm_compute. exact I.
Defined.




(** The claim C7 lets only a failure to parse the bytes reject. Here the
    bytes load, no write fails (the console stays empty), the text field
    "signature_date" takes a value that the serialiser cannot give an
    appearance, and generation rejects. *)
Lemma C7_counterexample :
  let t := Sample.template [Sample.native "signature_date"]
                           [mkMapping "signature_date" "City" None] in
  let p := mkProfile (Some 2%Z) "Ola" {[ "City" := "Łódź" ]} in
  load Sample.host (pdfData t) = Some Sample.doc
  ∧ (∃ st, fillMappings Sample.host t p (mappings t) (mkGen Sample.doc [] [])
           = Normal st
           ∧ gs_calls st = [FormSetText "signature_date" (VString "Łódź")]
           ∧ gs_console st = [])
  ∧ generateFilledPDF Sample.host t p = Rejected.
Proof. split; [reflexivity|]. split; [|reflexivity]. eexists. by split_and!. Qed.

(** C7 as amended, on a template whose first mapping targets the check box
    "agree": the write throws, the manual field after it is still
    painted. *)
Lemma C7_witness :
  let t := Sample.template [Sample.native "agree"; Sample.custom_1]
             [mkMapping "agree" "Date" None;
              mkMapping "custom_1" "Full Name" None] in
  same_result
    (generateFilledPDF Sample.host t Sample.profile)
    (generateFilledPDF Sample.host
       (with_mappings t ([] ++ [mkMapping "custom_1" "Full Name" None]))
       Sample.profile)
  ∧ ∃ st,
      fillMappings Sample.host t Sample.profile (mappings t)
        (mkGen Sample.doc [] []) = Normal st
      ∧ generateFilledPDF Sample.host t Sample.profile
        = settle Sample.host (Normal st)
      ∧ id (Sample.native "agree") ∈ gs_console st
      ∧ filled Sample.host t Sample.profile Sample.doc st
               (mkMapping "custom_1" "Full Name" None).
Proof.
  intros t.
  destruct (proj2 (proj2 (proj2 (C7_field_failure_is_local Sample.host t
                                   Sample.profile)))
              Sample.doc [] (mkMapping "agree" "Date" None)
              [mkMapping "custom_1" "Full Name" None] (Sample.native "agree")
              (VString "2024-01-01") eq_refl eq_refl eq_refl eq_refl eq_refl
              eq_refl) as (_ & Hsame & Hruns & Hout).
  split; [exact Hsame|].
  destruct Hruns as (st & Hrun & Hgen).
  - intros m' Hm' f' Hf'. simpl in Hm'.
    apply list_elem_of_singleton in Hm' as ->. injection Hf' as <-.
    exists (VString "Jane Doe"). split; [reflexivity|]. intros _.
    exists "Jane Doe". split; reflexivity.
  - exists st. split; [exact Hrun|]. split; [exact Hgen|].
    destruct (Hout st Hrun) as [Hlog Hfill]. split; [exact Hlog|].
    apply Hfill; [left|discriminate].
Defined.

(** * Properties of the editor *)

Section MappingFacts.

Implicit Types (ms : list Mapping) (m : Mapping) (fid key : string).

Lemma find_mapping_None ms fid :
  list_find (λ m, templateFieldId m = fid) ms = None ↔ fid ∉ mappedIds ms.
Proof.
  unfold mappedIds. rewrite list_find_None, Forall_forall, list_elem_of_fmap.
  split.
  - intros H (m & Heq & Hin). by eapply H.
  - intros H m Hin Heq. apply H. by exists m.
Qed.

Lemma find_mapping_unique ms fid i m :
  NoDup (mappedIds ms) → ms !! i = Some m → templateFieldId m = fid →
  list_find (λ m, templateFieldId m = fid) ms = Some (i, m).
Proof.
  intros Hnd Hi Hid. apply list_find_Some. split_and!; [done..|].
  intros j m' Hj Hlt Hid'.
  assert (i = j); [|lia].
  apply (NoDup_lookup (mappedIds ms) i j fid Hnd); unfold mappedIds;
    rewrite list_lookup_fmap; [by rewrite Hi; simpl; f_equal
                              |by rewrite Hj; simpl; f_equal].
Qed.

Lemma alter_profileKey_insert ms i m key :
  ms !! i = Some m →
  alter (λ m, with_profileKey m key) i ms = <[i := with_profileKey m key]> ms.
Proof.
  intros Hi. apply list_eq. intros j.
  rewrite list_lookup_alter. case_decide as Hij.
  - subst j. rewrite list_lookup_insert_eq by (by eapply lookup_lt_Some).
    by rewrite Hi.
  - by rewrite list_lookup_insert_ne.
Qed.

Lemma mappedIds_alter ms i key :
  mappedIds (alter (λ m, with_profileKey m key) i ms) = mappedIds ms.
Proof.
  unfold mappedIds.
  rewrite (list_fmap_alter _ _ Datatypes.id) by (by apply Forall_true).
  by apply list_alter_id.
Qed.

Lemma filter_other_ids ms fid :
  fid ∉ mappedIds ms → filter (λ m, templateFieldId m ≠ fid) ms = ms.
Proof.
  induction ms as [|m ms IH]; [done|].
  unfold mappedIds. rewrite fmap_cons, not_elem_of_cons. intros [Hne Hnin].
  rewrite filter_cons_True by done. f_equal. by apply IH.
Qed.

Lemma delete_first_is_filter ms fid i m :
  NoDup (mappedIds ms) →
  list_find (λ m, templateFieldId m = fid) ms = Some (i, m) →
  delete i ms = filter (λ m, templateFieldId m ≠ fid) ms.
Proof.
  revert i. induction ms as [|m0 ms IH]; intros i Hnd Hfind; [done|].
  unfold mappedIds in Hnd. rewrite fmap_cons in Hnd.
  apply NoDup_cons in Hnd as [Hnin Hnd].
  simpl in Hfind. case_decide as Hm0.
  - injection Hfind as <- <-. simpl.
    rewrite filter_cons_False by (intros H; by apply H).
    symmetry. apply filter_other_ids. by rewrite <-Hm0.
  - destruct (list_find _ ms) as [[i' m']|] eqn:Hfind'; simplify_eq/=.
    rewrite filter_cons_True by done. f_equal. by apply IH.
Qed.

Lemma filter_id_nil ms fid :
  fid ∉ mappedIds ms → filter (λ m, templateFieldId m = fid) ms = [].
Proof.
  induction ms as [|m ms IH]; [done|].
  unfold mappedIds. rewrite fmap_cons, not_elem_of_cons. intros [Hne Hnin].
  rewrite filter_cons_False by done. by apply IH.
Qed.

Lemma count_unique_id ms fid :
  NoDup (mappedIds ms) → fid ∈ mappedIds ms →
  length (filter (λ m, templateFieldId m = fid) ms) = 1.
Proof.
  induction ms as [|m0 ms IH]; intros Hnd Hin.
  - by apply elem_of_nil in Hin.
  - unfold mappedIds in Hnd, Hin. rewrite fmap_cons in Hnd, Hin.
    apply NoDup_cons in Hnd as [Hnin Hnd].
    destruct (decide (templateFieldId m0 = fid)) as [Heq|Hne].
    + rewrite filter_cons_True by done. simpl.
      rewrite filter_id_nil; [done|]. by rewrite <-Heq.
    + rewrite filter_cons_False by done. apply IH; [done|].
      apply elem_of_cons in Hin as [Hin|Hin]; [congruence|done].
Qed.

Lemma newMappings_unbind ms fid :
  NoDup (mappedIds ms) →
  TemplateEditor.newMappings ms fid ""
  = filter (λ m, templateFieldId m ≠ fid) ms.
Proof.
  intros Hnd. unfold TemplateEditor.newMappings. rewrite decide_True by done.
  destruct (list_find _ ms) as [[i m]|] eqn:Hfind.
  - by eapply delete_first_is_filter.
  - symmetry. by apply filter_other_ids, find_mapping_None.
Qed.

Lemma newMappings_rebind ms fid key i m :
  key ≠ "" →
  list_find (λ m, templateFieldId m = fid) ms = Some (i, m) →
  TemplateEditor.newMappings ms fid key = <[i := with_profileKey m key]> ms.
Proof.
  intros Hkey Hfind. unfold TemplateEditor.newMappings.
  rewrite decide_False, Hfind by done.
  apply alter_profileKey_insert. by apply list_find_Some in Hfind as (? & _).
Qed.

Lemma newMappings_bind_new ms fid key :
  key ≠ "" → fid ∉ mappedIds ms →
  TemplateEditor.newMappings ms fid key = ms ++ [mkMapping fid key None].
Proof.
  intros Hkey Hnin. unfold TemplateEditor.newMappings.
  by rewrite decide_False, (proj2 (find_mapping_None ms fid) Hnin) by done.
Qed.

Lemma newMappings_well_formed ms fid key :
  well_formed_mappings ms →
  well_formed_mappings (TemplateEditor.newMappings ms fid key).
Proof.
  intros [Hnd Hkeys]. unfold TemplateEditor.newMappings.
  destruct (list_find _ ms) as [[i m]|] eqn:Hfind; case_decide as Hkey.
  - split.
    + eapply sublist_NoDup; [exact Hnd|]. apply fmap_sublist, sublist_delete.
    + by apply Forall_delete.
  - split; [by rewrite mappedIds_alter|].
    apply Forall_alter; [done|]. by intros.
  - done.
  - apply find_mapping_None in Hfind. split.
    + unfold mappedIds. rewrite fmap_app. apply NoDup_app. split_and!.
      * done.
      * intros x Hx. simpl. rewrite list_elem_of_singleton. by intros ->.
      * apply NoDup_singleton.
    + apply Forall_app. split; [done|]. by apply Forall_singleton.
Qed.

Lemma newMappings_bound ms fid key :
  key ≠ "" → fid ∈ mappedIds (TemplateEditor.newMappings ms fid key).
Proof.
  intros Hkey. unfold TemplateEditor.newMappings. rewrite decide_False by done.
  destruct (list_find _ ms) as [[i m]|] eqn:Hfind.
  - rewrite mappedIds_alter. unfold mappedIds.
    apply list_find_Some in Hfind as (Hi & Hid & _).
    apply list_elem_of_fmap. exists m. split; [done|].
    by eapply list_elem_of_lookup_2.
  - unfold mappedIds. rewrite fmap_app. set_solver.
Qed.

Lemma saveMapping_template st t fid key :
  template st = Some t →
  template (TemplateEditor.saveMapping fid key st)
  = Some (with_mappings t (TemplateEditor.newMappings (mappings t) fid key)).
Proof. intros H. unfold TemplateEditor.saveMapping. by rewrite H. Qed.

Lemma saveMappings_well_formed calls st t :
  template st = Some t → well_formed_mappings (mappings t) →
  ∃ t', template (saveMappings calls st) = Some t'
        ∧ fields t' = fields t
        ∧ well_formed_mappings (mappings t').
Proof.
  revert st t. induction calls as [|[fid key] calls IH]; intros st t Ht Hwf.
  - by exists t.
  - simpl. 
    destruct (IH (TemplateEditor.saveMapping fid key st)
                 (with_mappings t (TemplateEditor.newMappings (mappings t) fid key)))
      as (t' & ? & ? & ?).
    + by apply saveMapping_template.
    + by apply newMappings_well_formed.
    + by exists t'.
Qed.

(** Every editor action keeps the mapping invariant, so it holds in every
    state reached from a template the analyzer produced. *)
Lemma act_well_formed v st a :
  well_formed_mappings (editor_mappings st) →
  well_formed_mappings (editor_mappings (act v st a)).
Proof.
  unfold editor_mappings. intros Hwf.
  destruct a, v; simpl;
    unfold TemplateEditor.addManualField, DesktopEditor.addManualField,
           TemplateEditor.updateField, TemplateEditor.persistField,
           TemplateEditor.deleteField, DesktopEditor.deleteField,
           TemplateEditor.saveMapping, DesktopEditor.onResize,
           DesktopEditor.updateField, TemplateEditor.updateField;
    destruct (template st) as [t|] eqn:Ht; simpl in *; rewrite ?Ht; simpl;
    try done; try (by apply newMappings_well_formed);
    (destruct Hwf as [Hnd Hkeys]; split;
     [eapply sublist_NoDup; [exact Hnd|]; apply fmap_sublist, sublist_filter
     |apply Forall_forall; intros m [_ Hin]%list_elem_of_filter;
      by apply (proj1 (Forall_forall _ _) Hkeys)]).
Qed.

Lemma analyzed_then_edited_well_formed
    (h : Host) now buffer fileName t v actions :
  analyzePDF h now buffer fileName = Resolved t →
  well_formed_mappings (editor_mappings (foldl (act v) (opened t) actions)).
Proof.
  intros Ht.
  assert (well_formed_mappings (editor_mappings (opened t))) as Hwf.
  { unfold analyzePDF in Ht. destruct (load h buffer); [|done].
    injection Ht as <-. split; [apply NoDup_nil_2|apply Forall_nil_2]. }
  revert Hwf. generalize (opened t).
  induction actions as [|a actions IH]; intros st Hwf; [done|].
  simpl. by apply IH, act_well_formed.
Qed.

End MappingFacts.

(** ** The claims on the editor *)

(** C4. From a template whose mappings are well formed (one mapping per
    field id at most, no empty profile key; the analyzer starts every
    template with no mapping at all), any run of [saveMapping] calls ends in
    a template with at most one mapping per templateFieldId and no mapping
    with an empty key. A single call with a non-empty key replaces the
    profileKey of the field's mapping in place when there is one (the list
    keeps its length), appends exactly one mapping when there is none, and
    in both cases leaves exactly one mapping for the field; a call with the
    empty key removes the field's mapping. The template written to the
    store is the updated one. The desktop editor runs the same code, and
    [analyzed_then_edited_well_formed] shows that the premise holds in every
    state the editor reaches from an analyzed template. *)
Theorem C4_one_mapping_per_field (st : EditorState) (t : Template) :
  template st = Some t →
  well_formed_mappings (mappings t) →
  (∀ calls, ∃ t',
     template (saveMappings calls st) = Some t'
     ∧ NoDup (mappedIds (mappings t'))
     ∧ Forall (λ m, profileKey m ≠ "") (mappings t'))
  ∧ (∀ fid key, ∃ t',
       template (TemplateEditor.saveMapping fid key st) = Some t'
       ∧ db_updates (TemplateEditor.saveMapping fid key st)
         = db_updates st ++ [mkDbUpdate (template_id t) (WholeTemplate t')]
       ∧ (key ≠ "" →
          ∀ i m, mappings t !! i = Some m → templateFieldId m = fid →
                 mappings t' = <[i := with_profileKey m key]> (mappings t)
                 ∧ length (mappings t') = length (mappings t))
       ∧ (key ≠ "" → fid ∉ mappedIds (mappings t) →
          mappings t' = mappings t ++ [mkMapping fid key None])
       ∧ (key ≠ "" →
          length (filter (λ m, templateFieldId m = fid) (mappings t')) = 1)
       ∧ (key = "" →
          mappings t' = filter (λ m, templateFieldId m ≠ fid) (mappings t)
          ∧ fid ∉ mappedIds (mappings t'))).
Proof.
  intros Ht Hwf. split.
  - intros calls.
    destruct (saveMappings_well_formed calls st t Ht Hwf) as (t' & ? & _ & ? & ?).
    by exists t'.
  - intros fid key. eexists. split; [by apply saveMapping_template|].
    split; [by unfold TemplateEditor.saveMapping; rewrite Ht|].
    simpl. destruct Hwf as [Hnd Hkeys]. split_and!.
    + intros Hkey i m Hi Hid.
      rewrite (newMappings_rebind _ _ _ i m Hkey)
        by (by apply find_mapping_unique).
      by rewrite length_insert.
    + intros. by apply newMappings_bind_new.
    + intros Hkey. apply count_unique_id.
      * by apply newMappings_well_formed.
      * by apply newMappings_bound.
    + intros ->. rewrite newMappings_unbind by done. split; [done|].
      unfold mappedIds. rewrite list_elem_of_fmap.
      intros (m & Heq & [Hne _]%list_elem_of_filter). by apply Hne.
Qed.

(** C10. [saveMapping] takes a field id and a profile key only. Rebinding
    a mapped field overwrites the profileKey of its mapping and keeps the
    mapping's templateFieldId and transformation; a mapping it appends has
    no transformation; every other mapping is left as it is. So each mapping
    of the saved template either carries the transformation of a mapping
    that was there before, or is the appended one. *)
Theorem C10_saveMapping_keeps_transformation
    (st : EditorState) (t : Template) (fid key : string) :
  template st = Some t →
  ∃ t',
    template (TemplateEditor.saveMapping fid key st) = Some t'
    ∧ (∀ i m, key ≠ "" →
         list_find (λ m, templateFieldId m = fid) (mappings t) = Some (i, m) →
         mappings t'
         = <[i := mkMapping (templateFieldId m) key (transformation m)]>
             (mappings t))
    ∧ (key ≠ "" →
       list_find (λ m, templateFieldId m = fid) (mappings t) = None →
       mappings t' = mappings t ++ [mkMapping fid key None])
    ∧ (key ≠ "" →
       ∀ j m, mappings t !! j = Some m →
         ∃ m', mappings t' !! j = Some m'
               ∧ templateFieldId m' = templateFieldId m
               ∧ transformation m' = transformation m
               ∧ (templateFieldId m ≠ fid → m' = m))
    ∧ (∀ m', m' ∈ mappings t' →
         (∃ m, m ∈ mappings t
               ∧ templateFieldId m' = templateFieldId m
               ∧ transformation m' = transformation m)
         ∨ (m' = mkMapping fid key None ∧ transformation m' = None)).
Proof.
  intros Ht. eexists. split; [by apply saveMapping_template|]. simpl.
  split_and!.
  - intros i m Hkey Hfind. by apply newMappings_rebind.
  - intros Hkey Hfind. by apply newMappings_bind_new, find_mapping_None.
  - intros Hkey j m Hj. unfold TemplateEditor.newMappings.
    rewrite decide_False by done.
    destruct (list_find _ (mappings t)) as [[i m0]|] eqn:Hfind.
    + apply list_find_Some in Hfind as (Hi & Hid & _).
      rewrite list_lookup_alter. case_decide as Hij.
      * subst j. rewrite Hi. simplify_eq. eexists. split; [done|].
        by split_and!.
      * exists m. by rewrite Hj.
    + exists m. split_and!; try done.
      apply lookup_app_l_Some, Hj.
  - intros m' Hin. unfold TemplateEditor.newMappings in Hin.
    destruct (list_find _ (mappings t)) as [[i m0]|] eqn:Hfind;
      case_decide as Hkey.
    + left. exists m'. split_and!; try done.
      by eapply list_elem_of_delete_inv.
    + apply list_elem_of_lookup in Hin as [j Hj].
      rewrite list_lookup_alter in Hj.
      apply list_find_Some in Hfind as (Hi & Hid & _).
      case_decide as Hij.
      * subst j. rewrite Hi in Hj. simplify_eq/=. left. exists m0.
        split_and!; try done. by eapply list_elem_of_lookup_2.
      * left. exists m'. split_and!; try done.
        by eapply list_elem_of_lookup_2.
    + left. by exists m'.
    + apply elem_of_app in Hin as [Hin|Hin%list_elem_of_singleton].
      * left. by exists m'.
      * right. by subst m'.
Qed.

Lemma deleteField_no_orphans t fid :
  no_orphans t →
  no_orphans (mkTemplate (template_id t) (template_name t) (pdfData t)
                (filter (λ f, id f ≠ fid) (fields t))
                (filter (λ m, templateFieldId m ≠ fid) (mappings t))
                (createdAt t)).
Proof.
  unfold no_orphans, fieldIds. simpl.
  intros Hok m [Hne Hin]%list_elem_of_filter.
  destruct (proj1 (list_elem_of_fmap _ _ _) (Hok m Hin)) as (f & Heq & Hf).
  apply list_elem_of_fmap. exists f. split; [done|].
  apply list_elem_of_filter. split; [congruence|done].
Qed.

(** C5. [deleteField] removes the fields with the given id and the
    mappings whose templateFieldId is that id, and sends the template with
    both changes to the store in one update. Afterwards neither a field nor
    a mapping carries the id, and if every mapping referred to a field
    before, every mapping does so afterwards. Both editor variants agree. *)
Theorem C5_deleteField_cascades (st : EditorState) (t : Template) (fid : string) :
  template st = Some t →
  ∃ t',
    template (TemplateEditor.deleteField fid st) = Some t'
    ∧ fields t' = filter (λ f, id f ≠ fid) (fields t)
    ∧ mappings t' = filter (λ m, templateFieldId m ≠ fid) (mappings t)
    ∧ (fid ∉ fieldIds t')
    ∧ (fid ∉ mappedIds (mappings t'))
    ∧ db_updates (TemplateEditor.deleteField fid st)
      = db_updates st ++ [mkDbUpdate (template_id t) (WholeTemplate t')]
    ∧ (no_orphans t → no_orphans t')
    ∧ template (DesktopEditor.deleteField fid st) = Some t'
    ∧ db_updates (DesktopEditor.deleteField fid st)
      = db_updates st ++ [mkDbUpdate (template_id t) (WholeTemplate t')].
Proof.
  intros Ht. unfold TemplateEditor.deleteField, DesktopEditor.deleteField.
  rewrite Ht. simpl. eexists. split; [done|]. simpl. split_and!; try done.
  - unfold fieldIds. simpl. rewrite list_elem_of_fmap.
    intros (f & Heq & [Hne _]%list_elem_of_filter). by apply Hne.
  - unfold mappedIds. rewrite list_elem_of_fmap.
    intros (m & Heq & [Hne _]%list_elem_of_filter). by apply Hne.
  - apply deleteField_no_orphans.
Qed.

Lemma newField_id_inj now1 now2 page1 page2 :
  id (TemplateEditor.newField now1 page1) = id (TemplateEditor.newField now2 page2) →
  now1 = now2.
Proof.
  simpl. intros H. injection H as H. by apply (inj pretty).
Qed.

(** C8, where the code leaves the claim. The id of the new field is
    "custom_" followed by the clock reading, and the ids already in the
    template are not looked at: two calls of addManualField that read the
    same millisecond append two fields with one id, so the ids of the field
    set are no longer distinct. Both editor variants do so. *)
Theorem C8_same_clock_reading_repeats_id
    (v : EditorVariant) (st : EditorState) (t : Template) (now : Z) :
  template st = Some t →
  let f := TemplateEditor.newField now (currentPage st) in
  ∃ t2,
    template (act v (act v st (AddManualField now)) (AddManualField now))
    = Some t2
    ∧ fields t2 = fields t ++ [f; f]
    ∧ ¬ NoDup (fieldIds t2).
Proof.
  intros Ht f.
  assert (∀ fs : list TemplateField, ¬ NoDup (id <$> (fs ++ [f; f]))) as Hdup.
  { intros fs. rewrite fmap_app. intros (_ & _ & Hnd)%NoDup_app.
    apply NoDup_cons in Hnd as [Hnin _]. apply Hnin. left. }
  destruct v; simpl;
    unfold TemplateEditor.addManualField, DesktopEditor.addManualField;
    rewrite Ht; simpl; eexists; (split; [done|]); simpl;
    rewrite <-!app_assoc; (split; [done|]); unfold fieldIds; simpl;
    apply Hdup.
Qed.

(** X29. With a template loaded, [addManualField] creates a field at x=50,
    y=50 of size 150 by 30 with font size 12, of kind TEXT, manual, on the
    zero-based index of the current page, whose id is "custom_" followed by
    the clock reading in milliseconds. Different clock readings give
    different ids, and the field set keeps distinct ids when no field of
    the template already has the new id. The field is appended after the
    existing fields, the mappings are kept, the new template is sent to the
    store in one update, and the field becomes the selected one. Both
    editor variants agree. *)
Theorem addManualField_appends_default_box
    (st : EditorState) (t : Template) (now : Z) :
  template st = Some t →
  let f := TemplateEditor.newField now (currentPage st) in
  (x f = Some 50%Q ∧ y f = Some 50%Q ∧ width f = Some 150%Q
   ∧ height f = Some 30%Q ∧ fontSize f = Some 12%Q
   ∧ type f = TEXT ∧ isManual f = true
   ∧ pageIndex f = (currentPage st - 1)%Z
   ∧ id f = "custom_" +:+ pretty now)
  ∧ (∀ now' page', id (TemplateEditor.newField now' page') = id f → now' = now)
  ∧ ∃ t',
      template (TemplateEditor.addManualField now st) = Some t'
      ∧ fields t' = fields t ++ [f]
      ∧ mappings t' = mappings t
      ∧ db_updates (TemplateEditor.addManualField now st)
        = db_updates st ++ [mkDbUpdate (template_id t) (WholeTemplate t')]
      ∧ selectedFieldId (TemplateEditor.addManualField now st) = Some (id f)
      ∧ (NoDup (fieldIds t) → id f ∉ fieldIds t → NoDup (fieldIds t'))
      ∧ template (DesktopEditor.addManualField now st) = Some t'
      ∧ db_updates (DesktopEditor.addManualField now st)
        = db_updates st ++ [mkDbUpdate (template_id t) (WholeTemplate t')]
      ∧ selectedFieldId (DesktopEditor.addManualField now st) = Some (id f).
Proof.
  intros Ht f. split; [by split_and!|]. split.
  { intros now' page' H. by eapply newField_id_inj. }
  unfold TemplateEditor.addManualField, DesktopEditor.addManualField.
  rewrite Ht. eexists. split; [done|]. simpl. split_and!; try done.
  intros Hnd Hfresh. unfold fieldIds. simpl. rewrite fmap_app.
  apply NoDup_app. split_and!; [done| |apply NoDup_singleton].
  intros i Hi. simpl. rewrite list_elem_of_singleton. intros ->. by apply Hfresh.
Qed.

Lemma updateField_fields st t fid u :
  template st = Some t →
  template (TemplateEditor.updateField fid u st)
  = Some (with_fields t
            ((λ f, if decide (id f = fid) then spread f u else f) <$> fields t)).
Proof. intros H. unfold TemplateEditor.updateField. by rewrite H. Qed.

(** C9. One step of the resize listener leaves every field with the id
    of the resized field (there is one when the field is in the template)
    with a width of at least 20 and a height of at least 10, whatever the
    pointer positions and the zoom factor are. *)
Theorem C9_resize_minimum
    (st : EditorState) (t : Template) (field : TemplateField)
    (startX startY clientX clientY : Q) :
  template st = Some t → field ∈ fields t →
  ∃ t',
    template (DesktopEditor.onResize field startX startY clientX clientY st)
    = Some t'
    ∧ (∃ f', f' ∈ fields t' ∧ id f' = id field)
    ∧ ∀ f', f' ∈ fields t' → id f' = id field →
        ∃ w h, width f' = Some w ∧ height f' = Some h
               ∧ (20 <= w)%Q ∧ (10 <= h)%Q.
Proof.
  intros Ht Hin. unfold DesktopEditor.onResize, DesktopEditor.updateField.
  eexists. split; [by apply updateField_fields|]. simpl. split.
  - eexists. split.
    + apply list_elem_of_fmap. by exists field.
    + by rewrite decide_True.
  - intros f' (f & -> & Hf)%list_elem_of_fmap. case_decide as Hid.
    + intros _. simpl. do 2 eexists. split_and!; [done..| |];
        apply Q.le_max_l.
    + done.
Qed.

(** ** The editor claims on concrete templates *)

(** C4 on a template that maps [custom_1]: rebind, unbind, bind again. *)
Lemma C4_witness :
  ∃ t',
    template
      (saveMappings [("custom_1", "Phone"); ("custom_1", "");
                     ("custom_1", "Email"); ("signature_date", "Date")]
         (Sample.editor [Sample.custom_1; Sample.native "signature_date"]
                        [mkMapping "custom_1" "Full Name" None]))
    = Some t'
    ∧ NoDup (mappedIds (mappings t'))
    ∧ Forall (λ m, profileKey m ≠ "") (mappings t').
Proof.
  refine (proj1 (C4_one_mapping_per_field
                   (Sample.editor [Sample.custom_1; Sample.native "signature_date"]
                                  [mkMapping "custom_1" "Full Name" None])
                   (Sample.template [Sample.custom_1; Sample.native "signature_date"]
                                    [mkMapping "custom_1" "Full Name" None])
                   eq_refl (conj _ _)) _).
  - refine (bool_decide_unpack _ _). vm_compute. exact I.
  - refine (bool_decide_unpack _ _). vm_compute. exact I.
Defined.

(** C10 on a mapping tagged 'uppercase' that is rebound to "Email". *)
Lemma C10_witness :
  ∃ t',
    template
      (TemplateEditor.saveMapping "custom_1" "Email"
         (Sample.editor [Sample.custom_1]
            [mkMapping "custom_1" "Full Name" (Some "uppercase")]))
    = Some t'
    ∧ mappings t' = [mkMapping "custom_1" "Email" (Some "uppercase")].
Proof.
  destruct (C10_saveMapping_keeps_transformation
              (Sample.editor [Sample.custom_1]
                 [mkMapping "custom_1" "Full Name" (Some "uppercase")])
              (Sample.template [Sample.custom_1]
                 [mkMapping "custom_1" "Full Name" (Some "uppercase")])
              "custom_1" "Email" eq_refl) as (t' & Ht & Hrebind & _).
  exists t'. split; [exact Ht|].
  apply (Hrebind 0%nat (mkMapping "custom_1" "Full Name" (Some "uppercase")));
    [discriminate|reflexivity].
Defined.

(** C5 on a template with two mapped fields, deleting [custom_1]. *)
Lemma C5_witness :
  ∃ t',
    template
      (TemplateEditor.deleteField "custom_1"
         (Sample.editor [Sample.custom_1; Sample.native "signature_date"]
            [mkMapping "custom_1" "Full Name" None;
             mkMapping "signature_date" "Date" None]))
    = Some t'
    ∧ fields t' = [Sample.native "signature_date"]
    ∧ mappings t' = [mkMapping "signature_date" "Date" None]
    ∧ no_orphans t'.
Proof.
  destruct (C5_deleteField_cascades
              (Sample.editor [Sample.custom_1; Sample.native "signature_date"]
                 [mkMapping "custom_1" "Full Name" None;
                  mkMapping "signature_date" "Date" None])
              (Sample.template [Sample.custom_1; Sample.native "signature_date"]
                 [mkMapping "custom_1" "Full Name" None;
                  mkMapping "signature_date" "Date" None])
              "custom_1" eq_refl)
    as (t' & Ht & Hf & Hm & _ & _ & _ & Horph & _).
  exists t'. split; [exact Ht|]. split; [exact Hf|]. split; [exact Hm|].
  apply Horph. intros m Hm'. simpl in Hm'. unfold fieldIds. simpl.
  apply elem_of_cons in Hm' as [->|Hm']; [left|].
  apply list_elem_of_singleton in Hm' as ->. right. left.
Defined.

(** C8 on an empty template: two calls at clock reading 1700000000000. *)
Lemma C8_witness :
  ∃ t2,
    template
      (TemplateEditor.addManualField 1700000000000
         (TemplateEditor.addManualField 1700000000000 (Sample.editor [] [])))
    = Some t2
    ∧ fields t2
      = [] ++ [TemplateEditor.newField 1700000000000 1;
               TemplateEditor.newField 1700000000000 1]
    ∧ ¬ NoDup (fieldIds t2).
Proof.
  apply (C8_same_clock_reading_repeats_id Mobile (Sample.editor [] [])
           (Sample.template [] []) 1700000000000 eq_refl).
Defined.

(** C9 on [custom_1], dragged 400 pixels up and to the left at zoom 2: the
    box would become 150 - 200 wide and 30 - 200 high. *)
Lemma C9_witness :
  ∃ t',
    template
      (DesktopEditor.onResize Sample.custom_1 500 500 100 100
         (mkEditor (Some (Sample.template [Sample.custom_1] [])) 1 2 None
                   false []))
    = Some t'
    ∧ ∀ f', f' ∈ fields t' → id f' = id Sample.custom_1 →
        ∃ w h, width f' = Some w ∧ height f' = Some h
               ∧ (20 <= w)%Q ∧ (10 <= h)%Q.
Proof.
  destruct (C9_resize_minimum
              (mkEditor (Some (Sample.template [Sample.custom_1] [])) 1 2 None
                        false [])
              (Sample.template [Sample.custom_1] []) Sample.custom_1
              500 500 100 100 eq_refl (list_elem_of_here _ _))
    as (t' & Ht & _ & Hmin).
  exists t'. split; [exact Ht|exact Hmin].
Defined.

(** * Further properties of the service *)

Section ServiceExtras.

Variable h : Host.

(** What [analyzePDF] returns. *)
Lemma analyzePDF_fields (now : Z) (buffer : ArrayBuffer) (fileName : string) :
  (analyzePDF h now buffer fileName = Rejected ↔ load h buffer = None)
  ∧ ∀ pdfDoc, load h buffer = Some pdfDoc →
      ∃ t, analyzePDF h now buffer fileName = Resolved t
           ∧ template_name t = fileName ∧ pdfData t = buffer
           ∧ mappings t = [] ∧ createdAt t = now
           ∧ fieldIds t = (doc_form pdfDoc).*1
           ∧ length (fields t) = length (doc_form pdfDoc)
           ∧ Forall (λ f, name f = id f ∧ isManual f = false
                          ∧ pageIndex f = 0%Z ∧ x f = None ∧ y f = None)
                    (fields t)
           ∧ ∀ now' fileName' t',
               analyzePDF h now' buffer fileName' = Resolved t' →
               fields t' = fields t.
Proof.
  unfold analyzePDF. split.
  - by destruct (load h buffer).
  - intros pdfDoc ->. eexists. split; [done|]. simpl. split_and!; try done.
    + unfold fieldIds. simpl. rewrite <-list_fmap_compose.
      by apply list_fmap_ext.
    + by rewrite length_fmap.
    + apply Forall_fmap, Forall_true. by intros [n fld].
    + intros now' fileName' t' [= <-]. done.
Qed.

(** X1. generateFilledPDF on a template that analyzePDF has just produced
    (no mapping yet) makes no call for any profile: the loop ends at once
    with the document as it was loaded, and the promise settles with the
    serialisation of that document. *)
Theorem analyzed_template_generates_unchanged
    (now : Z) (buffer : ArrayBuffer) (fileName : string) (t : Template)
    (p : Profile) :
  analyzePDF h now buffer fileName = Resolved t →
  ∃ pdfDoc,
    load h buffer = Some pdfDoc
    ∧ fillMappings h t p (mappings t) (mkGen pdfDoc [] [])
      = Normal (mkGen pdfDoc [] [])
    ∧ generateFilledPDF h t p
      = match save h pdfDoc with
        | Some bytes => Resolved (mkGenerated bytes (mkGen pdfDoc [] []))
        | None => Rejected
        end.
Proof.
  unfold analyzePDF. destruct (load h buffer) as [pdfDoc|] eqn:Hload; [|done].
  intros [= <-]. exists pdfDoc. split; [done|]. split; [done|].
  unfold generateFilledPDF. simpl. by rewrite Hload.
Qed.

(** X2. Generation only adds text. However the loop ends, the document it
    leaves has the form fields of the loaded one, with the same names and
    kinds, and the same pages of the same size; every page keeps the texts
    it had, in front of the new ones. A resolved promise carries that
    state. *)
Theorem generation_only_adds_text (t : Template) (p : Profile)
    (pdfDoc : PDFDocument) :
  load h (pdfData t) = Some pdfDoc →
  let st := state_of (fillMappings h t p (mappings t) (mkGen pdfDoc [] [])) in
  doc_extends pdfDoc (gs_doc st)
  ∧ length (doc_pages (gs_doc st)) = length (doc_pages pdfDoc)
  ∧ (doc_form (gs_doc st)).*1 = (doc_form pdfDoc).*1
  ∧ ∀ out, generateFilledPDF h t p = Resolved out → out_state out = st.
Proof.
  intros Hload st.
  pose proof (fillMappings_extends h t p (mappings t) (mkGen pdfDoc [] []))
    as Hext. simpl in Hext. fold st in Hext.
  split; [done|]. destruct Hext as [Hk Hp]. split_and!.
  - symmetry. by eapply Forall2_length.
  - apply (f_equal (fmap fst)) in Hk. unfold form_kinds in Hk.
    by rewrite <-!list_fmap_compose in Hk.
  - intros out (pdfDoc' & Hload' & Hrun & _)%generateFilledPDF_Resolved.
    assert (pdfDoc' = pdfDoc) as -> by congruence.
    unfold st. by rewrite Hrun.
Qed.

Lemma find_field_view (l l' : list TemplateField) (k : string) :
  gen_view <$> l = gen_view <$> l' →
  match list_find (λ f, id f = k) l, list_find (λ f, id f = k) l' with
  | Some (i, f), Some (i', f') => i = i' ∧ gen_view f = gen_view f'
  | None, None => True
  | _, _ => False
  end.
Proof.
  revert l'. induction l as [|f l IH]; intros [|f' l'] Hv; try done.
  rewrite !fmap_cons in Hv.
  assert (gen_view f = gen_view f' ∧ gen_view <$> l = gen_view <$> l')
    as [Hf Hl] by (split; congruence).
  assert (id f = id f') as Hid by exact (f_equal fst Hf).
  simpl. rewrite <-Hid. case_decide; [done|].
  specialize (IH l' Hl).
  destruct (list_find _ l) as [[i g]|], (list_find _ l') as [[i' g']|];
    simpl; try done.
  destruct IH as [-> ?]. done.
Qed.

Lemma fillMapping_view t t' p st m :
  gen_view <$> fields t = gen_view <$> fields t' →
  fillMapping h t p st m = fillMapping h t' p st m.
Proof.
  intros Hv. unfold fillMapping.
  pose proof (find_field_view _ _ (templateFieldId m) Hv) as Hfind.
  destruct (list_find _ (fields t)) as [[i f]|],
           (list_find _ (fields t')) as [[i' f']|]; try done.
  destruct Hfind as [_ Hf].
  destruct (mappingValue h p m) as [v|]; [|done].
  assert (id f = id f') as Hid by exact (f_equal fst Hf).
  apply (f_equal snd) in Hf. simpl in Hf. rewrite <-Hid.
  destruct (isManual f), (isManual f'); try done. simpl.
  assert (pageIndex f = pageIndex f' ∧ x f = x f' ∧ y f = y f'
          ∧ width f = width f'
          ∧ num_or (height f) 20 = num_or (height f') 20
          ∧ num_or (fontSize f) 12 = num_or (fontSize f') 12)
    as (Hpi & Hx & Hy & Hw & Hh & Hs) by (split_and!; congruence).
  by rewrite Hpi, Hx, Hy, Hw, Hh, Hs.
Qed.

(** X3. The generator reads a field's id and isManual flag, and of a manual
    field the page index, x, y, width, and the height and font size through
    their defaults 20 and 12. Two templates with the same bytes and
    mappings whose fields agree on that view give the same result: the
    name and type of a field, and the geometry and page index of a native
    field, are never read. *)
Theorem generation_reads_only_the_view (t t' : Template) (p : Profile) :
  pdfData t = pdfData t' →
  mappings t = mappings t' →
  gen_view <$> fields t = gen_view <$> fields t' →
  generateFilledPDF h t p = generateFilledPDF h t' p.
Proof.
  intros Hd Hm Hv. unfold generateFilledPDF. rewrite <-Hd, <-Hm.
  destruct (load h (pdfData t)) as [pdfDoc|]; [|done].
  assert (∀ ms st, fillMappings h t p ms st = fillMappings h t' p ms st) as ->;
    [|done].
  induction ms as [|m ms IH]; intros st; [done|].
  rewrite !fillMappings_cons, (fillMapping_view t t') by done.
  destruct (fillMapping h t' p st m); [apply IH|done].
Qed.

Lemma fillMapping_effects t p st m :
  (length (gs_calls (state_of (fillMapping h t p st m)))
   + length (gs_console (state_of (fillMapping h t p st m)))
   ≤ S (length (gs_calls st) + length (gs_console st)))%nat.
Proof.
  rewrite fillMapping_unfold.
  destruct (fieldOf t m) as [f|]; [|simpl; lia].
  destruct (mappingValue h p m) as [v|]; [|simpl; lia].
  destruct (isManual f).
  - destruct (page_at _ _), (x f), (y f); simpl; try lia.
    destruct (drawText _ _ _ _ _); simpl; rewrite ?length_app; simpl; lia.
  - destruct (fillAcroField _ _ _); simpl; rewrite ?length_app; simpl; lia.
Qed.

Lemma fillMappings_effects t p ms st :
  (length (gs_calls (state_of (fillMappings h t p ms st)))
   + length (gs_console (state_of (fillMappings h t p ms st)))
   ≤ length ms + (length (gs_calls st) + length (gs_console st)))%nat.
Proof.
  revert st. induction ms as [|m ms IH]; intros st; [simpl; lia|].
  rewrite fillMappings_cons.
  pose proof (fillMapping_effects t p st m) as Hm.
  destruct (fillMapping h t p st m) as [st1|st1]; simpl in Hm.
  - etrans; [apply IH|]. simpl. lia.
  - simpl. lia.
Qed.

(** X4. A generation makes at most one call or one warning per mapping:
    however the loop ends, the calls and the console lines together are no
    more than the mappings, and a resolved promise carries that state. *)
Theorem generation_one_effect_per_mapping (t : Template) (p : Profile)
    (pdfDoc : PDFDocument) :
  load h (pdfData t) = Some pdfDoc →
  let st := state_of (fillMappings h t p (mappings t) (mkGen pdfDoc [] [])) in
  (length (gs_calls st) + length (gs_console st) ≤ length (mappings t))%nat
  ∧ ∀ out, generateFilledPDF h t p = Resolved out → out_state out = st.
Proof.
  intros Hload st. split.
  - pose proof (fillMappings_effects t p (mappings t) (mkGen pdfDoc [] [])) as H.
    simpl in H. unfold st. lia.
  - intros out (pdfDoc' & Hload' & Hrun & _)%generateFilledPDF_Resolved.
    assert (pdfDoc' = pdfDoc) as -> by congruence.
    unfold st. by rewrite Hrun.
Qed.

(** X5. When no mapping's profile key is present in the profile, every value
    written is the empty string, whatever the transformation tags are. *)
Theorem generation_missing_keys_write_empty (t : Template) (p : Profile)
    (out : Generated) :
  HostLaws h →
  (∀ m, m ∈ mappings t → profile_fields p !! profileKey m = None) →
  generateFilledPDF h t p = Resolved out →
  Forall (λ c, call_value c = VString "") (gs_calls (out_state out)).
Proof.
  intros Hlaws Hmiss (pdfDoc & _ & Hrun & _)%generateFilledPDF_Resolved.
  destruct (fillMappings_calls h t p (mappings t) (mkGen pdfDoc [] []))
    as (cs & Hcs & Hall).
  rewrite Hrun in Hcs. simpl in Hcs. rewrite Hcs.
  eapply Forall_impl; [exact Hall|].
  intros c (m & f & s & Hin & _ & _ & Hv & ->). f_equal.
  specialize (Hmiss m Hin).
  destruct (decide (profileKey m ∈ Object_prototype)) as [Hk|Hk].
  - rewrite (mappingValue_inherited h p m Hmiss Hk) in Hv. by case_decide.
  - rewrite mappingValue_plain in Hv by (by right).
    rewrite Hmiss in Hv. simpl in Hv.
    rewrite (toUpperCase_ascii h Hlaws "" eq_refl) in Hv.
    rewrite (toLowerCase_ascii h Hlaws "" eq_refl) in Hv.
    change (ascii_upper "") with "" in Hv.
    change (ascii_lower "") with "" in Hv.
    repeat case_decide; congruence.
Qed.

(** X6. In a generation that resolves, a mapping to a manual field that
    has x and y and a page index inside the loaded document was painted, on
    that page and at the computed place, wherever it stands among the
    mappings; its value was a string that the font encodes. (When the
    value is anything else, the painter throws and generation rejects.) *)
Theorem placeable_manual_mapping_is_painted
    (t : Template) (p : Profile) (pdfDoc : PDFDocument) (m : Mapping)
    (f : TemplateField) (page : PDFPage) (fx fy : Q) (out : Generated) :
  load h (pdfData t) = Some pdfDoc →
  m ∈ mappings t → fieldOf t m = Some f → isManual f = true →
  page_at (doc_pages pdfDoc) (pageIndex f) = Some page →
  x f = Some fx → y f = Some fy →
  generateFilledPDF h t p = Resolved out →
  ∃ s, mappingValue h p m = Some (VString s)
       ∧ Helvetica h s = true
       ∧ PageDrawText (pageIndex f) (VString s)
           (mkDrawText fx
              (page_height page - num_or (Some fy) 0 - num_or (height f) 20 + 4)
              (num_or (fontSize f) 12) (width f))
         ∈ gs_calls (out_state out).
Proof.
  intros Hload Hin Hf Hman Hpage Hx Hy
         (pdfDoc' & Hload' & Hrun & _)%generateFilledPDF_Resolved.
  assert (pdfDoc' = pdfDoc) as -> by congruence.
  eapply fillMappings_paints; try done. apply doc_extends_refl.
Qed.

Lemma getField_insert_other form j n n' fld fld' r :
  n' ≠ n → form !! j = Some (n', fld) →
  getField form n = Some r →
  getField (<[j := (n', fld')]> form) n = Some r.
Proof.
  intros Hne Hj. unfold getField.
  destruct (list_find _ form) as [[i [n0 fld0]]|] eqn:Hfind; [|done].
  intros [= <-].
  apply list_find_Some in Hfind as (Hi & Hn & Hleast). simpl in Hn. subst n0.
  assert (i ≠ j) as Hij by (intros ->; congruence).
  assert (list_find (λ e : string * PDFField, e.1 = n)
                    (<[j:=(n', fld')]> form) = Some (i, (n, fld0))) as ->;
    [|done].
  apply list_find_Some. split_and!; [|done|].
  - by rewrite list_lookup_insert_ne.
  - intros k e Hk Hlt. destruct (decide (k = j)) as [->|Hkj].
    + rewrite list_lookup_insert_eq in Hk by (by eapply lookup_lt_Some).
      by injection Hk as <-.
    + rewrite list_lookup_insert_ne in Hk by done. by eapply Hleast.
Qed.

Lemma fillMapping_other_field t p st m n r :
  templateFieldId m ≠ n →
  getField (doc_form (gs_doc st)) n = Some r →
  getField (doc_form (gs_doc (state_of (fillMapping h t p st m)))) n = Some r.
Proof.
  intros Hne Hr. rewrite fillMapping_unfold.
  destruct (fieldOf t m) as [f|] eqn:Hf; [|done].
  apply fieldOf_id in Hf.
  destruct (mappingValue h p m) as [v|]; [|done].
  destruct (isManual f).
  - destruct (page_at _ _), (x f), (y f); try done. cbv zeta.
    by destruct (drawText _ _ _ _ _).
  - destruct (fillAcroField _ _ _) as [form'|] eqn:Hfill; simpl; [|done].
    apply fillAcroField_Some in Hfill as (j & fld & fld' & Hj & _ & _ & ->).
    eapply getField_insert_other; [|exact Hj|exact Hr]. congruence.
Qed.

Lemma fillMappings_other_fields t p ms st n r :
  (∀ m', m' ∈ ms → templateFieldId m' ≠ n) →
  getField (doc_form (gs_doc st)) n = Some r →
  getField (doc_form (gs_doc (state_of (fillMappings h t p ms st)))) n = Some r.
Proof.
  revert st. induction ms as [|m ms IH]; intros st Hms Hr; [done|].
  rewrite fillMappings_cons.
  pose proof (fillMapping_other_field t p st m n r
                (Hms m (list_elem_of_here _ _)) Hr) as Hm.
  destruct (fillMapping h t p st m) as [st1|st1]; simpl in Hm; [|done].
  apply IH; [|done]. intros m' Hm'. apply Hms. by right.
Qed.

(** X7. With at most one mapping per field id, in a generation that
    resolves, a mapping to a native field that the loaded form holds as a
    text field has a value, and either the form takes it (a string no
    longer than the field's maximum length): then the form writer was
    called with it and in the saved document the field holds that string,
    or no value when the string is empty; or the form does not take it:
    then the field id was logged and the field is as it was loaded. *)
Theorem writable_native_mapping_is_written
    (t : Template) (p : Profile) (pdfDoc : PDFDocument) (m : Mapping)
    (f : TemplateField) (i : nat) (text : option string)
    (maxLength : option nat) (dirty : bool) (out : Generated) :
  load h (pdfData t) = Some pdfDoc →
  NoDup (mappedIds (mappings t)) →
  m ∈ mappings t → fieldOf t m = Some f → isManual f = false →
  getField (doc_form pdfDoc) (id f)
  = Some (i, PDFTextField text maxLength dirty) →
  generateFilledPDF h t p = Resolved out →
  ∃ v,
    mappingValue h p m = Some v
    ∧ (acro_writable (form_kinds (doc_form pdfDoc)) (id f) v = true
       ↔ ∃ s, v = VString s
              ∧ ∀ k, maxLength = Some k → (utf16_length s ≤ k)%nat)
    ∧ (acro_writable (form_kinds (doc_form pdfDoc)) (id f) v = true →
       ∃ s, v = VString s
         ∧ FormSetText (id f) (VString s) ∈ gs_calls (out_state out)
         ∧ getField (doc_form (gs_doc (out_state out))) (id f)
           = Some (i, PDFTextField (if decide (s = "") then None else Some s)
                                   maxLength true))
    ∧ (acro_writable (form_kinds (doc_form pdfDoc)) (id f) v = false →
       id f ∈ gs_console (out_state out)
       ∧ getField (doc_form (gs_doc (out_state out))) (id f)
         = Some (i, PDFTextField text maxLength dirty)).
Proof.
  intros Hload Hnd Hin Hf Hman Hfld
         (pdfDoc' & Hload' & Hrun & _)%generateFilledPDF_Resolved.
  assert (pdfDoc' = pdfDoc) as -> by congruence.
  apply list_elem_of_split in Hin as (ms1 & ms2 & Hms).
  pose proof (fieldOf_id t m f Hf) as Hid.
  assert (∀ m', m' ∈ ms1 ++ ms2 → templateFieldId m' ≠ id f) as Hothers.
  { intros m' Hm' Heq. rewrite Hms in Hnd. unfold mappedIds in Hnd.
    rewrite fmap_app, fmap_cons in Hnd.
    apply NoDup_app in Hnd as (_ & Hdisj & Hnd).
    apply NoDup_cons in Hnd as [Hnin _].
    apply elem_of_app in Hm' as [Hm'|Hm'].
    - apply (Hdisj (templateFieldId m')).
      + apply list_elem_of_fmap. by exists m'.
      + rewrite Heq, Hid. left.
    - apply Hnin. apply list_elem_of_fmap. exists m'.
      split; [congruence|done]. }
  rewrite Hms, fillMappings_app in Hrun.
  pose proof (fillMappings_other_fields t p ms1 (mkGen pdfDoc [] []) (id f) _
                (λ m' Hm', Hothers m' (proj2 (elem_of_app _ _ _) (or_introl Hm')))
                Hfld) as Hfld1.
  pose proof (fillMappings_kinds h t p ms1 (mkGen pdfDoc [] [])) as Hk1.
  destruct (fillMappings h t p ms1 (mkGen pdfDoc [] [])) as [st1|st1];
    simpl in Hfld1, Hk1; [|done].
  rewrite fillMappings_cons in Hrun.
  destruct (fillMapping h t p st1 m) as [st2|st2] eqn:Hstep; [|done].
  pose proof (fillMappings_other_fields t p ms2 st2 (id f)) as Hkeep.
  pose proof (fillMappings_calls_prefix h t p ms2 st2) as [cs Hcs].
  pose proof (fillMappings_console h t p ms2 st2) as [ws Hws].
  rewrite Hrun in Hkeep, Hcs, Hws. simpl in Hkeep, Hcs, Hws.
  assert (∀ r, getField (doc_form (gs_doc st2)) (id f) = Some r →
               getField (doc_form (gs_doc (out_state out))) (id f) = Some r)
    as Hkeep'.
  { intros r. apply Hkeep. intros m' Hm'. apply Hothers.
    apply elem_of_app. by right. }
  rewrite fillMapping_unfold, Hf in Hstep.
  destruct (mappingValue h p m) as [v|]; [|done].
  rewrite Hman in Hstep. exists v. split; [done|]. split_and!.
  - unfold acro_writable, form_kinds. rewrite list_find_fmap.
    change (list_find (_ ∘ _) (doc_form pdfDoc))
      with (list_find (λ e : string * PDFField, e.1 = id f) (doc_form pdfDoc)).
    unfold getField in Hfld.
    destruct (list_find _ (doc_form pdfDoc)) as [[j [n fld]]|];
      simplify_eq/=.
    destruct maxLength as [k|], v as [s|]; simpl.
    + rewrite negb_true_iff, Nat.ltb_ge. split.
      * intros Hle. exists s. split; [done|]. by intros ? [= <-].
      * intros (s' & [= <-] & Hle). by apply Hle.
    + split; [done|]. by intros (? & [=] & _).
    + split; [|done]. intros _. by exists s.
    + split; [done|]. by intros (? & [=] & _).
  - intros Hw. rewrite <-Hk1 in Hw.
    apply fillAcroField_writable in Hw as [form' Hfill].
    rewrite Hfill in Hstep. injection Hstep as <-.
    destruct (fillAcroField_stores _ _ _ _ _ _ _ _ Hfld1 Hfill)
      as (s & -> & Hst).
    exists s. split; [done|]. split.
    + rewrite Hcs. simpl. apply elem_of_app. left. apply elem_of_app. right.
      by apply list_elem_of_singleton.
    + by apply Hkeep'.
  - intros Hw. rewrite <-Hk1 in Hw.
    apply fillAcroField_None in Hw. rewrite Hw in Hstep. injection Hstep as <-.
    split.
    + rewrite Hws. simpl. apply elem_of_app. left. apply elem_of_app. right.
      by apply list_elem_of_singleton.
    + by apply Hkeep'.
Qed.

(** Printable ASCII stays printable ASCII under the case foldings. *)
Lemma all_chars_impl (P Q : ascii → bool) s :
  (∀ c, P c = true → Q c = true) →
  all_chars P s = true → all_chars Q s = true.
Proof.
  intros HPQ. induction s as [|c s IH]; [done|]. simpl.
  intros [Hc Hs]%andb_true_iff. apply andb_true_iff. auto.
Qed.

Lemma all_chars_map (P Q : ascii → bool) (g : ascii → ascii) s :
  (∀ c, P c = true → Q (g c) = true) →
  all_chars P s = true → all_chars Q (map_string g s) = true.
Proof.
  intros HPQ. induction s as [|c s IH]; [done|]. simpl.
  intros [Hc Hs]%andb_true_iff. apply andb_true_iff. auto.
Qed.

Lemma printable_is_ascii s : printable s = true → is_ascii s = true.
Proof.
  apply all_chars_impl. intros c [_ Hc]%andb_true_iff.
  apply Nat.leb_le in Hc. apply Nat.ltb_lt. lia.
Qed.

Lemma printable_upper s : printable s = true → printable (ascii_upper s) = true.
Proof.
  apply all_chars_map.
  by intros [[] [] [] [] [] [] [] []].
Qed.

Lemma printable_lower s : printable s = true → printable (ascii_lower s) = true.
Proof.
  apply all_chars_map.
  by intros [[] [] [] [] [] [] [] []].
Qed.

(** X30. For a mapping whose key the profile owns, or whose key is no
    member name of Object.prototype, the value is computed and is a
    string: the profile entry, or the empty string when there is none,
    unchanged unless the tag is 'uppercase' or 'lowercase'. When the entry
    is ASCII, the value is the one the specification asks for, with the
    letters a-z capitalised for 'uppercase' and A-Z lowered for
    'lowercase'. The field kind plays no part. *)
Theorem plain_key_value_follows_the_specification (p : Profile) (m : Mapping) :
  is_Some (profile_fields p !! profileKey m) ∨ profileKey m ∉ Object_prototype →
  (∃ s, mappingValue h p m = Some (VString s))
  ∧ (transformation m ≠ Some "uppercase" →
     transformation m ≠ Some "lowercase" →
     mappingValue h p m
     = Some (VString (default "" (profile_fields p !! profileKey m))))
  ∧ (HostLaws h →
     is_ascii (default "" (profile_fields p !! profileKey m)) = true →
     mappingValue h p m = Some (VString (spec_resolved_value p m))).
Proof.
  intros Hk. rewrite (mappingValue_plain h p m Hk). cbv zeta. split_and!.
  - by eexists.
  - intros Hu Hl. by rewrite !decide_False.
  - intros Hlaws Hascii. unfold spec_resolved_value. cbv zeta.
    rewrite (toUpperCase_ascii h Hlaws _ Hascii).
    by rewrite (toLowerCase_ascii h Hlaws _ Hascii).
Qed.

(** X31. On a host that meets the laws, when every mapping that references
    a field has a key that the profile owns or that is no member name of
    Object.prototype, and a profile entry of printable ASCII characters,
    nothing in the loop throws: it runs to its end, every such mapping is
    filled, and generation rejects only if the serialiser does. *)
Theorem printable_values_never_throw
    (t : Template) (p : Profile) (pdfDoc : PDFDocument) :
  HostLaws h →
  load h (pdfData t) = Some pdfDoc →
  (∀ m, m ∈ mappings t → fieldOf t m ≠ None →
        (is_Some (profile_fields p !! profileKey m)
         ∨ profileKey m ∉ Object_prototype)
        ∧ printable (default "" (profile_fields p !! profileKey m)) = true) →
  ∃ st,
    fillMappings h t p (mappings t) (mkGen pdfDoc [] []) = Normal st
    ∧ generateFilledPDF h t p
      = match save h (gs_doc st) with
        | Some bytes => Resolved (mkGenerated bytes st)
        | None => Rejected
        end
    ∧ ∀ m, m ∈ mappings t → fieldOf t m ≠ None → filled h t p pdfDoc st m.
Proof.
  intros Hlaws Hload Hall.
  destruct (fillMappings_harmless h t p (mappings t) (mkGen pdfDoc [] []))
    as [st Hrun].
  { intros m Hin f Hf.
    destruct (Hall m Hin) as [Hk Hpr]; [by rewrite Hf|].
    rewrite (mappingValue_plain h p m Hk). cbv zeta.
    pose proof (printable_is_ascii _ Hpr) as Hascii.
    rewrite (toUpperCase_ascii h Hlaws _ Hascii).
    rewrite (toLowerCase_ascii h Hlaws _ Hascii).
    eexists. split; [done|]. intros _. eexists. split; [done|].
    apply (Helvetica_printable h Hlaws).
    repeat case_decide; [by apply printable_upper|by apply printable_lower|done]. }
  exists st. split; [done|]. split.
  - by rewrite (generateFilledPDF_loaded h t p pdfDoc Hload), Hrun.
  - intros m Hin Hlive. eapply (fillMappings_filled h t p pdfDoc); try done.
    apply doc_extends_refl.
Qed.

End ServiceExtras.

(** * Further properties of the editor *)

Lemma update_from_self st fid u :
  update_from st fid u st = TemplateEditor.updateField fid u st.
Proof.
  unfold update_from, TemplateEditor.updateField.
  by destruct st as [[t|] ? ? ? ? ?].
Qed.

Lemma persist_from_self st :
  persist_from st st = TemplateEditor.persistField st.
Proof.
  unfold persist_from, TemplateEditor.persistField.
  by destruct (template st).
Qed.

Lemma renderPage_frame sf pdf n st :
  template (MobileEditor.renderPage sf pdf n st) = template st
  ∧ currentPage (MobileEditor.renderPage sf pdf n st) = currentPage st
  ∧ selectedFieldId (MobileEditor.renderPage sf pdf n st) = selectedFieldId st
  ∧ db_updates (MobileEditor.renderPage sf pdf n st) = db_updates st.
Proof.
  unfold MobileEditor.renderPage.
  destruct (canvasMounted sf); [|done].
  by destruct (pdf ≫= _).
Qed.


Lemma newMappings_has ms fid key :
  key ≠ "" →
  ∃ m, m ∈ TemplateEditor.newMappings ms fid key
       ∧ templateFieldId m = fid ∧ profileKey m = key.
Proof.
  intros Hkey. unfold TemplateEditor.newMappings. rewrite decide_False by done.
  destruct (list_find _ ms) as [[i m0]|] eqn:Hfind.
  - apply list_find_Some in Hfind as (Hi & Hid & _).
    exists (with_profileKey m0 key). split; [|done].
    apply list_elem_of_lookup. exists i.
    by rewrite list_lookup_alter_eq, Hi.
  - exists (mkMapping fid key None). split; [|done]. apply elem_of_app. right.
    by apply list_elem_of_singleton.
Qed.

Lemma fieldOf_appended t nf m :
  id nf ∉ fieldIds t → templateFieldId m = id nf →
  fieldOf (with_fields t (fields t ++ [nf])) m = Some nf.
Proof.
  intros Hfresh Hm. unfold fieldOf. simpl.
  rewrite list_find_app_r.
  - simpl. by rewrite decide_True.
  - apply list_find_None, Forall_forall. intros f Hf Hid.
    apply Hfresh. unfold fieldIds. apply list_elem_of_fmap.
    exists f. split; [congruence|done].
Qed.

(** X9. A field added on the current page and then bound to a profile key
    is painted by the generator: with the current page inside the loaded
    document and a new id, every generation of the resulting template that
    resolves has called the painter on page currentPage - 1 at x = 50 and
    y = pageHeight - 50 - 30 + 4 with size 12 and maxWidth 150, with the
    value of the mapping that binds the field, a string that the font
    encodes. *)
Theorem added_and_mapped_field_is_painted
    (h : Host) (st : EditorState) (t : Template) (pdfDoc : PDFDocument)
    (now : Z) (key : string) (p : Profile) :
  template st = Some t →
  load h (pdfData t) = Some pdfDoc →
  (1 ≤ currentPage st ≤ Z.of_nat (length (doc_pages pdfDoc)))%Z →
  "custom_" +:+ pretty now ∉ fieldIds t →
  key ≠ "" →
  ∃ t2 page m,
    template (TemplateEditor.saveMapping ("custom_" +:+ pretty now) key
                (TemplateEditor.addManualField now st)) = Some t2
    ∧ page_at (doc_pages pdfDoc) (currentPage st - 1) = Some page
    ∧ m ∈ mappings t2
    ∧ templateFieldId m = "custom_" +:+ pretty now
    ∧ profileKey m = key
    ∧ ∀ out, generateFilledPDF h t2 p = Resolved out →
        ∃ s, mappingValue h p m = Some (VString s)
             ∧ Helvetica h s = true
             ∧ PageDrawText (currentPage st - 1) (VString s)
                 (mkDrawText 50 (page_height page - 50 - 30 + 4) 12
                             (Some 150%Q))
               ∈ gs_calls (out_state out).
Proof.
  intros Ht Hload Hpage Hfresh Hkey.
  destruct (newMappings_has (mappings t) ("custom_" +:+ pretty now) key Hkey)
    as (m & Hm & Hmid & Hmkey).
  assert (∃ page, page_at (doc_pages pdfDoc) (currentPage st - 1) = Some page)
    as [page Hp].
  { unfold page_at. rewrite decide_True by lia.
    apply lookup_lt_is_Some_2. lia. }
  set (nf := TemplateEditor.newField now (currentPage st)).
  set (t2 := with_mappings (with_fields t (fields t ++ [nf]))
               (TemplateEditor.newMappings (mappings t)
                  ("custom_" +:+ pretty now) key)).
  exists t2, page, m.
  split_and!; try done.
  - unfold TemplateEditor.saveMapping, TemplateEditor.addManualField.
    by rewrite Ht.
  - intros out (pdfDoc' & Hload' & Hrun & _)%generateFilledPDF_Resolved.
    assert (pdfDoc' = pdfDoc) as -> by (simpl in Hload'; congruence).
    apply (fillMappings_paints h t2 p pdfDoc m nf page 50 50 (mappings t2)
             (mkGen pdfDoc [] []) (out_state out)); try done.
    + by apply (fieldOf_appended t nf m).
    + apply doc_extends_refl.
Qed.

(** The fields after [updateField] of the render [cl], whatever has happened
    to the state since. *)
Lemma update_from_template cl t fid u st :
  template cl = Some t →
  template (update_from cl fid u st)
  = Some (with_fields t
            ((λ f, if decide (id f = fid) then spread f u else f) <$> fields t))
  ∧ currentPage (update_from cl fid u st) = currentPage st
  ∧ scale (update_from cl fid u st) = scale st
  ∧ selectedFieldId (update_from cl fid u st) = selectedFieldId st
  ∧ showProperties (update_from cl fid u st) = showProperties st
  ∧ db_updates (update_from cl fid u st) = db_updates st.
Proof.
  intros Ht. unfold update_from, TemplateEditor.updateField. by rewrite Ht.
Qed.

Lemma onMove_cells cl t field startX startY clientX clientY st :
  template cl = Some t →
  template (MobileEditor.onMove cl field startX startY clientX clientY st)
  = Some (with_fields t
            (dragged (scale cl) field startX startY clientX clientY
               <$> fields t))
  ∧ currentPage (MobileEditor.onMove cl field startX startY clientX clientY st)
    = currentPage st
  ∧ selectedFieldId
      (MobileEditor.onMove cl field startX startY clientX clientY st)
    = selectedFieldId st
  ∧ showProperties
      (MobileEditor.onMove cl field startX startY clientX clientY st)
    = showProperties st
  ∧ db_updates (MobileEditor.onMove cl field startX startY clientX clientY st)
    = db_updates st.
Proof.
  intros Ht. unfold MobileEditor.onMove. cbv zeta.
  edestruct (update_from_template cl t) as (-> & -> & _ & -> & -> & ->);
    [exact Ht|].
  by split_and!.
Qed.

(** X11. A drag gesture. The listeners keep updateField and persistField of
    the render in which the mouse went down, so after the last move the
    template is the one of mouse-down time with only the x and y of the
    dragged field's id changed, to the start position plus the pointer
    displacement divided by the zoom; earlier moves leave no trace. The
    field is selected, the sheet is shown, and mouse-up sends one update,
    which carries the fields as they were at mouse-down. *)
Theorem drag_gesture_result
    (st : EditorState) (t : Template) (field : TemplateField)
    (startX startY : Q) (moves : list (Q * Q)) (clientX clientY : Q) :
  template st = Some t →
  let st' := MobileEditor.dragGesture field startX startY
               (moves ++ [(clientX, clientY)]) st in
  template st'
  = Some (with_fields t
            (dragged (scale st) field startX startY clientX clientY
               <$> fields t))
  ∧ selectedFieldId st' = Some (id field)
  ∧ showProperties st' = true
  ∧ currentPage st' = currentPage st
  ∧ db_updates st'
    = db_updates st ++ [mkDbUpdate (template_id t) (FieldsOnly (fields t))].
Proof.
  intros Ht st'. unfold st', MobileEditor.dragGesture.
  rewrite foldl_snoc. simpl.
  set (s := foldl _ _ moves).
  assert (selectedFieldId s = Some (id field) ∧ showProperties s = true
          ∧ currentPage s = currentPage st ∧ db_updates s = db_updates st)
    as (Hsel & Hshow & Hpage & Hdb).
  { unfold s. clear s st'. induction moves as [|mv moves IH] using rev_ind;
      [done|].
    rewrite foldl_snoc.
    edestruct (onMove_cells st t) as (_ & -> & -> & -> & ->); [exact Ht|].
    exact IH. }
  unfold MobileEditor.onUp, persist_from. rewrite Ht.
  edestruct (onMove_cells st t) as (Htpl & Hp' & Hs' & Hsh' & Hd');
    [exact Ht|].
  simpl. rewrite Htpl, Hp', Hs', Hsh', Hd', Hsel, Hshow, Hpage, Hdb.
  by split_and!.
Qed.

Lemma replay_snoc us u tbl :
  replay (us ++ [u]) tbl
  = match upd_key u with
    | Some k => Dexie.update k (applyChanges (upd_changes u)) (replay us tbl)
    | None => replay us tbl
    end.
Proof. unfold replay. by rewrite foldl_snoc. Qed.

Lemma replay_keeps_row us tbl k :
  is_Some (Dexie.get k tbl) → is_Some (Dexie.get k (replay us tbl)).
Proof.
  induction us as [|u us IH] using rev_ind; [done|].
  intros Hk. rewrite replay_snoc. destruct (upd_key u) as [k'|]; [|by apply IH].
  unfold Dexie.get, Dexie.update. simpl. rewrite lookup_alter.
  case_decide; [|by apply IH]. subst k'.
  destruct (IH Hk) as [row Hrow]. unfold Dexie.get in Hrow. by rewrite Hrow.
Qed.

(** X12. An edit made in the property sheet (name, font size) changes the
    template in memory, and the persistField call that follows it writes
    the fields of the render the handler belongs to: the row in the store
    then holds the fields as they were before this edit. *)
Theorem sheet_edit_is_persisted_one_edit_late
    (st : EditorState) (t : Template) (f : TemplateField)
    (updates : TemplateField → FieldUpdates) (k : Z)
    (tbl : Dexie.Table Template) :
  template st = Some t → showProperties st = true →
  selectedField st = Some f →
  template_id t = Some k → is_Some (Dexie.get k tbl) →
  let st' := MobileEditor.sheetEdit updates st in
  template st'
  = Some (with_fields t
            ((λ g, if decide (id g = id f) then spread g (updates f) else g)
               <$> fields t))
  ∧ db_updates st'
    = db_updates st ++ [mkDbUpdate (Some k) (FieldsOnly (fields t))]
  ∧ fields <$> Dexie.get k (replay (db_updates st') tbl) = Some (fields t).
Proof.
  intros Ht Hshow Hsel Hid Hrow st'.
  assert (st' = persist_from st
                  (TemplateEditor.updateField (id f) (updates f) st)) as ->.
  { unfold st', MobileEditor.sheetEdit. by rewrite Hshow, Hsel. }
  unfold persist_from, TemplateEditor.updateField. rewrite Ht. simpl.
  rewrite Hid. split_and!; [done..|].
  rewrite replay_snoc. simpl. unfold Dexie.get, Dexie.update. simpl.
  rewrite lookup_alter_eq.
  destruct (replay_keeps_row (db_updates st) tbl k Hrow) as [row Hr].
  unfold Dexie.get in Hr. by rewrite Hr.
Qed.

(** X13. After a drag gesture, whatever the moves were, the row of the
    template in the store holds the fields as they were when the mouse went
    down. *)
Theorem drag_is_persisted_as_it_started
    (st : EditorState) (t : Template) (field : TemplateField)
    (startX startY : Q) (moves : list (Q * Q)) (k : Z)
    (tbl : Dexie.Table Template) :
  template st = Some t →
  template_id t = Some k → is_Some (Dexie.get k tbl) →
  fields <$> Dexie.get k
    (replay (db_updates (MobileEditor.dragGesture field startX startY moves st))
            tbl)
  = Some (fields t).
Proof.
  intros Ht Hid Hrow. unfold MobileEditor.dragGesture, MobileEditor.onUp.
  set (s := foldl _ _ moves).
  assert (db_updates s = db_updates st) as Hdb.
  { unfold s. clear s. induction moves as [|mv moves IH] using rev_ind;
      [done|].
    rewrite foldl_snoc.
    edestruct (onMove_cells st t) as (_ & _ & _ & _ & ->); [exact Ht|].
    exact IH. }
  unfold persist_from. rewrite Ht. simpl. rewrite Hdb, Hid, replay_snoc.
  simpl. unfold Dexie.get, Dexie.update. simpl. rewrite lookup_alter_eq.
  destruct (replay_keeps_row (db_updates st) tbl k Hrow) as [row Hr].
  unfold Dexie.get in Hr. by rewrite Hr.
Qed.

(** X14. addManualField, deleteField and saveMapping send the whole template:
    after any of them the row in the store equals the template in memory,
    in both editor variants, whatever was written before. *)
Theorem whole_template_writes_resynchronise
    (v : EditorVariant) (st : EditorState) (t : Template) (a : EditorAction)
    (k : Z) (tbl : Dexie.Table Template) :
  template st = Some t →
  template_id t = Some k → is_Some (Dexie.get k tbl) →
  writes_whole a →
  Dexie.get k (replay (db_updates (act v st a)) tbl) = template (act v st a).
Proof.
  intros Ht Hid Hrow Ha.
  destruct (replay_keeps_row (db_updates st) tbl k Hrow) as [row Hr].
  unfold Dexie.get in Hr.
  destruct a, v; try done; simpl;
    unfold TemplateEditor.addManualField, DesktopEditor.addManualField,
           TemplateEditor.deleteField, DesktopEditor.deleteField,
           TemplateEditor.saveMapping;
    rewrite Ht; simpl; rewrite Hid, replay_snoc; simpl;
    unfold Dexie.get, Dexie.update; simpl;
    by rewrite lookup_alter_eq, Hr.
Qed.

Lemma num_or_nonzero (v d : Q) : ¬ (v == 0)%Q → num_or (Some v) d = v.
Proof.
  intros Hv. simpl. destruct (Qeq_bool v 0) eqn:Heq; [|done].
  by apply Qeq_bool_eq in Heq.
Qed.

(** The selected field after an edit that leaves the id alone. *)
Lemma selectedField_after_edit st f u :
  selectedField st = Some f → u_id u = None →
  selectedField (persist_from st (TemplateEditor.updateField (id f) u st))
  = Some (spread f u).
Proof.
  unfold selectedField, persist_from, TemplateEditor.updateField.
  destruct (template st) as [t|] eqn:Ht; [|done]. simpl.
  intros Hsel Hu. rewrite list_find_fmap.
  rewrite (list_find_ext _ (λ g, Some (id g) = selectedFieldId st)).
  - destruct (list_find _ (fields t)) as [[i g]|]; simplify_eq/=.
    by rewrite decide_True.
  - intros g. simpl. case_decide; [|done].
    unfold spread. simpl. by rewrite Hu.
Qed.

Lemma desktop_font_press st f (plus : bool) :
  selectedField st = Some f → selectedFieldId st ≠ Some "" →
  (6 <= num_or (fontSize f) 12 <= 72)%Q →
  ∃ f', selectedField
          (if plus then DesktopRest.onFontPlus st else DesktopRest.onFontMinus st)
        = Some f'
        ∧ selectedFieldId
            (if plus then DesktopRest.onFontPlus st
             else DesktopRest.onFontMinus st) = selectedFieldId st
        ∧ id f' = id f ∧ x f' = x f ∧ y f' = y f
        ∧ width f' = width f ∧ height f' = height f
        ∧ (6 <= num_or (fontSize f') 12 <= 72)%Q.
Proof.
  intros Hsel Hne [Hlo Hhi].
  destruct plus; unfold DesktopRest.onFontPlus, DesktopRest.onFontMinus,
    DesktopRest.sidebarEdit; rewrite decide_False by done; rewrite Hsel;
    (eexists; split; [by apply selectedField_after_edit|]);
    (split; [unfold persist_from, TemplateEditor.updateField;
             by destruct (template st)|]);
    unfold spread; cbn [id x y width height fontSize u_id u_x u_y u_width
                        u_height u_fontSize default from_option];
    split_and!; try done.
  - rewrite num_or_nonzero.
    + unfold Math_min. apply Q.min_glb; [done|].
      apply Qle_trans with (num_or (fontSize f) 12); [done|].
      rewrite <-(Qplus_0_r (num_or (fontSize f) 12)) at 1.
      by apply Qplus_le_r.
    + intros H0. assert (6 <= Math_min 72 (num_or (fontSize f) 12 + 1))%Q as H6.
      { unfold Math_min. apply Q.min_glb; [done|].
        apply Qle_trans with (num_or (fontSize f) 12); [done|].
        rewrite <-(Qplus_0_r (num_or (fontSize f) 12)) at 1.
        by apply Qplus_le_r. }
      rewrite H0 in H6. done.
  - rewrite num_or_nonzero; [apply Q.le_min_l|].
    intros H0. assert (6 <= Math_min 72 (num_or (fontSize f) 12 + 1))%Q as H6.
    { unfold Math_min. apply Q.min_glb; [done|].
      apply Qle_trans with (num_or (fontSize f) 12); [done|].
      rewrite <-(Qplus_0_r (num_or (fontSize f) 12)) at 1.
      by apply Qplus_le_r. }
    rewrite H0 in H6. done.
  - rewrite num_or_nonzero; [apply Q.le_max_l|].
    intros H0. pose proof (Q.le_max_l 6 (num_or (fontSize f) 12 - 1)) as H6.
    unfold Math_max in H0. rewrite H0 in H6. done.
  - rewrite num_or_nonzero.
    + unfold Math_max. apply Q.max_lub; [done|].
      apply Qle_trans with (num_or (fontSize f) 12); [|done].
      rewrite <-(Qplus_0_r (num_or (fontSize f) 12)) at 2.
      unfold Qminus. by apply Qplus_le_r.
    + intros H0. pose proof (Q.le_max_l 6 (num_or (fontSize f) 12 - 1)) as H6.
      unfold Math_max in H0. rewrite H0 in H6. done.
Qed.

(** X15. The font size buttons of the desktop editor clamp to 6 and 72: from
    a selected field whose effective font size lies in that range, any run
    of presses leaves a selected field with the same id, position and size
    whose effective font size lies in the range. *)
Theorem desktop_font_buttons_stay_in_range
    (presses : list bool) (st : EditorState) (f : TemplateField) :
  selectedField st = Some f → selectedFieldId st ≠ Some "" →
  (6 <= num_or (fontSize f) 12 <= 72)%Q →
  ∃ f', selectedField (DesktopRest.fontPresses presses st) = Some f'
        ∧ id f' = id f ∧ x f' = x f ∧ y f' = y f
        ∧ width f' = width f ∧ height f' = height f
        ∧ (6 <= num_or (fontSize f') 12 <= 72)%Q.
Proof.
  unfold DesktopRest.fontPresses. revert st f.
  induction presses as [|b presses IH]; intros st f Hsel Hne Hr.
  - exists f. split_and!; try done; apply Hr.
  - simpl.
    destruct (desktop_font_press st f b Hsel Hne Hr)
      as (f1 & Hsel1 & Hid1 & Hf1 & Hx1 & Hy1 & Hw1 & Hh1 & Hr1).
    destruct (IH _ f1 Hsel1) as (f' & Hsel' & Hf' & Hx' & Hy' & Hw' & Hh' & Hr');
      [by rewrite Hid1|done|].
    exists f'. split_and!; try congruence; apply Hr'.
Qed.

(** X16. The "-" button of the mobile property sheet stores the effective
    font size minus one, with no lower bound. At effective size 1 it stores
    0, which the editor and the generator both read as 12. *)
Theorem mobile_font_minus_wraps_at_one (st : EditorState) (f : TemplateField) :
  showProperties st = true → selectedField st = Some f →
  ∃ f', selectedField (MobileEditor.onFontMinus st) = Some f'
        ∧ fontSize f' = Some (num_or (fontSize f) 12 - 1)%Q
        ∧ ((num_or (fontSize f) 12 == 1)%Q → num_or (fontSize f') 12 = 12%Q)
        ∧ (¬ (num_or (fontSize f) 12 == 1)%Q →
           num_or (fontSize f') 12 = (num_or (fontSize f) 12 - 1)%Q).
Proof.
  intros Hshow Hsel. unfold MobileEditor.onFontMinus, MobileEditor.sheetEdit.
  rewrite Hshow, Hsel. eexists. split; [by apply selectedField_after_edit|].
  unfold spread.
  cbn [fontSize u_fontSize from_option]. split; [done|]. split.
  - intros H1. simpl.
    destruct (Qeq_bool (num_or (fontSize f) 12 - 1) 0) eqn:Heq; [done|].
    apply Qeq_bool_neq in Heq. exfalso. apply Heq. rewrite H1. reflexivity.
  - intros H1. apply num_or_nonzero. intros H0. apply H1.
    rewrite <-(Qplus_0_l 1), <-H0. ring.
Qed.

Lemma filter_appended_field t nf :
  id nf ∉ fieldIds t →
  filter (λ f, id f ≠ id nf) (fields t ++ [nf]) = fields t.
Proof.
  intros Hfresh. rewrite filter_app, filter_cons_False, filter_nil, app_nil_r
    by (intros H; by apply H).
  unfold fieldIds in Hfresh. induction (fields t) as [|f fs IH]; [done|].
  rewrite fmap_cons, not_elem_of_cons in Hfresh. destruct Hfresh as [Hne Hfs].
  rewrite filter_cons_True by done. f_equal. by apply IH.
Qed.

(** X17. Deleting the field that addManualField has just added gives back
    the template as it was, when the new id was not in use by a field or a
    mapping: the two operations send two updates, the second carrying the
    original template, and leave nothing selected. *)
Theorem delete_undoes_add (st : EditorState) (t : Template) (now : Z) :
  template st = Some t →
  "custom_" +:+ pretty now ∉ fieldIds t →
  "custom_" +:+ pretty now ∉ mappedIds (mappings t) →
  let st' := TemplateEditor.deleteField ("custom_" +:+ pretty now)
               (TemplateEditor.addManualField now st) in
  template st' = Some t
  ∧ selectedFieldId st' = None
  ∧ length (db_updates st') = S (S (length (db_updates st)))
  ∧ last (db_updates st') = Some (mkDbUpdate (template_id t) (WholeTemplate t)).
Proof.
  intros Ht Hf Hm st'. unfold st', TemplateEditor.deleteField,
    TemplateEditor.addManualField. rewrite Ht. simpl.
  pose proof (filter_appended_field t
                (TemplateEditor.newField now (currentPage st)) Hf) as Hfs.
  simpl in Hfs. rewrite Hfs, filter_other_ids by done.
  assert (mkTemplate (template_id t) (template_name t) (pdfData t) (fields t)
                     (mappings t) (createdAt t) = t) as -> by (by destruct t).
  split_and!; try done.
  - rewrite !length_app. simpl. lia.
  - by rewrite last_snoc.
Qed.

Lemma newMappings_no_orphans t fid key :
  no_orphans t → fid ∈ fieldIds t →
  no_orphans (with_mappings t (TemplateEditor.newMappings (mappings t) fid key)).
Proof.
  intros Hok Hfid m Hm. simpl in Hm. unfold fieldIds. simpl.
  unfold TemplateEditor.newMappings in Hm.
  destruct (list_find _ (mappings t)) as [[i m0]|] eqn:Hfind;
    case_decide as Hkey.
  - apply Hok. by eapply list_elem_of_delete_inv.
  - apply list_elem_of_lookup in Hm as [j Hj].
    rewrite list_lookup_alter in Hj.
    apply list_find_Some in Hfind as (Hi & Hid & _).
    case_decide as Hij.
    + subst j. rewrite Hi in Hj. simplify_eq/=. apply Hok.
      by eapply list_elem_of_lookup_2.
    + apply Hok. by eapply list_elem_of_lookup_2.
  - by apply Hok.
  - apply elem_of_app in Hm as [Hm|Hm%list_elem_of_singleton];
      [by apply Hok|by subst m].
Qed.

Lemma updateField_no_orphans t fid u :
  u_id u = None → no_orphans t →
  no_orphans (with_fields t
                ((λ f, if decide (id f = fid) then spread f u else f)
                   <$> fields t)).
Proof.
  intros Hu Hok m Hm. unfold fieldIds. simpl.
  assert (id <$> ((λ f, if decide (id f = fid) then spread f u else f)
                    <$> fields t) = id <$> fields t) as ->.
  { rewrite <-list_fmap_compose. apply list_fmap_ext.
    intros i f _. simpl. case_decide; [|done]. unfold spread. simpl.
    by rewrite Hu. }
  by apply Hok.
Qed.

Lemma addField_no_orphans t nf :
  no_orphans t → no_orphans (with_fields t (fields t ++ [nf])).
Proof.
  intros Hok m Hm. unfold fieldIds. simpl. rewrite fmap_app.
  apply elem_of_app. left. by apply Hok.
Qed.

Lemma act_no_orphans v st a t t' :
  ui_action st a → template st = Some t → no_orphans t →
  template (act v st a) = Some t' → no_orphans t'.
Proof.
  intros Hui Ht Hok.
  destruct a as [now|fid u| |fid|fid key|fld sx sy cx cy]; simpl.
  - destruct v; simpl;
      unfold TemplateEditor.addManualField, DesktopEditor.addManualField;
      rewrite Ht; intros [= <-]; by apply addField_no_orphans.
  - destruct v; simpl; unfold TemplateEditor.updateField; rewrite Ht;
      intros [= <-]; by apply updateField_no_orphans.
  - destruct v; simpl; unfold TemplateEditor.persistField; rewrite Ht;
      by intros [= <-].
  - destruct v; simpl;
      unfold TemplateEditor.deleteField, DesktopEditor.deleteField;
      rewrite Ht; intros [= <-]; by apply deleteField_no_orphans.
  - simpl in Hui. destruct Hui as (t0 & Ht0 & Hfid).
    assert (t0 = t) as -> by congruence.
    destruct v; simpl; unfold TemplateEditor.saveMapping; rewrite Ht;
      intros [= <-]; by apply newMappings_no_orphans.
  - destruct v; simpl.
    + rewrite Ht. by intros [= <-].
    + unfold DesktopEditor.onResize, DesktopEditor.updateField,
        TemplateEditor.updateField. rewrite Ht. intros [= <-].
      by apply updateField_no_orphans.
Qed.

Lemma act_keeps_template v st a :
  is_Some (template st) → is_Some (template (act v st a)).
Proof.
  intros [t Ht].
  destruct a, v; simpl;
    unfold TemplateEditor.addManualField, DesktopEditor.addManualField,
           TemplateEditor.updateField, TemplateEditor.persistField,
           TemplateEditor.deleteField, DesktopEditor.deleteField,
           TemplateEditor.saveMapping, DesktopEditor.onResize,
           DesktopEditor.updateField, TemplateEditor.updateField;
    rewrite ?Ht; by eexists.
Qed.

(** X18. While the user binds only listed fields and no update rewrites an
    id, every mapping refers to a field of the template: the property holds
    after any run of editor actions, in both variants, so the generator
    finds the field of every mapping of such a template. *)
Theorem ui_runs_leave_no_orphans
    (v : EditorVariant) (actions : list EditorAction) (st : EditorState)
    (t : Template) :
  template st = Some t → no_orphans t → ui_run v st actions →
  ∃ t', template (foldl (act v) st actions) = Some t'
        ∧ no_orphans t'
        ∧ ∀ m, m ∈ mappings t' → is_Some (fieldOf t' m).
Proof.
  revert st t. induction actions as [|a actions IH]; intros st t Ht Hok Hrun.
  - exists t. split_and!; [done..|].
    intros m Hm. apply not_eq_None_Some. rewrite fieldOf_None.
    intros Hn. by apply Hn, Hok.
  - simpl in Hrun. destruct Hrun as [Hui Hrun]. simpl.
    destruct (act_keeps_template v st a) as [t1 Ht1]; [by eexists|].
    eapply IH; [exact Ht1| |exact Hrun].
    by eapply act_no_orphans.
Qed.

(** X19. handleGenerate offers a file only when a template is loaded, a
    profile with the selected non-zero id is in the list, the stored
    bytes load and the loop runs to its end; the file is named
    template_profile.pdf and holds the serialisation of the document after
    all mappings were processed. *)
Theorem handleGenerate_downloads_the_complete_file
    (h : Host)
    (profiles : option (list Profile)) (selectedProfileId : option Z)
    (st : EditorState) (fileName : string) (bytes : Uint8Array) :
  handleGenerate h profiles selectedProfileId st
  = Downloaded fileName bytes →
  ∃ t ps profile pdfDoc final,
    template st = Some t ∧ profiles = Some ps ∧ profile ∈ ps
    ∧ profile_id profile = selectedProfileId
    ∧ selectedProfileId ≠ Some 0%Z
    ∧ load h (pdfData t) = Some pdfDoc
    ∧ fileName = template_name t +:+ "_" +:+ profile_name profile +:+ ".pdf"
    ∧ fillMappings h t profile (mappings t) (mkGen pdfDoc [] []) = Normal final
    ∧ save h (gs_doc final) = Some bytes.
Proof.
  unfold handleGenerate.
  destruct (template st) as [t|]; [|done].
  destruct selectedProfileId as [sid|]; [|done].
  case_decide as Hsid; [done|].
  destruct profiles as [ps|]; [|done]. simpl.
  destruct (list_find _ ps) as [[i profile]|] eqn:Hfind; [|done]. simpl.
  apply list_find_Some in Hfind as (Hi & Hid & _).
  destruct (generateFilledPDF h t profile) as [out|] eqn:Hgen; [|done].
  apply generateFilledPDF_Resolved in Hgen as (pdfDoc & Hload & Hrun & Hsave).
  intros [= <- <-]. exists t, ps, profile, pdfDoc, (out_state out).
  split_and!; try done.
  - by eapply list_elem_of_lookup_2.
  - congruence.
Qed.

(** X27. A field added by addManualField is among the boxes drawn on the
    current page, every box drawn is a manual field of the current page,
    and after a change to another page the new field is no longer
    drawn. *)
Theorem new_field_is_shown_on_its_page
    (st : EditorState) (t : Template) (now : Z) :
  template st = Some t →
  let nf := TemplateEditor.newField now (currentPage st) in
  let st' := TemplateEditor.addManualField now st in
  nf ∈ currentFields st'
  ∧ (∀ f, f ∈ currentFields st' →
          isManual f = true ∧ pageIndex f = (currentPage st - 1)%Z)
  ∧ ∀ sf vc n, n ≠ currentPage st → (1 ≤ n ≤ vc_numPages vc)%Z →
      nf ∉ currentFields (MobileEditor.handlePageChange sf vc n st').
Proof.
  intros Ht nf st'. unfold st', TemplateEditor.addManualField. rewrite Ht.
  split_and!.
  - unfold currentFields. simpl. apply list_elem_of_filter. split; [done|].
    apply elem_of_app. right. by apply list_elem_of_singleton.
  - unfold currentFields. simpl. intros f [[Hp Hm] _]%list_elem_of_filter.
    done.
  - intros sf vc n Hn Hr. unfold MobileEditor.handlePageChange.
    rewrite decide_True by done. unfold currentFields.
    destruct (renderPage_frame sf (vc_pdfDoc vc) n
                (set_currentPage n
                   (mkEditor
                      (Some (with_fields t (fields t ++ [nf])))
                      (currentPage st) (scale st) (Some (id nf)) true
                      (db_updates st ++
                         [mkDbUpdate (template_id t)
                            (WholeTemplate
                               (with_fields t (fields t ++ [nf])))]))))
      as (Htpl & Hpage & _).
    fold nf. rewrite Htpl, Hpage. simpl.
    intros [[Hp _] _]%list_elem_of_filter. simpl in Hp. lia.
Qed.

(** * Properties of the template list *)

Section TemplateListFacts.

Import TemplateList.

Lemma append_cons (c : ascii) (a b : string) :
  String c a +:+ b = String c (a +:+ b).
Proof. done. Qed.

Lemma is_prefix_app (p b : string) : is_prefix p (p +:+ b) = true.
Proof.
  induction p as [|c p IH]; [done|].
  rewrite append_cons. simpl. by rewrite decide_True.
Qed.

Lemma is_prefix_split (p s : string) :
  is_prefix p s = true → s = p +:+ drop_chars (String.length p) s.
Proof.
  revert s. induction p as [|c p IH]; intros s; [done|].
  destruct s as [|c' s]; [done|]. simpl. case_decide as Hc; [|done].
  intros Hp. subst c'. rewrite append_cons. simpl. f_equal. by apply IH.
Qed.

Lemma append_nil_l (s : string) : "" +:+ s = s.
Proof. done. Qed.

Lemma not_prefix_no_head_occurrence (p s b : string) :
  is_prefix p s = false → s ≠ "" +:+ p +:+ b.
Proof.
  intros Hp Hs. rewrite append_nil_l in Hs. subst s.
  by rewrite is_prefix_app in Hp.
Qed.

Lemma replace_spec (pattern replacement s : string) :
  (replace pattern replacement s = s
   ∧ ∀ a b, s ≠ a +:+ pattern +:+ b)
  ∨ ∃ a b, s = a +:+ pattern +:+ b
           ∧ replace pattern replacement s = a +:+ replacement +:+ b
           ∧ ∀ a' b', s = a' +:+ pattern +:+ b' →
                      (String.length a ≤ String.length a')%nat.
Proof.
  induction s as [|c s IH].
  - cbn [replace]. destruct (is_prefix pattern "") eqn:Hp.
    + right. exists "", (drop_chars (String.length pattern) "").
      rewrite !append_nil_l.
      split_and!; [by apply is_prefix_split|done|]. intros. simpl. lia.
    + left. split; [done|]. intros a b Hs.
      destruct a as [|c a]; [|by rewrite append_cons in Hs].
      by eapply not_prefix_no_head_occurrence.
  - cbn [replace]. destruct (is_prefix pattern (String c s)) eqn:Hp.
    + right. exists "", (drop_chars (String.length pattern) (String c s)).
      rewrite !append_nil_l.
      split_and!; [by apply is_prefix_split|done|]. intros. simpl. lia.
    + destruct IH as [[Hr Hno]|(a & b & Hs & Hr & Hmin)].
      * left. split; [by rewrite Hr|]. intros a b Hs.
        destruct a as [|c' a].
        -- by eapply not_prefix_no_head_occurrence.
        -- rewrite append_cons in Hs. injection Hs as _ Hs. by eapply Hno.
      * right. exists (String c a), b. rewrite !append_cons. split_and!.
        -- by rewrite <-Hs.
        -- by rewrite Hr.
        -- intros a' b' Hs'. destruct a' as [|c' a'].
           ++ exfalso. by eapply not_prefix_no_head_occurrence.
           ++ rewrite append_cons in Hs'. injection Hs' as _ Hs'. simpl.
              pose proof (Hmin a' b' Hs'). lia.
Qed.

(** X20. The template name is the file name with the first occurrence of
    ".pdf" removed, wherever it stands, and the file name itself when there
    is none. *)
Theorem upload_name_drops_first_pdf_only (fileName : string) :
  (replace ".pdf" "" fileName = fileName
   ∧ ∀ a b, fileName ≠ a +:+ ".pdf" +:+ b)
  ∨ ∃ a b, fileName = a +:+ ".pdf" +:+ b
           ∧ replace ".pdf" "" fileName = a +:+ b
           ∧ ∀ a' b', fileName = a' +:+ ".pdf" +:+ b' →
                      (String.length a ≤ String.length a')%nat.
Proof.
  destruct (replace_spec ".pdf" "" fileName) as [?|(a & b & ? & Hr & ?)];
    [by left|right].
  exists a, b. by rewrite append_nil_l in Hr.
Qed.

(** X21. For a file name whose part before ".pdf" has no full stop, the
    template name is the file name without that ".pdf". *)
Theorem upload_name_without_extension (base rest : string) :
  has_dot base = false →
  replace ".pdf" "" (base +:+ ".pdf" +:+ rest) = base +:+ rest.
Proof.
  induction base as [|c base IH]; intros Hdot.
  - rewrite !append_nil_l. by destruct rest.
  - simpl in Hdot. case_decide as Hc; [done|].
    rewrite !append_cons. cbn [replace is_prefix].
    rewrite decide_False by congruence.
    f_equal. by apply IH.
Qed.



Lemma add_keys_in_range {A : Type} (withKey : Z → A → A) (obj : A)
    (tbl : Dexie.Table A) :
  Dexie.keys_in_range tbl →
  Dexie.get (Dexie.nextKey tbl) tbl = None
  ∧ Dexie.get (Dexie.nextKey tbl) (Dexie.add withKey obj tbl)
    = Some (withKey (Dexie.nextKey tbl) obj)
  ∧ (∀ k, k ≠ Dexie.nextKey tbl →
          Dexie.get k (Dexie.add withKey obj tbl) = Dexie.get k tbl)
  ∧ Dexie.keys_in_range (Dexie.add withKey obj tbl).
Proof.
  intros [Hn Hr]. unfold Dexie.get, Dexie.add. simpl. split_and!.
  - apply eq_None_not_Some. intros Hk. apply Hr in Hk. lia.
  - apply lookup_insert_eq.
  - intros k Hk. by apply lookup_insert_ne.
  - split; simpl; [lia|]. intros k. rewrite lookup_insert. case_decide.
    + subst k. intros _. lia.
    + intros Hk. apply Hr in Hk. lia.
Qed.

Lemma analyzed_fields_counts (l : list (string * PDFField)) :
  length (filter (λ f, isManual f = true)
            ((λ f : string * PDFField,
                mkField f.1 f.1 TEXT false 0 None None None None None) <$> l))
  = 0%nat
  ∧ length (filter (λ f, isManual f = false)
              ((λ f : string * PDFField,
                  mkField f.1 f.1 TEXT false 0 None None None None None) <$> l))
    = length l.
Proof.
  induction l as [|e l [IH1 IH2]]; [done|].
  rewrite fmap_cons, filter_cons_False, filter_cons_True by done.
  simpl. by rewrite IH2.
Qed.

(** X22. An upload that is not of type application/pdf, or whose bytes do
    not load, stores nothing and shows an alert. A successful upload adds
    exactly one row under a key that was free, leaves every other row as it
    was, and the row holds the analysed template with its id set to the
    key, no mapping, one native field per form field and no custom
    field. *)
Theorem upload_outcomes
    (h : Host) (now : Z) (file : File)
    (st : State) :
  Dexie.keys_in_range (templates st) →
  let st' := handleFileUpload h now (Some file) st in
  (file_type file ≠ "application/pdf" →
   templates st' = templates st
   ∧ alerts st' = alerts st ++ ["Please upload a PDF file."])
  ∧ (file_type file = "application/pdf" → load h (file_bytes file) = None →
     templates st' = templates st
     ∧ alerts st' = alerts st ++ ["Error processing PDF"])
  ∧ (file_type file = "application/pdf" →
     ∀ pdfDoc, load h (file_bytes file) = Some pdfDoc →
       alerts st' = alerts st
       ∧ Dexie.get (Dexie.nextKey (templates st)) (templates st) = None
       ∧ (∀ k, k ≠ Dexie.nextKey (templates st) →
               Dexie.get k (templates st') = Dexie.get k (templates st))
       ∧ Dexie.keys_in_range (templates st')
       ∧ ∃ t, Dexie.get (Dexie.nextKey (templates st)) (templates st') = Some t
              ∧ template_id t = Some (Dexie.nextKey (templates st))
              ∧ template_name t = replace ".pdf" "" (file_name file)
              ∧ pdfData t = file_bytes file
              ∧ mappings t = []
              ∧ fieldIds t = (doc_form pdfDoc).*1
              ∧ customCount t = 0%nat
              ∧ acroCount t = length (doc_form pdfDoc)).
Proof.
  intros Hr st'. unfold st', handleFileUpload. split_and!.
  - intros Hty. by rewrite decide_True.
  - intros Hty Hload. rewrite decide_False by (by intros H; apply H).
    unfold analyzePDF. by rewrite Hload.
  - intros Hty pdfDoc Hload. rewrite decide_False by (by intros H; apply H).
    unfold analyzePDF. rewrite Hload. simpl.
    destruct (add_keys_in_range with_template_id
                (mkTemplate None (replace ".pdf" "" (file_name file))
                   (file_bytes file)
                   ((λ f : string * PDFField,
                       mkField f.1 f.1 TEXT false 0 None None None None None)
                      <$> doc_form pdfDoc) [] now)
                (templates st) Hr) as (Hfree & Hget & Hother & Hr').
    split_and!; try done.
    eexists. split; [exact Hget|]. simpl. split_and!; try done.
    + unfold fieldIds. simpl. rewrite <-list_fmap_compose.
      by apply list_fmap_ext.
    + unfold customCount. simpl. apply analyzed_fields_counts.
    + unfold acroCount. simpl. apply analyzed_fields_counts.
Qed.

(** X23. The two badges of a template card add up to the number of fields,
    and addManualField raises the custom count by one and leaves the
    AcroFields count. *)
Theorem badge_counts (t : Template) (st : EditorState) (now : Z) :
  (acroCount t + customCount t = length (fields t))%nat
  ∧ (template st = Some t →
     ∃ t', template (TemplateEditor.addManualField now st) = Some t'
           ∧ customCount t' = S (customCount t)
           ∧ acroCount t' = acroCount t).
Proof.
  split.
  - unfold acroCount, customCount.
    induction (fields t) as [|f fs IH]; [done|].
    destruct (isManual f) eqn:Hm.
    + rewrite filter_cons_False, filter_cons_True by congruence. simpl. lia.
    + rewrite filter_cons_True, filter_cons_False by congruence. simpl. lia.
  - intros Ht. unfold TemplateEditor.addManualField. rewrite Ht.
    eexists. split; [done|]. unfold acroCount, customCount. simpl.
    rewrite !filter_app, !length_app.
    rewrite filter_cons_True, filter_cons_False by done. simpl. lia.
Qed.

End TemplateListFacts.

(** * Properties of the profile manager *)

Section ProfileManagerFacts.

Import ProfileManager.

(** X24. saveProfile with an empty name stores nothing, shows an alert and
    keeps the form open. With a name it closes the form; for a new profile
    it adds one row under a free key with the key as id; for an existing
    one it replaces name and fields of that row and keeps the id; other
    rows are untouched, and an editing id of 0 or undefined stores
    nothing. *)
Theorem saveProfile_outcomes (st : State) :
  Dexie.keys_in_range (profiles st) →
  let st' := saveProfile st in
  (profile_name (formData st) = "" →
   profiles st' = profiles st ∧ editingId st' = editingId st
   ∧ alerts st' = alerts st ++ ["Profile Name is required"])
  ∧ (profile_name (formData st) ≠ "" →
     editingId st' = NotEditing ∧ alerts st' = alerts st
     ∧ (editingId st = Editing (-1) →
        Dexie.get (Dexie.nextKey (profiles st)) (profiles st) = None
        ∧ Dexie.get (Dexie.nextKey (profiles st)) (profiles st')
          = Some (mkProfile (Some (Dexie.nextKey (profiles st)))
                            (profile_name (formData st))
                            (profile_fields (formData st)))
        ∧ (∀ k, k ≠ Dexie.nextKey (profiles st) →
                Dexie.get k (profiles st') = Dexie.get k (profiles st))
        ∧ Dexie.keys_in_range (profiles st'))
     ∧ (∀ n, editingId st = Editing n → n ≠ (-1)%Z → n ≠ 0%Z →
          Dexie.get n (profiles st')
          = (λ row, mkProfile (profile_id row) (profile_name (formData st))
                              (profile_fields (formData st)))
              <$> Dexie.get n (profiles st)
          ∧ (∀ k, k ≠ n →
                  Dexie.get k (profiles st') = Dexie.get k (profiles st))
          ∧ Dexie.nextKey (profiles st') = Dexie.nextKey (profiles st))
     ∧ (editingId st = Editing 0 ∨ editingId st = EditingUndefined →
        profiles st' = profiles st)).
Proof.
  intros Hr st'. unfold st', saveProfile. split.
  - intros Hname. by rewrite decide_True.
  - intros Hname. rewrite decide_False by done. simpl.
    split_and!; try done.
    + intros ->. rewrite decide_True by done.
      by apply (add_keys_in_range with_profile_id).
    + intros n -> Hn1 Hn0. rewrite !decide_False by done.
      unfold Dexie.get, Dexie.update. simpl. split_and!; [|by intros; rewrite lookup_alter_ne|done].
      by rewrite lookup_alter_eq.
    + intros [-> | ->]; [|done]. by rewrite decide_False, decide_True.
Qed.

(** X25. Editing a stored profile, changing one field and saving leaves the
    row with the same id and name and that field set; other rows are
    untouched, and the generator then writes the new value for a mapping to
    that key without transformation. *)
Theorem edit_save_round_trip
    (h : Host) (st : State) (p : Profile) (k : Z) (key value : string) :
  Dexie.keys_in_range (profiles st) →
  Dexie.get k (profiles st) = Some p →
  profile_id p = Some k → profile_name p ≠ "" →
  let st' := saveProfile (handleFieldChange key value (startEdit (Some p) st)) in
  Dexie.get k (profiles st')
  = Some (mkProfile (Some k) (profile_name p)
                    (<[key := value]> (profile_fields p)))
  ∧ (∀ k', k' ≠ k → Dexie.get k' (profiles st') = Dexie.get k' (profiles st))
  ∧ editingId st' = NotEditing
  ∧ ∀ p' m, Dexie.get k (profiles st') = Some p' →
            profileKey m = key → transformation m = None →
            mappingValue h p' m = Some (VString value).
Proof.
  intros [_ Hr] Hget Hid Hname st'.
  assert (1 ≤ k)%Z as Hk by (apply Hr; unfold Dexie.get in Hget; by eexists).
  assert (Dexie.get k (profiles st')
          = Some (mkProfile (Some k) (profile_name p)
                            (<[key := value]> (profile_fields p)))) as Hnew.
  { unfold st', saveProfile, handleFieldChange, startEdit. simpl.
    rewrite Hid. simpl. rewrite !decide_False by (done || lia).
    unfold Dexie.get, Dexie.update in *. simpl.
    by rewrite lookup_alter_eq, Hget, <-Hid. }
  split_and!; try done.
  - intros k' Hk'. unfold st', saveProfile, handleFieldChange, startEdit.
    simpl. rewrite Hid. simpl. rewrite !decide_False by (done || lia).
    unfold Dexie.get, Dexie.update. simpl. by rewrite lookup_alter_ne.
  - unfold st', saveProfile, handleFieldChange, startEdit. simpl.
    by rewrite decide_False.
  - intros p' m Hp' Hm Ht. rewrite Hnew in Hp'. injection Hp' as <-.
    rewrite mappingValue_plain; simpl; rewrite Hm, lookup_insert_eq.
    + rewrite Ht. simpl. by repeat case_decide.
    + left. by eexists.
Qed.

(** X26. The mapping tab offers the key "Date", which is not among the keys
    the profile form suggests: for a profile with standard keys only, a
    field bound to "Date" is filled with the empty string. The other
    offered keys are standard keys. *)
Theorem standard_profiles_leave_date_empty
    (h : Host) (p : Profile) (m : Mapping) :
  HostLaws h →
  (∀ k, is_Some (profile_fields p !! k) → k ∈ standardKeys) →
  profileKey m = "Date" →
  mappingValue h p m = Some (VString "")
  ∧ "Date" ∈ mappingOptions
  ∧ ∀ k, k ∈ mappingOptions → k ≠ "Date" → k ∈ standardKeys.
Proof.
  intros Hlaws Hstd Hm.
  assert ("Date" ∉ standardKeys) as Hdate
    by (refine (bool_decide_unpack _ _); vm_compute; exact I).
  split_and!.
  - rewrite mappingValue_plain; rewrite Hm.
    + assert (profile_fields p !! "Date" = None) as ->.
      { apply eq_None_not_Some. intros Hk. by apply Hdate, Hstd. }
      simpl. rewrite (toUpperCase_ascii h Hlaws "" eq_refl).
      rewrite (toLowerCase_ascii h Hlaws "" eq_refl).
      by repeat case_decide.
    + right. refine (bool_decide_unpack _ _). vm_compute. exact I.
  - refine (bool_decide_unpack _ _). vm_compute. exact I.
  - unfold mappingOptions. intros k Hk Hne.
    repeat (apply elem_of_cons in Hk as [->|Hk];
            [try done; refine (bool_decide_unpack _ _); vm_compute; exact I|]).
    by apply elem_of_nil in Hk.
Qed.

Lemma customKeys_elem st k :
  k ∈ customKeys st
  ↔ (k ∉ standardKeys) ∧ is_Some (profile_fields (formData st) !! k).
Proof.
  unfold customKeys. rewrite list_elem_of_filter, list_elem_of_fmap.
  split.
  - intros [Hk ([k' v] & -> & Hin)]. split; [done|].
    apply elem_of_map_to_list in Hin. by exists v.
  - intros [Hk [v Hv]]. split; [done|]. exists (k, v). split; [done|].
    by apply elem_of_map_to_list.
Qed.

(** X28. The "Add Field" button does nothing for an empty name. For any
    other name it sets that key to the empty string, also when the key
    already had a value, and leaves every other key and the stored
    profiles alone; the key shows under "Custom Keys" unless it is a
    standard key. *)
Theorem add_field_resets_the_value (input : string) (st : State) :
  (input = "" → onAddField input st = st)
  ∧ (input ≠ "" →
     profile_fields (formData (onAddField input st)) !! input = Some ""
     ∧ (∀ k, k ≠ input →
             profile_fields (formData (onAddField input st)) !! k
             = profile_fields (formData st) !! k)
     ∧ profiles (onAddField input st) = profiles st
     ∧ (∀ k, k ∈ customKeys (onAddField input st)
             ↔ k ∈ customKeys st ∨ (k = input ∧ input ∉ standardKeys))).
Proof.
  unfold onAddField. split.
  - intros ->. by rewrite decide_True.
  - intros Hne. rewrite decide_False by done. split_and!.
    + simpl. apply lookup_insert_eq.
    + intros k Hk. simpl. by apply lookup_insert_ne.
    + done.
    + intros k. rewrite !customKeys_elem. simpl.
      destruct (decide (k = input)) as [->|Hk].
      * rewrite lookup_insert_eq. split.
        -- intros [Hs _]. by right.
        -- intros [[Hs _]|[_ Hs]]; (split; [done|by eexists]).
      * rewrite lookup_insert_ne by done. split.
        -- intros H. by left.
        -- intros [H|[-> _]]; done.
Qed.

End ProfileManagerFacts.

(** * The further properties on concrete data *)

Lemma empty_table_in_range {A : Type} : Dexie.keys_in_range (@Dexie.empty A).
Proof.
  split; [simpl; lia|]. intros k [r Hk]. simpl in Hk.
  by rewrite lookup_empty in Hk.
Qed.

Lemma X1_witness :
  ∃ pdfDoc,
    load Sample.host Sample.bytes = Some pdfDoc
    ∧ fillMappings Sample.host Sample2.analyzed Sample.profile
        (mappings Sample2.analyzed) (mkGen pdfDoc [] [])
      = Normal (mkGen pdfDoc [] [])
    ∧ generateFilledPDF Sample.host Sample2.analyzed Sample.profile
      = match save Sample.host pdfDoc with
        | Some bytes => Resolved (mkGenerated bytes (mkGen pdfDoc [] []))
        | None => Rejected
        end.
Proof.
  apply (analyzed_template_generates_unchanged Sample.host
           0 Sample.bytes "form" Sample2.analyzed Sample.profile).
  reflexivity.
Defined.

Lemma X2_witness :
  let st := state_of (fillMappings Sample.host Sample2.stored Sample.profile
                        (mappings Sample2.stored) (mkGen Sample.doc [] [])) in
  doc_extends Sample.doc (gs_doc st)
  ∧ length (doc_pages (gs_doc st)) = length (doc_pages Sample.doc)
  ∧ (doc_form (gs_doc st)).*1 = (doc_form Sample.doc).*1
  ∧ ∀ out, generateFilledPDF Sample.host Sample2.stored Sample.profile
           = Resolved out → out_state out = st.
Proof.
  apply (generation_only_adds_text Sample.host Sample2.stored
           Sample.profile Sample.doc).
  reflexivity.
Defined.

Lemma X3_witness :
  generateFilledPDF Sample.host Sample2.stored Sample.profile
  = generateFilledPDF Sample.host
      (mkTemplate (Some 7%Z) "renamed" Sample.bytes
         [mkField "custom_1" "Applicant" CHECKBOX true 0
                  (Some 50%Q) (Some 50%Q) (Some 150%Q) (Some 30%Q) None;
          mkField "signature_date" "Signed on" TEXT false 3
                  (Some 10%Q) (Some 10%Q) None None (Some 40%Q)]
         (mappings Sample2.stored) 99)
      Sample.profile.
Proof.
  apply (generation_reads_only_the_view Sample.host);
    reflexivity.
Defined.

Lemma X4_witness :
  let st := state_of (fillMappings Sample.host Sample2.stored Sample.profile
                        (mappings Sample2.stored) (mkGen Sample.doc [] [])) in
  (length (gs_calls st) + length (gs_console st)
   ≤ length (mappings Sample2.stored))%nat
  ∧ ∀ out, generateFilledPDF Sample.host Sample2.stored Sample.profile
           = Resolved out → out_state out = st.
Proof.
  apply (generation_one_effect_per_mapping Sample.host
           Sample2.stored Sample.profile Sample.doc).
  reflexivity.
Defined.

Lemma X5_witness :
  ∃ out,
    generateFilledPDF Sample.host
      (Sample.template [Sample.custom_1]
         [mkMapping "custom_1" "Phone" (Some "uppercase")])
      Sample.profile = Resolved out
    ∧ gs_calls (out_state out) ≠ []
    ∧ Forall (λ c, call_value c = VString "") (gs_calls (out_state out)).
Proof.
  eexists. split; [reflexivity|]. split; [discriminate|].
  apply (generation_missing_keys_write_empty Sample.host
           (Sample.template [Sample.custom_1]
              [mkMapping "custom_1" "Phone" (Some "uppercase")])
           Sample.profile _ Sample_host_laws).
  - intros m Hm. simpl in Hm. apply list_elem_of_singleton in Hm as ->.
    reflexivity.
  - reflexivity.
Defined.

Lemma X6_witness :
  ∃ out,
    generateFilledPDF Sample.host Sample2.stored Sample.profile = Resolved out
    ∧ ∃ s,
        mappingValue Sample.host Sample.profile
          (mkMapping "custom_1" "Full Name" None) = Some (VString s)
        ∧ Helvetica Sample.host s = true
        ∧ PageDrawText 0 (VString s)
            (mkDrawText 50 (792 - num_or (Some 50%Q) 0 - num_or (Some 30%Q) 20 + 4)
                        (num_or (Some 12%Q) 12) (Some 150%Q))
          ∈ gs_calls (out_state out).
Proof.
  eexists. split; [reflexivity|].
  apply (placeable_manual_mapping_is_painted Sample.host
           Sample2.stored Sample.profile Sample.doc
           (mkMapping "custom_1" "Full Name" None) Sample.custom_1
           Sample.page 50 50); try reflexivity.
  left.
Defined.

(** X7 on a form whose field "zip" takes five characters at most:
    "signature_date" receives the date, "zip" refuses the eight characters
    of the name and stays empty. *)
Lemma X7_witness :
  let t := Sample.template [Sample.native "signature_date"; Sample.native "zip"]
             [mkMapping "signature_date" "Date" (Some "uppercase");
              mkMapping "zip" "Full Name" None] in
  ∃ out,
    generateFilledPDF Sample.host t Sample.profile = Resolved out
    ∧ FormSetText "signature_date" (VString "2024-01-01")
      ∈ gs_calls (out_state out)
    ∧ getField (doc_form (gs_doc (out_state out))) "signature_date"
      = Some (0%nat, PDFTextField (Some "2024-01-01") None true)
    ∧ "zip" ∈ gs_console (out_state out)
    ∧ getField (doc_form (gs_doc (out_state out))) "zip"
      = Some (1%nat, PDFTextField None (Some 5%nat) false).
Proof.
  intros t. eexists. split; [reflexivity|].
  assert (NoDup (mappedIds (mappings t))) as Hnd
    by (refine (bool_decide_unpack _ _); vm_compute; exact I).
  destruct (writable_native_mapping_is_written Sample.host t Sample.profile
              Sample.doc (mkMapping "signature_date" "Date" (Some "uppercase"))
              (Sample.native "signature_date") 0 None None false _
              eq_refl Hnd (list_elem_of_here _ _) eq_refl eq_refl eq_refl eq_refl)
    as (v & Hv & _ & Hyes & _).
  injection Hv as <-.
  destruct (Hyes eq_refl) as (s & Hs & Hcall & Hget). injection Hs as <-.
  destruct (writable_native_mapping_is_written Sample.host t Sample.profile
              Sample.doc (mkMapping "zip" "Full Name" None)
              (Sample.native "zip") 1 None (Some 5%nat) false _
              eq_refl Hnd (list_elem_of_further _ _ _ (list_elem_of_here _ _))
              eq_refl eq_refl eq_refl eq_refl)
    as (v' & Hv' & _ & _ & Hno).
  injection Hv' as <-.
  destruct (Hno eq_refl) as [Hlog Hkept].
  split; [exact Hcall|]. split; [exact Hget|]. split; [exact Hlog|exact Hkept].
Defined.

Lemma X9_witness :
  ∃ t2 page m,
    template (TemplateEditor.saveMapping ("custom_" +:+ pretty 5%Z) "Full Name"
                (TemplateEditor.addManualField 5 Sample2.editor)) = Some t2
    ∧ page_at (doc_pages Sample.doc) (currentPage Sample2.editor - 1) = Some page
    ∧ m ∈ mappings t2
    ∧ templateFieldId m = "custom_" +:+ pretty 5%Z
    ∧ profileKey m = "Full Name"
    ∧ ∀ out, generateFilledPDF Sample.host t2 Sample.profile = Resolved out →
        ∃ s, mappingValue Sample.host Sample.profile m = Some (VString s)
             ∧ Helvetica Sample.host s = true
             ∧ PageDrawText (currentPage Sample2.editor - 1) (VString s)
                 (mkDrawText 50 (page_height page - 50 - 30 + 4) 12
                             (Some 150%Q))
               ∈ gs_calls (out_state out).
Proof.
  apply (added_and_mapped_field_is_painted Sample.host
           Sample2.editor Sample2.stored Sample.doc 5 "Full Name"
           Sample.profile); try reflexivity.
  - simpl. lia.
  - refine (bool_decide_unpack _ _). vm_compute. exact I.
  - discriminate.
Defined.

Lemma X11_witness :
  let st' := MobileEditor.dragGesture Sample.custom_1 100 100
               ([(130%Q, 90%Q)] ++ [(120%Q, 140%Q)]) Sample2.editor in
  template st'
  = Some (with_fields Sample2.stored
            (dragged 2 Sample.custom_1 100 100 120 140
               <$> fields Sample2.stored))
  ∧ selectedFieldId st' = Some "custom_1"
  ∧ showProperties st' = true
  ∧ currentPage st' = 1%Z
  ∧ db_updates st'
    = [] ++ [mkDbUpdate (Some 1%Z) (FieldsOnly (fields Sample2.stored))].
Proof.
  apply (drag_gesture_result Sample2.editor Sample2.stored Sample.custom_1
           100 100 [(130%Q, 90%Q)] 120 140).
  reflexivity.
Defined.

Lemma X12_witness :
  let st' := MobileEditor.onNameChange "Applicant" Sample2.editor in
  (name <$> selectedField st') = Some "Applicant"
  ∧ fields <$> Dexie.get 1 (replay (db_updates st') Sample2.table)
    = Some (fields Sample2.stored).
Proof.
  destruct (sheet_edit_is_persisted_one_edit_late Sample2.editor Sample2.stored
              Sample.custom_1
              (λ _, mkUpdates None (Some "Applicant") None None None
                              None None None None None)
              1 Sample2.table eq_refl eq_refl eq_refl eq_refl
              (ex_intro _ Sample2.stored eq_refl))
    as (_ & _ & Hstore).
  split; [reflexivity|exact Hstore].
Defined.

Lemma X13_witness :
  fields <$> Dexie.get 1
    (replay (db_updates (MobileEditor.dragGesture Sample.custom_1 100 100
                           [(130%Q, 90%Q); (120%Q, 140%Q)] Sample2.editor))
            Sample2.table)
  = Some (fields Sample2.stored).
Proof.
  apply (drag_is_persisted_as_it_started Sample2.editor Sample2.stored);
    [reflexivity|reflexivity|].
  exists Sample2.stored. reflexivity.
Defined.

Lemma X14_witness :
  Dexie.get 1
    (replay (db_updates (act Desktop
                           (MobileEditor.onNameChange "Applicant" Sample2.editor)
                           (SaveMapping "custom_1" "Email")))
            Sample2.table)
  = template (act Desktop
                (MobileEditor.onNameChange "Applicant" Sample2.editor)
                (SaveMapping "custom_1" "Email")).
Proof.
  eapply (whole_template_writes_resynchronise Desktop
            (MobileEditor.onNameChange "Applicant" Sample2.editor) _
            (SaveMapping "custom_1" "Email") 1 Sample2.table);
    [reflexivity|reflexivity| |exact I].
  exists Sample2.stored. reflexivity.
Defined.

Lemma X15_witness :
  ∃ f', selectedField
          (DesktopRest.fontPresses [false; false; true; false] Sample2.editor)
        = Some f'
        ∧ id f' = "custom_1" ∧ x f' = Some 50%Q ∧ y f' = Some 50%Q
        ∧ width f' = Some 150%Q ∧ height f' = Some 30%Q
        ∧ (6 <= num_or (fontSize f') 12 <= 72)%Q.
Proof.
  apply (desktop_font_buttons_stay_in_range [false; false; true; false]
           Sample2.editor Sample.custom_1);
    [reflexivity|discriminate|].
  split; discriminate.
Defined.

(** X16 on [custom_1] at font size 1: the button stores 0, read as 12. *)
Lemma X16_witness :
  ∃ f', selectedField (MobileEditor.onFontMinus Sample2.tiny_editor) = Some f'
        ∧ fontSize f' = Some (1 - 1)%Q
        ∧ num_or (fontSize f') 12 = 12%Q.
Proof.
  destruct (mobile_font_minus_wraps_at_one Sample2.tiny_editor Sample2.tiny
              eq_refl eq_refl) as (f' & Hsel & Hsize & Hwrap & _).
  exists f'. split; [exact Hsel|]. split; [exact Hsize|].
  apply Hwrap. reflexivity.
Defined.

Lemma X17_witness :
  let st' := TemplateEditor.deleteField ("custom_" +:+ pretty 5%Z)
               (TemplateEditor.addManualField 5 Sample2.editor) in
  template st' = Some Sample2.stored
  ∧ selectedFieldId st' = None
  ∧ length (db_updates st') = 2%nat
  ∧ last (db_updates st')
    = Some (mkDbUpdate (Some 1%Z) (WholeTemplate Sample2.stored)).
Proof.
  apply (delete_undoes_add Sample2.editor Sample2.stored 5); try reflexivity.
  - refine (bool_decide_unpack _ _). vm_compute. exact I.
  - refine (bool_decide_unpack _ _). vm_compute. exact I.
Defined.

Lemma X18_witness :
  ∃ t', template
          (foldl (act Mobile) (opened Sample2.analyzed)
             [AddManualField 5; SaveMapping "custom_5" "Phone";
              SaveMapping "agree" "Email"; DeleteField "agree"])
        = Some t'
        ∧ no_orphans t'
        ∧ ∀ m, m ∈ mappings t' → is_Some (fieldOf t' m).
Proof.
  apply (ui_runs_leave_no_orphans Mobile
           [AddManualField 5; SaveMapping "custom_5" "Phone";
            SaveMapping "agree" "Email"; DeleteField "agree"]
           (opened Sample2.analyzed) Sample2.analyzed eq_refl).
  - intros m Hm. simpl in Hm. by apply elem_of_nil in Hm.
  - simpl. split_and!; try exact I.
    + eexists. split; [reflexivity|].
      refine (bool_decide_unpack _ _). vm_compute. exact I.
    + eexists. split; [reflexivity|].
      refine (bool_decide_unpack _ _). vm_compute. exact I.
Defined.

Lemma X19_witness :
  ∃ t ps profile pdfDoc final,
    template Sample2.editor = Some t ∧ Some [Sample2.jane] = Some ps
    ∧ profile ∈ ps
    ∧ profile_id profile = Some 1%Z
    ∧ Some 1%Z ≠ Some 0%Z
    ∧ load Sample.host (pdfData t) = Some pdfDoc
    ∧ "form_Me.pdf" = template_name t +:+ "_" +:+ profile_name profile +:+ ".pdf"
    ∧ fillMappings Sample.host t profile (mappings t) (mkGen pdfDoc [] [])
      = Normal final
    ∧ save Sample.host (gs_doc final) = Some [37; 80; 68; 70; 0; 0; 0; 1]%Z.
Proof.
  apply (handleGenerate_downloads_the_complete_file Sample.host
           (Some [Sample2.jane]) (Some 1%Z) Sample2.editor "form_Me.pdf"
           [37; 80; 68; 70; 0; 0; 0; 1]%Z).
  reflexivity.
Defined.

Lemma X21_witness :
  TemplateList.replace ".pdf" "" ("report" +:+ ".pdf" +:+ "") = "report" +:+ "".
Proof.
  apply (upload_name_without_extension "report" ""). reflexivity.
Defined.

Lemma X22_witness :
  ∃ t, Dexie.get 1
         (TemplateList.templates
            (TemplateList.handleFileUpload Sample.host 0 (Some Sample2.file)
               (TemplateList.mkState Dexie.empty [])))
       = Some t
       ∧ template_id t = Some 1%Z
       ∧ template_name t = "form"
       ∧ mappings t = []
       ∧ fieldIds t = ["signature_date"; "zip"; "agree"].
Proof.
  destruct (upload_outcomes Sample.host 0 Sample2.file
              (TemplateList.mkState Dexie.empty []) empty_table_in_range)
    as (_ & _ & Hok).
  destruct (Hok eq_refl Sample.doc eq_refl)
    as (_ & _ & _ & _ & t & Hget & Hid & Hname & _ & Hm & Hf & _).
  exists t. split_and!; [exact Hget|exact Hid|exact Hname|exact Hm|exact Hf].
Defined.

Lemma X24_witness :
  Dexie.get 1
    (ProfileManager.profiles
       (ProfileManager.saveProfile
          (ProfileManager.onNameChange "Dad"
             (ProfileManager.startEdit None
                (ProfileManager.mkState ProfileManager.NotEditing
                   Sample2.jane Dexie.empty [])))))
  = Some (mkProfile (Some 1%Z) "Dad" ∅).
Proof.
  destruct (saveProfile_outcomes
              (ProfileManager.onNameChange "Dad"
                 (ProfileManager.startEdit None
                    (ProfileManager.mkState ProfileManager.NotEditing
                       Sample2.jane Dexie.empty [])))
              empty_table_in_range) as [_ Hsave].
  destruct Hsave as (_ & _ & Hnew & _); [discriminate|].
  destruct (Hnew eq_refl) as (_ & Hget & _). exact Hget.
Defined.

Lemma X25_witness :
  Dexie.get 1
    (ProfileManager.profiles
       (ProfileManager.saveProfile
          (ProfileManager.handleFieldChange "Phone" "555 0100"
             (ProfileManager.startEdit (Some Sample2.jane) Sample2.manager))))
  = Some (mkProfile (Some 1%Z) "Me"
                    (<["Phone" := "555 0100"]> {[ "Full Name" := "Jane Doe" ]})).
Proof.
  apply (edit_save_round_trip Sample.host Sample2.manager Sample2.jane 1
           "Phone" "555 0100").
  - apply add_keys_in_range, empty_table_in_range.
  - reflexivity.
  - reflexivity.
  - discriminate.
Defined.

Lemma X26_witness :
  mappingValue Sample.host Sample2.jane
    (mkMapping "signature_date" "Date" (Some "uppercase"))
  = Some (VString "")
  ∧ "Date" ∈ mappingOptions
  ∧ ∀ k, k ∈ mappingOptions → k ≠ "Date" → k ∈ ProfileManager.standardKeys.
Proof.
  apply (standard_profiles_leave_date_empty Sample.host Sample2.jane
           (mkMapping "signature_date" "Date" (Some "uppercase"))
           Sample_host_laws);
    [|reflexivity].
  intros k [v Hk]. simpl in Hk. apply lookup_singleton_Some in Hk as [<- _].
  refine (bool_decide_unpack _ _). vm_compute. exact I.
Defined.

Lemma X27_witness :
  TemplateEditor.newField 5 (currentPage Sample2.editor)
  ∈ currentFields (TemplateEditor.addManualField 5 Sample2.editor).
Proof.
  destruct (new_field_is_shown_on_its_page
              Sample2.editor Sample2.stored 5 eq_refl) as [Hin _].
  exact Hin.
Defined.

Lemma X28_witness :
  profile_fields
    (ProfileManager.formData
       (ProfileManager.onAddField "Full Name"
          (ProfileManager.startEdit (Some Sample2.jane) Sample2.manager)))
  !! "Full Name" = Some "".
Proof.
  destruct (add_field_resets_the_value "Full Name"
              (ProfileManager.startEdit (Some Sample2.jane) Sample2.manager))
    as [_ Hadd].
  destruct Hadd as [Hset _]; [discriminate|]. exact Hset.
Defined.

(** X29 on an empty template, on page 2, at clock reading 1700000000000. *)
Lemma X29_witness :
  ∃ t',
    template
      (TemplateEditor.addManualField 1700000000000
         (mkEditor (Some (Sample.template [] [])) 2 1 None false []))
    = Some t'
    ∧ fields t'
      = [mkField "custom_1700000000000" "New Field" TEXT true 1
                 (Some 50%Q) (Some 50%Q) (Some 150%Q) (Some 30%Q) (Some 12%Q)]
    ∧ NoDup (fieldIds t').
Proof.
  destruct (addManualField_appends_default_box
              (mkEditor (Some (Sample.template [] [])) 2 1 None false [])
              (Sample.template [] []) 1700000000000 eq_refl)
    as (_ & _ & t' & Ht & Hf & _ & _ & _ & Hnd & _).
  exists t'. split; [exact Ht|]. split; [exact Hf|].
  apply Hnd; [apply NoDup_nil_2|apply not_elem_of_nil].
Defined.

Lemma X30_witness :
  mappingValue Sample.host Sample.profile
    (mkMapping "custom_1" "Full Name" (Some "uppercase"))
  = Some (VString "JANE DOE")
  ∧ mappingValue Sample.host Sample.profile
      (mkMapping "custom_1" "Phone" None)
    = Some (VString "").
Proof.
  split.
  - destruct (plain_key_value_follows_the_specification Sample.host
                Sample.profile
                (mkMapping "custom_1" "Full Name" (Some "uppercase"))
                (or_introl (ex_intro _ "Jane Doe" eq_refl)))
      as (_ & _ & Hspec).
    exact (Hspec Sample_host_laws eq_refl).
  - destruct (plain_key_value_follows_the_specification Sample.host
                Sample.profile (mkMapping "custom_1" "Phone" None))
      as (_ & Hraw & _).
    + right. refine (bool_decide_unpack _ _). vm_compute. exact I.
    + apply Hraw; discriminate.
Defined.

Lemma X31_witness :
  ∃ st,
    fillMappings Sample.host Sample2.stored Sample.profile
      (mappings Sample2.stored) (mkGen Sample.doc [] []) = Normal st
    ∧ generateFilledPDF Sample.host Sample2.stored Sample.profile
      = match save Sample.host (gs_doc st) with
        | Some bytes => Resolved (mkGenerated bytes st)
        | None => Rejected
        end
    ∧ ∀ m, m ∈ mappings Sample2.stored → fieldOf Sample2.stored m ≠ None →
           filled Sample.host Sample2.stored Sample.profile Sample.doc st m.
Proof.
  apply (printable_values_never_throw Sample.host Sample2.stored Sample.profile
           Sample.doc Sample_host_laws eq_refl).
  intros m Hm _. simpl in Hm.
  apply elem_of_cons in Hm as [->|Hm];
    [|apply list_elem_of_singleton in Hm as ->];
    (split; [left; by eexists|reflexivity]).
Defined.
